(** * rep.estimators.theanets: the TheanetsClassifier adapter

    A shallow embedding of [TheanetsClassifier] (rep/estimators/theanets.py)
    and the properties of its fit / partial_fit / set_params / pickling
    protocol.

    The adapter is a Python object: its state is the instance dictionary
    ([self.__dict__]), the dictionaries reachable from it (the network options
    and the stages of the trainer schedule) live in a store and are referred to
    by reference, so that in-place updates are seen through every alias.
    Exceptions do not roll the state back: a computation returns the state it
    reached together with either a value or the exception raised. *)

From Stdlib Require Import ZArith Ascii String DecimalString DecimalNat Strings.Byte Sorted.
From stdpp Require Import gmap strings list fin_maps.

#[local] Set Warnings "-register-all".

Local Open Scope string_scope.
Local Open Scope list_scope.
Local Open Scope Z_scope.

(** ** Exceptions *)

Inductive exn : Type :=
  | AttributeError (msg : string)
  | KeyError (key : string)
  | IndexError (msg : string)
  | TypeError (msg : string)
  | ValueError (msg : string)
  | IOError (msg : string)
  | NotImplementedError (msg : string)
  | AssertionError (msg : string)
  | LibraryError (msg : string).
      (* raised inside an external collaborator, propagated unmodified *)

(** The outcome of a call into a collaborator. *)
Definition result (A : Type) : Type := exn + A.

(** ** Values of the object graph *)

(** The carriers owned by the external libraries: the theanets experiment
    (the trained network handle), the feature table handed in by the caller,
    the numeric matrix produced by preprocessing and the probability matrix
    returned by the network. *)
Class Externals : Type := {
  Experiment : Type;
  Table : Type;
  Matrix : Type;
  Proba : Type;
}.

(** Dictionaries are mutable objects held in the store. *)
Definition loc : Type := positive.

Section Values.
Context {ext : Externals}.

Inductive Value : Type :=
  | VNone
  | VBool (b : bool)
  | VInt (z : Z)
  | VFloat (bits : Z)            (* a double, as its 64-bit pattern *)
  | VStr (s : string)
  | VBytes (b : list byte)
  | VList (vs : list Value)
  | VTuple (vs : list Value)
  | VArray (a : list Z)          (* a numpy array of integer labels *)
  | VRef (l : loc)               (* a dict object of the store *)
  | VExp (e : Experiment)
  | VSelf.                       (* the adapter object itself *)

Definition Dict : Type := gmap string Value.
Definition Heap : Type := gmap loc (gmap string Value).

(** The state a method runs in: the instance dictionary of [self], the
    store of dict objects, the file system and what was printed. *)
Record World : Type := mkWorld {
  attrs : gmap string Value;
  heap : gmap loc (gmap string Value);
  fs : gmap string (list byte);
  stdout : list Value;
}.

Definition with_attrs (f : gmap string Value → gmap string Value) (w : World) : World :=
  mkWorld (f (attrs w)) (heap w) (fs w) (stdout w).
Definition with_heap (f : gmap loc (gmap string Value) → gmap loc (gmap string Value))
    (w : World) : World :=
  mkWorld (attrs w) (f (heap w)) (fs w) (stdout w).
Definition with_fs (f : gmap string (list byte) → gmap string (list byte)) (w : World) : World :=
  mkWorld (attrs w) (heap w) (f (fs w)) (stdout w).
Definition with_stdout (f : list Value → list Value) (w : World) : World :=
  mkWorld (attrs w) (heap w) (fs w) (f (stdout w)).

(** ** The monad of methods: state that survives exceptions *)

Definition M (A : Type) : Type := World → World * (exn + A).

Definition ret {A} (a : A) : M A := λ w, (w, inr a).
Definition raise {A} (e : exn) : M A := λ w, (w, inl e).
Definition bind {A B} (m : M A) (k : A → M B) : M B :=
  λ w, match m w with
       | (w', inr a) => k a w'
       | (w', inl e) => (w', inl e)
       end.
Definition lift {A} (r : result A) : M A :=
  λ w, (w, r).
Definition modify (f : World → World) : M unit := λ w, (f w, inr tt).
Definition gets {A} (f : World → A) : M A := λ w, (w, inr (f w)).

End Values.

Notation "'let*' x := m 'in' k" := (bind m (λ x, k))
  (at level 10, x name, m at level 100, k at level 200).
Notation "m ;;; k" := (bind m (λ _, k))
  (at level 100, k at level 200, right associativity).

(** ** The collaborators

    Everything the adapter calls but does not define: the validation routine
    and the base class of the estimator family, sklearn's imputer and scaler,
    numpy, theanets, and the temporary-file name generator. Each may raise. *)
Class Collaborators {ext : Externals} : Type := {
  (* rep.estimators.utils.check_inputs *)
  check_inputs : Table → list Z → Value → result (Table * list Z * Value);
  (* Classifier._get_train_features(data, allow_nans=True), reading self.features *)
  get_train_features : Value → Table → result Matrix;
  (* the names defined by the base classes of TheanetsClassifier *)
  inherited_attrs : list string;
  (* sklearn.preprocessing *)
  Imputer_fit_transform : Matrix → result Matrix;
  MinMaxScaler_fit_transform : Matrix → result Matrix;
  (* numpy *)
  shape1 : Matrix → nat;
  astype_float32 : Matrix → Matrix;
  (* theanets *)
  tnt_Experiment : Value → gmap string Value → result Experiment;
  exp_train : Experiment → Matrix → list Z → gmap string Value → result Experiment;
  network_predict : Experiment → Matrix → result Proba;
  exp_save : Experiment → result (list byte);
  exp_load : Experiment → list byte → result Experiment;
  (* tempfile: the name NamedTemporaryFile picks *)
  mktemp : gmap string (list byte) → string;
}.

(** ** Python primitives used by the adapter *)

Module Py.

(** [str.partition('_')]: the part before the first separator, the separator
    found (empty when there is none) and the rest. *)
Fixpoint partition (sep : Ascii.ascii) (s : string) : string * string * string :=
  match s with
  | EmptyString => (EmptyString, EmptyString, EmptyString)
  | String c r =>
      if Ascii.eqb c sep then (EmptyString, String sep EmptyString, r)
      else let '(h, p, t) := partition sep r in (String c h, p, t)
  end.

(** [s[n:]] *)
Fixpoint slice_from (n : nat) (s : string) : string :=
  match n, s with
  | O, _ => s
  | S n', EmptyString => EmptyString
  | S n', String _ r => slice_from n' r
  end.

Definition is_space (c : Ascii.ascii) : bool :=
  let n := Ascii.nat_of_ascii c in
  ((9 <=? n)%nat && (n <=? 13)%nat) || (n =? 32)%nat.

Definition digit_of (c : Ascii.ascii) : option Z :=
  let n := Ascii.nat_of_ascii c in
  if ((48 <=? n)%nat && (n <=? 57)%nat) then Some (Z.of_nat (n - 48)) else None.

Fixpoint skip_spaces (s : string) : string :=
  match s with
  | String c r => if is_space c then skip_spaces r else s
  | EmptyString => EmptyString
  end.

Fixpoint all_spaces (s : string) : bool :=
  match s with
  | String c r => is_space c && all_spaces r
  | EmptyString => true
  end.

(** The digits of a literal, then only trailing white space. *)
Fixpoint digits (acc : Z) (seen : bool) (s : string) : option Z :=
  match s with
  | EmptyString => if seen then Some acc else None
  | String c r =>
      match digit_of c with
      | Some d => digits (10 * acc + d) true r
      | None => if seen && all_spaces s then Some acc else None
      end
  end.

Definition parse_int (s : string) : option Z :=
  match skip_spaces s with
  | String "+"%char r => digits 0 false r
  | String "-"%char r => Z.opp <$> digits 0 false r
  | t => digits 0 false t
  end.

(** [int(s)] on a [str] of ASCII characters: optional surrounding white
    space, an optional sign, decimal digits. *)
Definition int (s : string) : result Z :=
  match parse_int s with
  | Some z => inr z
  | None => inl (ValueError ("invalid literal for int() with base 10: '" +:+ s +:+ "'"))
  end.

(** [l[i]] on a list: negative indices count from the end. *)
Definition list_index {A} (l : list A) (i : Z) : result (nat * A) :=
  let n := Z.of_nat (length l) in
  let j := if i <? 0 then i + n else i in
  if (j <? 0) || (n <=? j) then inl (IndexError "list index out of range")
  else match l !! Z.to_nat j with
       | Some a => inr (Z.to_nat j, a)
       | None => inl (IndexError "list index out of range")
       end.

(** [numpy.unique]: the sorted distinct elements. *)
Fixpoint insert_sorted (x : Z) (l : list Z) : list Z :=
  match l with
  | [] => [x]
  | y :: r => if x <? y then x :: l
              else if x =? y then l
              else y :: insert_sorted x r
  end.
Definition unique (l : list Z) : list Z := foldr insert_sorted [] l.

(** [a.astype(numpy.int32)] on integers: the low 32 bits, signed. *)
Definition astype_int32 (z : Z) : Z := (z + 2^31) mod 2^32 - 2^31.

End Py.

(** ** The adapter *)

Section TheanetsClassifier.
Context {ext : Externals} {col : Collaborators}.

(** *** Object primitives

    Attribute values are dynamically typed. The model follows Python on the
    types the class documents (ints for the layer sizes, lists and tuples
    as sequences, dicts behind references); an operation applied to a value
    of any other type raises [TypeError] or [AttributeError] at that
    operation. *)

Definition is_none (v : Value) : bool :=
  match v with VNone => true | _ => false end.

(** [v == -1] for the numeric types. *)
Definition eq_minus_one (v : Value) : bool :=
  match v with
  | VInt z => z =? -1
  | VFloat bits => bits =? 0xBFF0000000000000
  | _ => false
  end.

Definition getattr (name : string) : M Value :=
  λ w, match attrs w !! name with
       | Some v => (w, inr v)
       | None => (w, inl (AttributeError
                   ("'TheanetsClassifier' object has no attribute '" +:+ name +:+ "'")))
       end.

Definition setattr (name : string) (v : Value) : M unit :=
  modify (with_attrs (insert name v)).

(** The names the class itself defines. *)
Definition class_attrs : list string :=
  ["__init__"; "__getstate__"; "__setstate__"; "set_params"; "get_params";
   "_transform_data"; "_check_fitted"; "fit"; "partial_fit"; "predict_proba";
   "staged_predict_proba"; "__doc__"; "__module__"].

Definition hasattr (name : string) : M bool :=
  gets (λ w, bool_decide (is_Some (attrs w !! name))
             || bool_decide (name ∈ class_attrs)
             || bool_decide (name ∈ inherited_attrs)).

(** The dict a value refers to. *)
Definition mapping (what : string) (v : Value) : M (loc * gmap string Value) :=
  match v with
  | VRef l => λ w, match heap w !! l with
                   | Some d => (w, inr (l, d))
                   | None => (w, inl (TypeError (what +:+ ": reference to no object")))
                   end
  | _ => raise (TypeError (what +:+ " must be a mapping"))
  end.

(** A fresh dict object. *)
Definition new_dict (d : gmap string Value) : M Value :=
  λ w, let l := fresh (dom (heap w)) in
       (with_heap (insert l d) w, inr (VRef l)).

(** [d[key] = value] *)
Definition setitem (d : Value) (key : string) (value : Value) : M unit :=
  let* ld := mapping "subscript assignment" d in
  modify (with_heap (insert ld.1 (<[key := value]> ld.2))).

(** [for x in v] and [v[i]] on the sequence types. *)
Definition sequence (what : string) (v : Value) : M (list Value) :=
  match v with
  | VList vs | VTuple vs => ret vs
  | _ => raise (TypeError (what +:+ " must be a list or a tuple"))
  end.

Definition len (v : Value) : M Z :=
  match v with
  | VList vs | VTuple vs => ret (Z.of_nat (length vs))
  | VArray a => ret (Z.of_nat (length a))
  | VStr s => ret (Z.of_nat (String.length s))
  | VBytes b => ret (Z.of_nat (length b))
  | VRef _ => let* ld := mapping "len" v in ret (Z.of_nat (size ld.2))
  | _ => raise (TypeError "object has no len()")
  end.

Definition print (v : Value) : M unit :=
  modify (with_stdout (λ out, out ++ [v])).

(** *** Files *)

Definition write_file (name : string) (content : list byte) : M unit :=
  modify (with_fs (insert name content)).

Definition read_file (name : string) : M (list byte) :=
  λ w, match fs w !! name with
       | Some b => (w, inr b)
       | None => (w, inl (IOError ("No such file or directory: '" +:+ name +:+ "'")))
       end.

(** [with tempfile.NamedTemporaryFile() as dump: body(dump.name)]: the file
    is created empty and deleted when the block is left, normally or by an
    exception. *)
Definition with_NamedTemporaryFile {A} (body : string → M A) : M A :=
  λ w, let name := mktemp (fs w) in
       let '(w', r) := body name (with_fs (insert name []) w) in
       (with_fs (delete name) w', r).

(** *** Construction *)

Record InitArgs : Type := {
  layers : Value;
  input_layer : Value;
  output_layer : Value;
  hidden_activation : Value;
  output_activation : Value;
  rng : Value;
  input_noise : Value;
  hidden_noise : Value;
  input_dropouts : Value;
  hidden_dropouts : Value;
  decode_from : Value;
  features : Value;
  trainers : Value;
}.

Definition default_args : InitArgs := {|
  layers := VList [VInt 10];
  input_layer := VInt (-1);
  output_layer := VInt (-1);
  hidden_activation := VStr "logistic";
  output_activation := VStr "linear";
  rng := VNone;
  input_noise := VInt 0;
  hidden_noise := VInt 0;
  input_dropouts := VInt 0;
  hidden_dropouts := VInt 0;
  decode_from := VInt 1;
  features := VNone;
  trainers := VNone;
|}.

(** Modelled from the spec: the constructor of the base class [Classifier]
    (rep/estimators/interface.py is not part of the sources); it stores the
    feature list, which [get_params] reads back as [self.features]. *)
Definition Classifier__init__ (features : Value) : M unit :=
  setattr "features" features.

Definition __init__ (a : InitArgs) : M unit :=
  setattr "layers" (layers a) ;;;
  setattr "input_layer" (input_layer a) ;;;
  setattr "output_layer" (output_layer a) ;;;
  let* np := new_dict (<["decode_from" := decode_from a]>
                      (<["hidden_dropouts" := hidden_dropouts a]>
                      (<["input_dropouts" := input_dropouts a]>
                      (<["hidden_noise" := hidden_noise a]>
                      (<["input_noise" := input_noise a]>
                      (<["rng" := rng a]>
                      (<["output_activation" := output_activation a]>
                      (<["hidden_activation" := hidden_activation a]> ∅)))))))) in
  setattr "network_params" np ;;;
  setattr "trainers" (trainers a) ;;;
  let* ts := getattr "trainers" in
  (if is_none ts
   then let* d := new_dict ∅ in setattr "trainers" (VList [d])
   else ret tt) ;;;
  setattr "exp" VNone ;;;
  Classifier__init__ (features a).

(** A new object, before [__init__] runs; the store holds the dicts the
    caller passes in. *)
Definition new_object (h : gmap loc (gmap string Value)) : World :=
  mkWorld ∅ h ∅ [].

(** *** Building the network *)

(** [[self.input_layer] + self.layers + [self.output_layer]] *)
Definition full_layers : M Value :=
  let* i := getattr "input_layer" in
  let* hs := getattr "layers" in
  let* l := match hs with
            | VList vs => ret (i :: vs)
            | _ => raise (TypeError "can only concatenate list to list")
            end in
  let* o := getattr "output_layer" in
  ret (VList (l ++ [o])).

(** [tnt.Experiment(tnt.Classifier, layers=layers, **self.network_params)] *)
Definition new_Experiment (ls : Value) : M Experiment :=
  let* np := getattr "network_params" in
  let* ld := mapping "argument after **" np in
  if bool_decide (is_Some (ld.2 !! "layers"))
  then raise (TypeError "got multiple values for keyword argument 'layers'")
  else lift (tnt_Experiment ls ld.2).

(** A method call on [self.exp]. *)
Definition the_exp (method : string) : M Experiment :=
  let* e := getattr "exp" in
  match e with
  | VExp e => ret e
  | _ => raise (AttributeError ("object has no attribute '" +:+ method +:+ "'"))
  end.

(** *** Pickling support *)

Definition __getstate__ : M (gmap string Value) :=
  let* result := gets attrs in
  (if bool_decide (is_Some (result !! "exp")) then ret tt else raise (KeyError "exp")) ;;;
  let result := delete "exp" result in
  let* e := getattr "exp" in
  if is_none e then ret (<["dumped_exp" := VNone]> result)
  else
    let* blob := with_NamedTemporaryFile (λ name,
      let* e := the_exp "save" in
      let* b := lift (exp_save e) in
      write_file name b ;;;
      read_file name) in
    ret (<["dumped_exp" := VBytes blob]> result).

Definition __setstate__ (dictionary : gmap string Value) : M unit :=
  modify (with_attrs (λ _, dictionary)) ;;;
  let* dumped := (match dictionary !! "dumped_exp" with
                  | Some v => ret v
                  | None => raise (KeyError "dumped_exp")
                  end) in
  (if is_none dumped then setattr "exp" VNone
   else with_NamedTemporaryFile (λ name,
     (match dumped with
      | VBytes b => write_file name b
      | _ => raise (TypeError "must be string or buffer")
      end) ;;;
     let* present := gets (λ w, bool_decide (is_Some (fs w !! name))) in
     (if present then ret tt
      else raise (AssertionError ("there is no such file: " +:+ name))) ;;;
     let* ls := full_layers in
     let* e := new_Experiment ls in
     setattr "exp" (VExp e) ;;;
     let* e := the_exp "load" in
     let* b := read_file name in
     let* e' := lift (exp_load e b) in
     setattr "exp" (VExp e'))) ;;;
  modify (with_attrs (delete "dumped_exp")).

(** *** Parameters *)

(** One turn of the loop of [set_params]. In its first branch [setattr]
    stores the value in the instance dictionary, which is all there is to
    it when the key names an instance attribute. When the key is a name the
    class or one of its bases defines, the entry stored shadows the method
    for every later call made on the object, and for [__dict__] it is the
    instance dictionary itself that is replaced; the methods of this model
    are called directly and do not look such entries up. Every property of
    [set_params] below is therefore stated for keys that are no such names
    (the hypotheses [no_attribute], [settable] and [data_name]). *)
Definition set_param (key : string) (value : Value) : M unit :=
  let* known := hasattr key in
  if known then setattr key value
  else
    let* np := getattr "network_params" in
    let* ld := mapping "right operand of in" np in
    if bool_decide (is_Some (ld.2 !! key)) then setitem np key value
    else
      let '(trainer_num, sep, param) := Py.partition "_"%char key in
      match sep with
      | EmptyString =>
          raise (AttributeError
                   (key +:+ " is an invalid parameter for a NN with multiple training"))
      | _ =>
          let* trainer_num := lift (Py.int (Py.slice_from 7 trainer_num)) in
          let* ts := getattr "trainers" in
          let* stages := sequence "subscripted object" ts in
          let* stage := lift (Py.list_index stages trainer_num) in
          setitem stage.2 param value
      end.

(** [set_params]: the items of the keyword dict [params], in its iteration
    order. *)
Fixpoint set_params (params : list (string * Value)) : M unit :=
  match params with
  | [] => ret tt
  | (key, value) :: rest => set_param key value ;;; set_params rest
  end.

Definition get_params : M (gmap string Value) :=
  let* np := getattr "network_params" in
  let* ld := mapping "copy" np in
  let parameters := ld.2 in
  let* v := getattr "layers" in
  let parameters := <["layers" := v]> parameters in
  let* v := getattr "input_layer" in
  let parameters := <["input_layer" := v]> parameters in
  let* v := getattr "output_layer" in
  let parameters := <["output_layer" := v]> parameters in
  let* v := getattr "trainers" in
  let parameters := <["trainers" := v]> parameters in
  let* v := getattr "features" in
  let parameters := <["features" := v]> parameters in
  ret parameters.

(** *** Training and prediction *)

Definition _transform_data (data : Table) : M Matrix :=
  let* fsel := getattr "features" in
  let* selected := lift (get_train_features fsel data) in
  let* imputed := lift (Imputer_fit_transform selected) in
  lift (MinMaxScaler_fit_transform imputed).

Definition _check_fitted : M unit :=
  let* e := getattr "exp" in
  if is_none e
  then raise (AssertionError "Classifier wasn`t fitted, please call `fit` first")
  else ret tt.

(** The block under [if self.exp is None:] of [partial_fit]
    ("initialize experiment"); [X] is the transformed data. *)
Definition initialize_experiment (X : Matrix) : M unit :=
  let* i := getattr "input_layer" in
  (if eq_minus_one i
   then setattr "input_layer" (VInt (Z.of_nat (shape1 X)))
   else ret tt) ;;;
  let* o := getattr "output_layer" in
  (if eq_minus_one o
   then let* c := getattr "classes_" in
        let* n := len c in
        setattr "output_layer" (VInt n)
   else ret tt) ;;;
  let* ls := full_layers in
  print ls ;;;
  let* e := new_Experiment ls in
  setattr "exp" (VExp e).

(** [self.trainers.append(trainer)]; [trainer] is the dict object the call
    built from its keyword arguments. *)
Definition trainers_append (trainer : gmap string Value) : M unit :=
  let* ts := getattr "trainers" in
  match ts with
  | VList stages =>
      let* d := new_dict trainer in
      setattr "trainers" (VList (stages ++ [d]))
  | _ => raise (AttributeError "object has no attribute 'append'")
  end.

Definition partial_fit (X : Table) (y : list Z) (sample_weight : Value)
    (new_trainer : bool) (trainer : gmap string Value) : M Value :=
  if negb (is_none sample_weight)
  then raise (NotImplementedError "sample_weight is not supported for theanets")
  else
    let* checked := lift (check_inputs X y sample_weight) in
    let X := checked.1.1 in
    let y := checked.1.2 in
    let* X := _transform_data X in
    setattr "classes_" (VArray (Py.unique y)) ;;;
    let* e := getattr "exp" in
    (if is_none e then initialize_experiment X else ret tt) ;;;
    (if new_trainer then trainers_append trainer else ret tt) ;;;
    let* e := the_exp "train" in
    let* e' := lift (exp_train e (astype_float32 X) (Py.astype_int32 <$> y) trainer) in
    setattr "exp" (VExp e') ;;;
    ret VSelf.

(** The names a keyword dict may not rebind in
    [self.partial_fit(X, y, new_trainer=False, **trainer)]. *)
Definition bound_names : list string := ["self"; "X"; "y"; "new_trainer"].

(** [self.partial_fit(X, y, new_trainer=False, **trainer)]: a key
    [sample_weight] of the stage binds that parameter, the other keys are
    collected in [**trainer]. *)
Definition call_partial_fit (X : Table) (y : list Z) (trainer : Value) : M Value :=
  let* ld := mapping "argument after **" trainer in
  if bool_decide (Exists (λ k, is_Some (ld.2 !! k)) bound_names)
  then raise (TypeError "partial_fit() got multiple values for keyword argument")
  else partial_fit X y (default VNone (ld.2 !! "sample_weight")) false
                   (delete "sample_weight" ld.2).

(** [for trainer in stages: self.partial_fit(...)] *)
Fixpoint replay (X : Table) (y : list Z) (stages : list Value) : M unit :=
  match stages with
  | [] => ret tt
  | trainer :: rest => call_partial_fit X y trainer ;;; replay X y rest
  end.

Definition fit (X : Table) (y : list Z) (sample_weight : Value) : M Value :=
  setattr "exp" VNone ;;;
  let* ts := getattr "trainers" in
  let* stages := sequence "iterated object" ts in
  replay X y stages ;;;
  ret VSelf.

Definition predict_proba (X : Table) : M Proba :=
  _check_fitted ;;;
  let* X := _transform_data X in
  let* e := the_exp "network" in
  lift (network_predict e (astype_float32 X)).

Definition staged_predict_proba (X : Table) : M Proba :=
  raise (NotImplementedError "staged_predict_proba is not supported for theanets").

(** *** pickle

    [pickle.dumps] stores what [__getstate__] returns together with every
    object reachable from it; [pickle.loads] rebuilds that object graph in
    the loading process and hands the state to [__setstate__] of a new
    object. *)

Record Snapshot : Type := {
  snap_state : gmap string Value;
  snap_heap : gmap loc (gmap string Value);
}.

Definition serialize : M Snapshot :=
  let* state := __getstate__ in
  let* h := gets heap in
  ret {| snap_state := state; snap_heap := h |}.

Definition deserialize (s : Snapshot) (files : gmap string (list byte)) (out : list Value)
    : World * (exn + unit) :=
  __setstate__ (snap_state s) (mkWorld ∅ (snap_heap s) files out).

End TheanetsClassifier.

(** ** A reference implementation of the collaborators

    A small executable stand-in for the libraries: tables of integers with
    named columns, preprocessing that keeps the shape, and a network handle
    that records the layer sizes it was built with and the number of training
    stages it has run. It is used to run the adapter on concrete inputs. *)

Module Reference.

Record Net : Type := {
  net_layers : list Z;
  net_stages : Z;
}.

Record Frame : Type := {
  columns : list string;
  rows : list (list Z);
}.

#[export] Instance externals : Externals := {|
  Experiment := Net;
  Table := Frame;
  Matrix := list (list Z);
  Proba := list (list Z);
|}.

Definition column_index (names : list string) (name : string) : result nat :=
  match list_find (λ n, n = name) names with
  | Some p => inr p.1
  | None => inl (LibraryError ("no such feature: " +:+ name))
  end.

Fixpoint column_indices (names : list string) (sel : list Value) : result (list nat) :=
  match sel with
  | [] => inr []
  | VStr name :: rest =>
      match column_index names name, column_indices names rest with
      | inr i, inr r => inr (i :: r)
      | inl e, _ | _, inl e => inl e
      end
  | _ => inl (LibraryError "features must be names")
  end.

Definition select (X : Frame) (features : Value) : result (list (list Z)) :=
  match features with
  | VNone => inr (rows X)
  | VList sel =>
      match column_indices (columns X) sel with
      | inr idx => inr ((λ row, (λ i, nth i row 0) <$> idx) <$> rows X)
      | inl e => inl e
      end
  | _ => inl (LibraryError "features must be None or a list")
  end.

Fixpoint sizes (ls : list Value) : result (list Z) :=
  match ls with
  | [] => inr []
  | VInt z :: rest =>
      if z <=? 0 then inl (LibraryError "malformed layer configuration")
      else match sizes rest with inr r => inr (z :: r) | inl e => inl e end
  | _ => inl (LibraryError "malformed layer configuration")
  end.

Definition build (ls : Value) (opts : gmap string Value) : result Net :=
  match ls with
  | VList vs =>
      match sizes vs with
      | inr s => inr {| net_layers := s; net_stages := 0 |}
      | inl e => inl e
      end
  | _ => inl (LibraryError "malformed layer configuration")
  end.

Definition optimizers : list string := ["sgd"; "nag"; "rprop"; "rmsprop"; "adadelta"; "hf"].

Definition train (e : Net) (X : list (list Z)) (y : list Z) (trainer : gmap string Value)
    : result Net :=
  match trainer !! "optimize" with
  | Some (VStr name) =>
      if bool_decide (name ∈ optimizers)
      then inr {| net_layers := net_layers e; net_stages := net_stages e + 1 |}
      else inl (LibraryError ("unknown optimizer: " +:+ name))
  | Some _ => inl (LibraryError "optimize must be a name")
  | None => inr {| net_layers := net_layers e; net_stages := net_stages e + 1 |}
  end.

(** One row of probabilities per sample, one column per output unit. *)
Definition predict (e : Net) (X : list (list Z)) : result (list (list Z)) :=
  inr ((λ _, replicate (Z.to_nat (List.last (net_layers e) 0)) (net_stages e)) <$> X).

Definition bytes_of (zs : list Z) : result (list byte) :=
  match mapM (λ z, Byte.of_nat (Z.to_nat z)) zs with
  | Some bs => inr bs
  | None => inl (LibraryError "cannot save")
  end.

Definition save (e : Net) : result (list byte) :=
  bytes_of (net_stages e :: net_layers e).

Definition load (e : Net) (b : list byte) : result Net :=
  match (λ c, Z.of_nat (Byte.to_nat c)) <$> b with
  | n :: ls => inr {| net_layers := ls; net_stages := n |}
  | [] => inl (LibraryError "cannot load")
  end.

Definition validate (X : Frame) (y : list Z) (sample_weight : Value)
    : result (Frame * list Z * Value) :=
  if bool_decide (length (rows X) = length y)
  then inr (X, y, sample_weight)
  else inl (LibraryError "Different size of X and y").

#[export] Instance collaborators : Collaborators := {|
  check_inputs := validate;
  get_train_features := λ features X, select X features;
  inherited_attrs := ["predict"; "score"; "test_on"; "_get_train_features";
                      "_get_param_names"; "__repr__"; "__class__"; "__dict__"];
  Imputer_fit_transform := inr;
  MinMaxScaler_fit_transform := inr;
  shape1 := λ m, match m with [] => O | row :: _ => length row end;
  astype_float32 := id;
  tnt_Experiment := build;
  exp_train := train;
  network_predict := predict;
  exp_save := save;
  exp_load := load;
  mktemp := λ files, fresh (dom files);
|}.

(** A table of [n] samples over the columns [a], [b], [c], [d]. *)
Definition table (n : nat) : Frame :=
  {| columns := ["a"; "b"; "c"; "d"];
     rows := (λ i, [Z.of_nat i; 1; 0; 2]) <$> seq 0 n |}.

(** Labels [0, 1, ..., k-1, 0, 1, ...] for [n] samples. *)
Definition labels (k : Z) (n : nat) : list Z :=
  (λ i, Z.of_nat i mod k) <$> seq 0 n.

(** The arguments of the constructor, the network options left at their
    defaults. *)
Definition args (layers input_layer output_layer trainers : Value) : InitArgs :=
  {| layers := layers; input_layer := input_layer; output_layer := output_layer;
     hidden_activation := hidden_activation default_args;
     output_activation := output_activation default_args;
     rng := rng default_args;
     input_noise := input_noise default_args;
     hidden_noise := hidden_noise default_args;
     input_dropouts := input_dropouts default_args;
     hidden_dropouts := hidden_dropouts default_args;
     decode_from := decode_from default_args;
     features := features default_args;
     trainers := trainers |}.

(** The adapter the constructor builds from [a]; the store [h] holds the
    dicts the caller passes in. *)
Definition construct_in (h : gmap loc (gmap string Value)) (a : InitArgs) : World :=
  (__init__ a (new_object h)).1.

Definition construct (a : InitArgs) : World := construct_in ∅ a.

(** [TheanetsClassifier()] *)
Definition clf : World := construct default_args.

(** The double nearest to 0.1. *)
Definition one_tenth : Value := VFloat 0x3FB999999999999A.

(** A schedule of two stages. *)
Definition sgd : gmap string Value := {[ "optimize" := VStr "sgd" ]}.
Definition nag : gmap string Value := {[ "optimize" := VStr "nag" ]}.
Definition two_stages : World :=
  construct_in (<[11%positive := nag]> {[ 10%positive := sgd ]})
    (args (VList [VInt 10]) (VInt (-1)) (VInt (-1)) (VList [VRef 10%positive; VRef 11%positive])).

(** [t = {}; TheanetsClassifier(trainers=[t, t])]: both stages are the same
    dict object. *)
Definition shared_stage : World :=
  construct_in {[ 10%positive := ∅ ]}
    (args (VList [VInt 10]) (VInt (-1)) (VInt (-1)) (VList [VRef 10%positive; VRef 10%positive])).

(** [TheanetsClassifier(trainers=[])] *)
Definition no_stage : World :=
  construct (args (VList [VInt 10]) (VInt (-1)) (VInt (-1)) (VList [])).

(** [TheanetsClassifier(layers=[5], input_layer=-1, output_layer=-1)] *)
Definition five : World :=
  construct (args (VList [VInt 5]) (VInt (-1)) (VInt (-1)) VNone).

Definition net (ls : list Z) (n : Z) : Net := {| net_layers := ls; net_stages := n |}.

(** The default adapter after [fit] on six samples with three labels. *)
Definition trained : World := (fit (table 6) (labels 3 6) VNone clf).1.

End Reference.

(** ** Specification-side notions *)

Section Specification.
Context {ext : Externals} {col : Collaborators}.

(** What [_transform_data] computes from the feature selection and the
    table. *)
Definition transform (features : Value) (data : Table) : result Matrix :=
  match get_train_features features data with
  | inr selected =>
      match Imputer_fit_transform selected with
      | inr imputed => MinMaxScaler_fit_transform imputed
      | inl e => inl e
      end
  | inl e => inl e
  end.

(** A layer size after resolution: the sentinel gives way to the observed
    size, any other value stays. *)
Definition resolve (size : Value) (observed : nat) : Value :=
  if eq_minus_one size then VInt (Z.of_nat observed) else size.

(** The stages run one after the other on a handle. *)
Fixpoint train_all (e : Experiment) (X : Matrix) (y : list Z)
    (stages : list (gmap string Value)) : result Experiment :=
  match stages with
  | [] => inr e
  | d :: rest =>
      match exp_train e X y d with
      | inr e' => train_all e' X y rest
      | inl err => inl err
      end
  end.

(** The replay the specification of [fit] describes: one [partial_fit] per
    stage, in order, with [new_trainer=False] and no sample weights. *)
Fixpoint replay_stages (X : Table) (y : list Z) (stages : list (gmap string Value))
    : M Value :=
  match stages with
  | [] => ret VSelf
  | d :: rest => partial_fit X y VNone false d ;;; replay_stages X y rest
  end.

(** A stage whose keys do not collide with the parameters of
    [partial_fit]. *)
Definition plain_stage (d : gmap string Value) : Prop :=
  d !! "self" = None ∧ d !! "X" = None ∧ d !! "y" = None ∧
  d !! "new_trainer" = None ∧ d !! "sample_weight" = None.

(** The trainer schedule as the adapter sees it: the list stored in
    [self.trainers] and the content of every dict of the store. *)
Definition schedule (w : World) : option Value * gmap loc (gmap string Value) :=
  (attrs w !! "trainers", heap w).

Definition schedule_is (s : option Value * gmap loc (gmap string Value)) (w : World) : Prop :=
  schedule w = s.

(** A property of the state that a computation cannot break, whatever its
    outcome. *)
Definition stable {A} (P : World → Prop) (m : M A) : Prop :=
  ∀ w, P w → P (m w).1.

(** The last step of [partial_fit]: the stage is run on the handle. *)
Definition train_tail (X : Matrix) (y : list Z) (trainer : gmap string Value) : M Value :=
  let* e := the_exp "train" in
  let* e' := lift (exp_train e (astype_float32 X) (Py.astype_int32 <$> y) trainer) in
  setattr "exp" (VExp e') ;;;
  ret VSelf.

(** A computation that leaves the state alone. *)
Definition readonly {A} (m : M A) : Prop := ∀ w, (m w).1 = w.

(** The state a first training stage leaves behind: the resolved sizes are
    stored, the full layer sequence is printed, the handle is set. *)
Definition fitted (classes : list Z) (i : Value) (hs : list Value) (o : Value)
    (e : Experiment) (w : World) : World :=
  mkWorld (<["exp" := VExp e]>
           (<["output_layer" := o]>
           (<["input_layer" := i]>
           (<["classes_" := VArray classes]> (attrs w)))))
          (heap w) (fs w)
          (stdout w ++ [VList (i :: hs ++ [o])]).

(** The state a later training stage leaves behind. *)
Definition retrained (classes : list Z) (e : Experiment) (w : World) : World :=
  with_attrs (λ a, <["exp" := VExp e]> (<["classes_" := VArray classes]> a)) w.

(** The effect of [self.trainers.append(trainer)]. *)
Definition appended (stages : list Value) (trainer : gmap string Value) (w : World) : World :=
  let l := fresh (dom (heap w)) in
  with_attrs (insert "trainers" (VList (stages ++ [VRef l])))
             (with_heap (insert l trainer) w).

(** The state after the stage was recorded, or not. *)
Definition staged (new_trainer : bool) (stages : list Value) (trainer : gmap string Value)
    (w : World) : World :=
  if new_trainer then appended stages trainer w else w.

(** [w'] is [w] after a network was built from the layer sequence [ls]: the
    sequence was printed, the resolved sizes [i] and [o] are stored and the
    handle is [e]. *)
Definition built_from (ls : list Value) (i o : Value) (e : Experiment) (w w' : World) : Prop :=
  stdout w' = stdout w ++ [VList ls] ∧
  attrs w' !! "input_layer" = Some i ∧
  attrs w' !! "output_layer" = Some o ∧
  attrs w' !! "exp" = Some (VExp e).

(** A training call, as a caller issues it. *)
Inductive TrainingCall : Type :=
  | Fit (X : Table) (y : list Z) (sample_weight : Value)
  | PartialFit (X : Table) (y : list Z) (sample_weight : Value) (new_trainer : bool)
      (trainer : gmap string Value).

Definition run_call (c : TrainingCall) : M Value :=
  match c with
  | Fit X y sw => fit X y sw
  | PartialFit X y sw nt d => partial_fit X y sw nt d
  end.

(** The state after a sequence of training calls, whatever their outcomes. *)
Definition after_calls (cs : list TrainingCall) (w : World) : World :=
  foldl (λ w c, (run_call c w).1) w cs.

Definition sizes_are (i o : Value) (w : World) : Prop :=
  attrs w !! "input_layer" = Some i ∧ attrs w !! "output_layer" = Some o.

(** The sizes [i] and [o] are stored in [w] and no later training call
    replaces them: [get_params] reports them, and a later full [fit] builds
    its network from them, whatever the data it is given. *)
Definition stored_for_good (i o : Value) (w : World) : Prop :=
  sizes_are i o w ∧
  ∀ cs, let w2 := after_calls cs w in
    sizes_are i o w2 ∧
    (∀ p, (get_params w2).2 = inr p →
          p !! "input_layer" = Some i ∧ p !! "output_layer" = Some o) ∧
    (∀ X y sw X1 y1 s1 f m hs l np refs d0 ds e0 en,
       check_inputs X y VNone = inr (X1, y1, s1) →
       attrs w2 !! "features" = Some f →
       transform f X1 = inr m →
       attrs w2 !! "layers" = Some (VList hs) →
       attrs w2 !! "network_params" = Some (VRef l) →
       heap w2 !! l = Some np →
       np !! "layers" = None →
       attrs w2 !! "trainers" = Some (VList (VRef <$> refs)) →
       Forall2 (λ l d, heap w2 !! l = Some d) refs (d0 :: ds) →
       Forall plain_stage (d0 :: ds) →
       tnt_Experiment (VList (i :: hs ++ [o])) np = inr e0 →
       train_all e0 (astype_float32 m) (Py.astype_int32 <$> y1) (d0 :: ds) = inr en →
       ∃ w3, fit X y sw w2 = (w3, inr VSelf) ∧ built_from (i :: hs ++ [o]) i o en w2 w3).

Definition classes_are (c : list Z) (w : World) : Prop :=
  attrs w !! "classes_" = Some (VArray c).

Definition handle_is (v : Value) (w : World) : Prop :=
  attrs w !! "exp" = Some v.

Definition not_fitted : exn :=
  AssertionError "Classifier wasn`t fitted, please call `fit` first".

(** What [predict_proba] answers in a state: it depends on the handle and on
    the feature selection only. *)
Definition predicted (w : World) (X : Table) : result Proba :=
  match attrs w !! "exp" with
  | None => inl (AttributeError "'TheanetsClassifier' object has no attribute 'exp'")
  | Some VNone => inl not_fitted
  | Some h =>
      match attrs w !! "features" with
      | None => inl (AttributeError "'TheanetsClassifier' object has no attribute 'features'")
      | Some f =>
          match transform f X with
          | inl e => inl e
          | inr m =>
              match h with
              | VExp e => network_predict e (astype_float32 m)
              | _ => inl (AttributeError "object has no attribute 'network'")
              end
          end
      end
  end.

(** The decimal numeral of a stage index. *)
Definition decimal (n : nat) : string := NilEmpty.string_of_uint (Nat.to_uint n).

(** The key [trainer<N>_<param>]. *)
Definition trainer_key (n : nat) (param : string) : string :=
  "trainer" +:+ decimal n +:+ "_" +:+ param.

Fixpoint has_char (c : ascii) (s : string) : bool :=
  match s with
  | EmptyString => false
  | String c' r => Ascii.eqb c' c || has_char c r
  end.

(** The parameters of stage [n] of the schedule. *)
Definition stage (w : World) (n : nat) : option (gmap string Value) :=
  match attrs w !! "trainers" with
  | Some (VList stages) | Some (VTuple stages) =>
      match stages !! n with
      | Some (VRef l) => heap w !! l
      | _ => None
      end
  | _ => None
  end.

(** The network options. *)
Definition network_options (w : World) : option (gmap string Value) :=
  match attrs w !! "network_params" with
  | Some (VRef l) => heap w !! l
  | _ => None
  end.



(** [e] is the network [e0] after zero or more training stages of the
    library. *)
Inductive trained_from (e0 : Experiment) : Experiment → Prop :=
  | trained_from_refl : trained_from e0 e0
  | trained_from_step e m y d e' :
      trained_from e0 e → exp_train e m y d = inr e' → trained_from e0 e'.

(** The adapter holds a network the library has built for it: the
    constructor has returned [e0] for the layer sequence
    [[input_layer] + layers + [output_layer]] and the network options the
    adapter stores, and the handle is [e0], trained or not. *)
Definition holds_built_network (w : World) : Prop :=
  ∃ i hs o np e0 e,
    attrs w !! "input_layer" = Some i
    ∧ attrs w !! "layers" = Some (VList hs)
    ∧ attrs w !! "output_layer" = Some o
    ∧ network_options w = Some np
    ∧ tnt_Experiment (VList (i :: hs ++ [o])) np = inr e0
    ∧ trained_from e0 e
    ∧ handle_is (VExp e) w.

(** There is no handle, unless the adapter holds a network built for
    it. *)
Definition no_handle_unless_built (w : World) : Prop :=
  handle_is VNone w ∨ holds_built_network w.

(** What [get_params] reports under a name. *)
Definition reported (w : World) (name : string) : option Value :=
  match (get_params w).2 with
  | inr p => p !! name
  | inl _ => None
  end.

Definition not_supported : exn :=
  NotImplementedError "sample_weight is not supported for theanets".

End Specification.

(** ** Notions for the rest of the protocol *)

Section Coverage.
Context {ext : Externals} {col : Collaborators}.

(** The fields of the adapter that [get_params] reports next to the
    network options. *)
Definition own_fields : list string :=
  ["layers"; "input_layer"; "output_layer"; "trainers"; "features"].

(** What [hasattr(self, name)] answers in a state. *)
Definition is_attribute (name : string) (w : World) : Prop :=
  (hasattr name w).2 = inr true.

Definition no_attribute (name : string) (w : World) : Prop :=
  (hasattr name w).2 = inr false.

(** The keyword arguments of the constructor that make up the network
    options, last key first. *)
Definition option_args (a : InitArgs) : list (string * Value) :=
  [("decode_from", decode_from a);
   ("hidden_dropouts", hidden_dropouts a);
   ("input_dropouts", input_dropouts a);
   ("hidden_noise", hidden_noise a);
   ("input_noise", input_noise a);
   ("rng", rng a);
   ("output_activation", output_activation a);
   ("hidden_activation", hidden_activation a)].

(** The state right after the constructor has run on a new object. *)
Definition constructed (h : gmap loc (gmap string Value)) (a : InitArgs) : World :=
  (__init__ a (new_object h)).1.

(** Every file but [name] is as it was. *)
Definition other_files_kept (name : string) (w w' : World) : Prop :=
  ∀ n, n ≠ name → fs w' !! n = fs w !! n.

(** Nothing but the files has changed. *)
Definition only_files_differ (w w' : World) : Prop :=
  attrs w' = attrs w ∧ heap w' = heap w ∧ stdout w' = stdout w.

(** The key [trainer-<N>_<param>], whose index counts from the end of the
    schedule. *)
Definition trainer_key_from_end (n : nat) (param : string) : string :=
  "trainer" +:+ "-" +:+ decimal n +:+ "_" +:+ param.

(** The error of [set_params] for a key it cannot place. *)
Definition invalid_parameter (key : string) : exn :=
  AttributeError (key +:+ " is an invalid parameter for a NN with multiple training").

Definition index_out_of_range : exn := IndexError "list index out of range".

(** The entries of the schedule, as [set_params] indexes them. *)
Definition schedule_entries (w : World) : list Value :=
  match attrs w !! "trainers" with
  | Some (VList stages) | Some (VTuple stages) => stages
  | _ => []
  end.

(** No stage of the schedule is the dict object at [l]. *)
Definition no_stage_at (l : loc) (w : World) : Prop :=
  Forall (λ v, v ≠ VRef l) (schedule_entries w).

(** A parameter that [set_params] can take back from [get_params]: one of
    the adapter's own fields, or a name that is no attribute of the
    object. *)
Definition settable (name : string) (w : World) : Prop :=
  name ∈ own_fields ∨ no_attribute name w.

(** A special name: one that begins with two underscores, as [__dict__]
    and [__class__] do. *)
Definition special_name (name : string) : bool :=
  match name with
  | String "_" (String "_" _) => true
  | _ => false
  end.

(** A name that neither the class nor one of its bases defines, and that
    is not special: no method, and not [__dict__] or the like. Assigning to
    a name of the other kind is another matter: it shadows the method for
    the calls made on the object afterwards, or replaces the instance
    dictionary. *)
Definition data_name (name : string) : Prop :=
  (name ∉ class_attrs) ∧ (name ∉ inherited_attrs) ∧ special_name name = false.

(** The attributes that training calls assign. *)
Definition training_fields : list string :=
  ["exp"; "classes_"; "input_layer"; "output_layer"; "trainers"].

(** What training calls keep of a state [w0]: every attribute they do not
    assign, every dict that exists, the files; the schedule and the output
    only grow. *)
Definition kept (w0 w : World) : Prop :=
  (∀ k, k ∉ training_fields → attrs w !! k = attrs w0 !! k)
  ∧ (∀ l d, heap w0 !! l = Some d → heap w !! l = Some d)
  ∧ fs w = fs w0
  ∧ (∀ stages, attrs w0 !! "trainers" = Some (VList stages) →
               ∃ more, attrs w !! "trainers" = Some (VList (stages ++ more)))
  ∧ (∃ more, stdout w = stdout w0 ++ more).

(** A training call is turned down before it assigns anything: by the
    validation of its inputs, or by the preprocessing of the table. *)
Definition turned_down (X : Table) (y : list Z) (w : World) (e : exn) : Prop :=
  check_inputs X y VNone = inl e
  ∨ ∃ X1 y1 s1 f, check_inputs X y VNone = inr (X1, y1, s1)
                  ∧ attrs w !! "features" = Some f
                  ∧ transform f X1 = inl e.

(** The state after the class labels were stored and the stage recorded,
    the training itself having failed. *)
Definition interrupted (classes : list Z) (new_trainer : bool) (stages : list Value)
    (trainer : gmap string Value) (w : World) : World :=
  staged new_trainer stages trainer (with_attrs (insert "classes_" (VArray classes)) w).

(** The state a training call leaves when the library refuses to build
    the network: the class labels and the resolved sizes are stored, the
    layer sequence is printed, there is no handle. *)
Definition unbuilt (classes : list Z) (i : Value) (hs : list Value) (o : Value)
    (w : World) : World :=
  mkWorld (<["output_layer" := o]>
           (<["input_layer" := i]>
           (<["classes_" := VArray classes]> (attrs w))))
          (heap w) (fs w)
          (stdout w ++ [VList (i :: hs ++ [o])]).

Definition staged_not_supported : exn :=
  NotImplementedError "staged_predict_proba is not supported for theanets".

End Coverage.

(** The value a computation has returned, [d] standing in when it has
    raised. *)
Definition succeeded {A} (r : result A) : bool :=
  match r with inr _ => true | inl _ => false end.

Definition value_of {A} (d : A) (r : result A) : A :=
  match r with inr a => a | inl _ => d end.

(** ** Further runs on the reference implementation *)

Module ReferenceRuns.
Import Reference.

(** A stage naming an optimizer the library does not know. *)
Definition bogus : gmap string Value := {[ "optimize" := VStr "bogus" ]}.

(** A schedule of three stages, the second of which fails. *)
Definition failing_schedule : World :=
  construct_in (<[12%positive := nag]> (<[11%positive := bogus]> {[ 10%positive := sgd ]}))
    (args (VList [VInt 10]) (VInt (-1)) (VInt (-1))
       (VList [VRef 10%positive; VRef 11%positive; VRef 12%positive])).

(** An adapter whose hidden layer has no unit: the library refuses to
    build its network. *)
Definition no_unit : World :=
  construct (args (VList [VInt 0]) (VInt (-1)) (VInt (-1)) VNone).

(** A schedule whose only stage carries sample weights. *)
Definition weights : Value := VList [VInt 1; VInt 2; VInt 1; VInt 2; VInt 1; VInt 2].
Definition weighted_stage : World :=
  construct_in {[ 10%positive := {[ "sample_weight" := weights ]} ]}
    (args (VList [VInt 10]) (VInt (-1)) (VInt (-1)) (VList [VRef 10%positive])).

(** What [__getstate__] returns for the fitted adapter. *)
Definition dumped : gmap string Value := value_of ∅ (__getstate__ trained).2.

(** What [pickle.dumps] stores for the fitted adapter, and the adapter
    [pickle.loads] makes of it in a process with no files and no output. *)
Definition pickled : Snapshot :=
  value_of {| snap_state := ∅; snap_heap := ∅ |} (serialize trained).2.
Definition unpickled : World := (deserialize pickled ∅ []).1.

(** The fitted adapter after its schedule was emptied. *)
Definition emptied : World := (set_params [("trainers", VList [])] trained).1.

(** Two training calls on the new adapter. *)
Definition two_calls : list TrainingCall :=
  [Fit (table 6) (labels 3 6) VNone; PartialFit (table 4) (labels 2 4) VNone true sgd].

End ReferenceRuns.

(** * Properties *)

(** ** The Python primitives on examples *)

Example partition_trainer0_rate :
  Py.partition "_"%char "trainer0_rate" = ("trainer0", "_", "rate").
Proof. reflexivity. Qed.

Example int_examples :
  Py.int "12" = inr 12 ∧ Py.int " -3 " = inr (-3) ∧ Py.int "+07" = inr 7 ∧
  Py.parse_int "1 2" = None ∧ Py.parse_int "- 1" = None ∧ Py.parse_int "abc" = None ∧
  Py.parse_int EmptyString = None.
Proof. repeat split; reflexivity. Qed.

Example unique_example : Py.unique [3; 1; 3; 2; 1] = [1; 2; 3].
Proof. reflexivity. Qed.

Section Reasoning.
Context {ext : Externals} {col : Collaborators}.

(** ** Running computations *)

Lemma bind_ret {A B} (a : A) (k : A → M B) w : bind (ret a) k w = k a w.
Proof. reflexivity. Qed.

Lemma bind_raise {A B} (e : exn) (k : A → M B) w : bind (raise e) k w = (w, inl e).
Proof. reflexivity. Qed.

Lemma bind_bind {A B C} (m : M A) (f : A → M B) (g : B → M C) w :
  bind (bind m f) g w = bind m (λ a, bind (f a) g) w.
Proof. unfold bind. destruct (m w) as [w' [e|a]]; reflexivity. Qed.

Lemma bind_run {A B} (m : M A) (k : A → M B) w w' r :
  m w = (w', r) →
  bind m k w = match r with inr a => k a w' | inl e => (w', inl e) end.
Proof. intros Hm. unfold bind. rewrite Hm. by destruct r. Qed.

Lemma bind_lift {A B} (r : result A) (k : A → M B) w :
  bind (lift r) k w = match r with inr a => k a w | inl e => (w, inl e) end.
Proof. reflexivity. Qed.

Lemma bind_modify {B} f (k : unit → M B) w : bind (modify f) k w = k tt (f w).
Proof. reflexivity. Qed.

Lemma bind_gets {A B} (f : World → A) (k : A → M B) w : bind (gets f) k w = k (f w) w.
Proof. reflexivity. Qed.

Lemma bind_setattr {B} n v (k : unit → M B) w :
  bind (setattr n v) k w = k tt (with_attrs (insert n v) w).
Proof. reflexivity. Qed.

Lemma bind_print {B} v (k : unit → M B) w :
  bind (print v) k w = k tt (with_stdout (λ out, out ++ [v]) w).
Proof. reflexivity. Qed.

Lemma bind_getattr {B} n v (k : Value → M B) w :
  attrs w !! n = Some v → bind (getattr n) k w = k v w.
Proof. intros Hv. unfold bind, getattr. rewrite Hv. reflexivity. Qed.

Lemma bind_mapping {B} what l d (k : loc * gmap string Value → M B) w :
  heap w !! l = Some d → bind (mapping what (VRef l)) k w = k (l, d) w.
Proof. intros Hv. unfold bind, mapping. rewrite Hv. reflexivity. Qed.

Lemma bind_read_file {B} n b (k : list byte → M B) w :
  fs w !! n = Some b → bind (read_file n) k w = k b w.
Proof. intros Hv. unfold bind, read_file. rewrite Hv. reflexivity. Qed.

Lemma bind_new_dict {B} d (k : Value → M B) w :
  bind (new_dict d) k w =
  k (VRef (fresh (dom (heap w)))) (with_heap (insert (fresh (dom (heap w))) d) w).
Proof. reflexivity. Qed.

Lemma transform_data_run X w f :
  attrs w !! "features" = Some f → _transform_data X w = (w, transform f X).
Proof.
  intros Hf. unfold _transform_data, transform, bind, getattr, lift. rewrite Hf.
  destruct (get_train_features f X) as [|sel]; [done|].
  by destruct (Imputer_fit_transform sel).
Qed.

Lemma bind_transform_data {B} X f (k : Matrix → M B) w :
  attrs w !! "features" = Some f →
  bind (_transform_data X) k w =
  match transform f X with inr a => k a w | inl e => (w, inl e) end.
Proof. intros Hf. unfold bind. by rewrite (transform_data_run _ _ _ Hf). Qed.

Lemma lookup_by_default {K A} `{Countable K} (m : gmap K A) (k : K) (d : A) :
  bool_decide (is_Some (m !! k)) = true → m !! k = Some (default d (m !! k)).
Proof. intros [x Hx]%bool_decide_eq_true. by rewrite Hx. Qed.

Lemma world_eta w : mkWorld (attrs w) (heap w) (fs w) (stdout w) = w.
Proof. by destruct w. Qed.

Lemma with_attrs_insert_id n v w :
  attrs w !! n = Some v → with_attrs (insert n v) w = w.
Proof. intros Hv. unfold with_attrs. rewrite insert_id by done. apply world_eta. Qed.

End Reasoning.

Ltac lookup_solve :=
  cbn [attrs heap fs stdout with_attrs with_heap with_fs with_stdout];
  repeat first [rewrite lookup_insert_eq | rewrite lookup_insert_ne by done];
  first [eassumption | reflexivity].

Ltac step :=
  first
    [ rewrite bind_bind
    | rewrite bind_ret
    | rewrite bind_raise
    | rewrite bind_setattr
    | rewrite bind_print
    | rewrite bind_modify
    | rewrite bind_gets
    | rewrite bind_new_dict
    | erewrite bind_getattr by lookup_solve
    | erewrite bind_mapping by lookup_solve
    | erewrite bind_read_file by lookup_solve
    | erewrite bind_transform_data by lookup_solve
    | rewrite bind_lift
    | progress cbn beta iota delta [is_none negb fst snd] ].

(** Two states are equal when their components are; maps are compared key
    by key. *)
Ltac world_eq :=
  unfold with_attrs, with_heap, with_fs, with_stdout;
  cbn [attrs heap fs stdout];
  f_equal;
  try (apply map_eq; intros ?;
       repeat (first [rewrite lookup_insert | rewrite lookup_delete];
               case_decide; subst; try done);
       try congruence).

Section Training.
Context {ext : Externals} {col : Collaborators}.

Lemma initialize_experiment_run m w i o hs l np c e0 :
  attrs w !! "input_layer" = Some i →
  attrs w !! "output_layer" = Some o →
  attrs w !! "layers" = Some (VList hs) →
  attrs w !! "classes_" = Some (VArray c) →
  attrs w !! "network_params" = Some (VRef l) →
  heap w !! l = Some np →
  np !! "layers" = None →
  tnt_Experiment (VList (resolve i (shape1 m) :: hs ++ [resolve o (length c)])) np = inr e0 →
  initialize_experiment m w =
    (fitted c (resolve i (shape1 m)) hs (resolve o (length c)) e0 w, inr tt).
Proof.
  intros Hi Ho Hl Hc Hnp Hh Hnl Hb.
  unfold initialize_experiment.
  step.
  assert (Hi' : ∀ B (k : unit → M B),
    bind (if eq_minus_one i then setattr "input_layer" (VInt (Z.of_nat (shape1 m)))
          else ret tt) k w
    = k tt (with_attrs (insert "input_layer" (resolve i (shape1 m))) w)).
  { intros B k. unfold resolve. destruct (eq_minus_one i); [done|].
    by rewrite with_attrs_insert_id. }
  rewrite Hi'. clear Hi'.
  step.
  set (w1 := with_attrs _ w).
  assert (Ho' : ∀ B (k : unit → M B),
    bind (if eq_minus_one o
          then let* c := getattr "classes_" in let* n := len c in
               setattr "output_layer" (VInt n)
          else ret tt) k w1
    = k tt (with_attrs (insert "output_layer" (resolve o (length c))) w1)).
  { intros B k. unfold resolve. destruct (eq_minus_one o).
    - subst w1. repeat step. unfold len. by repeat step.
    - rewrite with_attrs_insert_id; [done|]. subst w1. lookup_solve. }
  rewrite Ho'. clear Ho'. subst w1.
  unfold full_layers. repeat step.
  unfold new_Experiment. repeat step.
  rewrite bool_decide_eq_false_2 by (rewrite Hnl; by intros [? ?]).
  cbn [app snd]. rewrite Hb, bind_lift. unfold setattr, modify, fitted.
  f_equal. world_eq.
Qed.

Lemma bind_staged {B} nt stages d (k : unit → M B) w :
  (nt = true → attrs w !! "trainers" = Some (VList stages)) →
  bind (if nt then trainers_append d else ret tt) k w = k tt (staged nt stages d w).
Proof.
  intros Hts. destruct nt; [|done]. unfold trainers_append, staged, appended.
  rewrite bind_bind. erewrite bind_getattr by auto. by repeat step.
Qed.

Lemma partial_fit_first X y nt d w X1 y1 s1 f m i o hs l np stages e0 e1 :
  check_inputs X y VNone = inr (X1, y1, s1) →
  attrs w !! "features" = Some f →
  transform f X1 = inr m →
  attrs w !! "exp" = Some VNone →
  attrs w !! "input_layer" = Some i →
  attrs w !! "output_layer" = Some o →
  attrs w !! "layers" = Some (VList hs) →
  attrs w !! "network_params" = Some (VRef l) →
  heap w !! l = Some np →
  np !! "layers" = None →
  (nt = true → attrs w !! "trainers" = Some (VList stages)) →
  tnt_Experiment (VList (resolve i (shape1 m) :: hs ++ [resolve o (length (Py.unique y1))]))
    np = inr e0 →
  exp_train e0 (astype_float32 m) (Py.astype_int32 <$> y1) d = inr e1 →
  partial_fit X y VNone nt d w =
    (fitted (Py.unique y1) (resolve i (shape1 m)) hs (resolve o (length (Py.unique y1))) e1
       (staged nt stages d w), inr VSelf).
Proof.
  intros Hc Hf Ht He Hi Ho Hl Hnp Hh Hnl Hts Hb Htr.
  unfold partial_fit. cbn [is_none negb].
  rewrite bind_lift, Hc. cbn [fst snd].
  erewrite bind_transform_data by lookup_solve. rewrite Ht.
  repeat step.
  erewrite (bind_run (initialize_experiment m));
    [| eapply initialize_experiment_run; [lookup_solve ..| exact Hnl | exact Hb]].
  cbn beta iota.
  erewrite bind_staged; last first.
  { intros Hnt. specialize (Hts Hnt). unfold fitted. lookup_solve. }
  unfold the_exp. repeat step.
  assert (attrs (staged nt stages d
    (fitted (Py.unique y1) (resolve i (shape1 m)) hs
       (resolve o (length (Py.unique y1))) e0
       (with_attrs <["classes_":=VArray (Py.unique y1)]> w))) !! "exp" = Some (VExp e0)) as Hexp.
  { destruct nt; unfold staged, appended, fitted; lookup_solve. }
  erewrite bind_getattr by exact Hexp. repeat step. rewrite Htr. repeat step.
  unfold ret. f_equal.
  destruct nt; unfold staged, appended, fitted; world_eq.
Qed.

End Training.

(** ** What a computation leaves alone *)

Section ReadOnly.
Context {ext : Externals} {col : Collaborators}.

Lemma readonly_ret {A} (a : A) : readonly (ret a).
Proof. done. Qed.
Lemma readonly_raise {A} e : readonly (raise (A:=A) e).
Proof. done. Qed.
Lemma readonly_lift {A} (r : result A) : readonly (lift r).
Proof. done. Qed.
Lemma readonly_gets {A} (f : World → A) : readonly (gets f).
Proof. done. Qed.
Lemma readonly_getattr n : readonly (getattr n).
Proof. intros w. unfold getattr. by destruct (attrs w !! n). Qed.
Lemma readonly_read_file n : readonly (read_file n).
Proof. intros w. unfold read_file. by destruct (fs w !! n). Qed.
Lemma readonly_mapping what v : readonly (mapping what v).
Proof. intros w. destruct v; try done. unfold mapping. by destruct (heap w !! l). Qed.
Lemma readonly_bind {A B} (m : M A) (k : A → M B) :
  readonly m → (∀ a, readonly (k a)) → readonly (bind m k).
Proof.
  intros Hm Hk w. unfold bind. specialize (Hm w).
  destruct (m w) as [w' [e|a]]; simpl in *; subst; [done|]. apply Hk.
Qed.

Lemma stable_readonly {A} P (m : M A) : readonly m → stable P m.
Proof. intros Hm w HP. by rewrite Hm. Qed.
Lemma stable_bind {A B} P (m : M A) (k : A → M B) :
  stable P m → (∀ a, stable P (k a)) → stable P (bind m k).
Proof.
  intros Hm Hk w HP. unfold bind. specialize (Hm w HP).
  destruct (m w) as [w' [e|a]]; simpl in *; [done|]. by apply Hk.
Qed.
Lemma stable_bind_getattr {B} (P : World → Prop) n v (k : Value → M B) :
  (∀ w, P w → attrs w !! n = Some v) → stable P (k v) → stable P (bind (getattr n) k).
Proof. intros Hn Hk w HP. rewrite (bind_getattr _ _ _ _ (Hn w HP)). by apply Hk. Qed.

End ReadOnly.

Ltac readonly_tac :=
  repeat first
    [ apply readonly_ret | apply readonly_raise | apply readonly_lift | apply readonly_gets
    | apply readonly_getattr | apply readonly_mapping | apply readonly_read_file
    | assumption
    | apply readonly_bind; [| intros ?]
    | match goal with
      | |- readonly (if ?b then _ else _) => destruct b
      | |- readonly (match ?v with _ => _ end) => destruct v
      end ].

Section ReadOnlyMethods.
Context {ext : Externals} {col : Collaborators}.

Lemma readonly_sequence what v : readonly (sequence what v).
Proof. unfold sequence. readonly_tac. Qed.
Lemma readonly_len v : readonly (len v).
Proof. unfold len. readonly_tac. Qed.
Lemma readonly_hasattr n : readonly (hasattr n).
Proof. done. Qed.
Lemma readonly_full_layers : readonly full_layers.
Proof. unfold full_layers. readonly_tac. Qed.
Lemma readonly_new_Experiment ls : readonly (new_Experiment ls).
Proof. unfold new_Experiment. readonly_tac. Qed.
Lemma readonly_the_exp n : readonly (the_exp n).
Proof. unfold the_exp. readonly_tac. Qed.
Lemma readonly_transform_data X : readonly (_transform_data X).
Proof. unfold _transform_data. readonly_tac. Qed.
Lemma readonly_check_fitted : readonly _check_fitted.
Proof. unfold _check_fitted. readonly_tac. Qed.
Lemma readonly_predict_proba X : readonly (predict_proba X).
Proof.
  unfold predict_proba.
  apply readonly_bind; [apply readonly_check_fitted|intros _].
  apply readonly_bind; [apply readonly_transform_data|intros m].
  apply readonly_bind; [apply readonly_the_exp|intros e]. apply readonly_lift.
Qed.
Lemma readonly_get_params : readonly get_params.
Proof. unfold get_params. readonly_tac. Qed.

End ReadOnlyMethods.

Ltac stable_tac :=
  repeat first
    [ assumption
    | match goal with
      | Hs : ∀ v, stable ?P (?f v) |- stable ?P (?f _) => apply Hs
      | Hs : _ → stable ?P ?m |- stable ?P ?m => apply Hs; reflexivity
      end
    | apply stable_readonly;
      first [ apply readonly_ret | apply readonly_raise | apply readonly_lift
            | apply readonly_gets | apply readonly_getattr | apply readonly_mapping
            | apply readonly_sequence | apply readonly_len | apply readonly_full_layers
            | apply readonly_new_Experiment | apply readonly_the_exp
            | apply readonly_transform_data | apply readonly_read_file ]
    | match goal with
      | |- stable _ (bind _ _) => apply stable_bind; [| intros ?]
      | |- stable _ (if ?b then _ else _) => destruct b
      | |- stable _ (match ?v with _ => _ end) => destruct v
      end ].

Section Stability.
Context {ext : Externals} {col : Collaborators}.
Variable P : World → Prop.

Lemma initialize_experiment_stable m :
  (∀ v, stable P (setattr "input_layer" v)) →
  (∀ v, stable P (setattr "output_layer" v)) →
  (∀ v, stable P (setattr "exp" v)) →
  (∀ v, stable P (print v)) →
  stable P (initialize_experiment m).
Proof. intros Hi Ho He Hp. unfold initialize_experiment. stable_tac. Qed.

Lemma train_tail_stable m y d :
  (∀ v, stable P (setattr "exp" v)) → stable P (train_tail m y d).
Proof. intros He. unfold train_tail. stable_tac. Qed.

Lemma partial_fit_stable X y sw nt d :
  (∀ v, stable P (setattr "classes_" v)) →
  (∀ m, stable P (initialize_experiment m)) →
  (nt = true → stable P (trainers_append d)) →
  (∀ m y, stable P (train_tail m y d)) →
  stable P (partial_fit X y sw nt d).
Proof.
  intros Hc Hi Hn Ht. unfold partial_fit.
  destruct (negb (is_none sw)); [stable_tac|].
  apply stable_bind; [stable_tac|intros chk].
  cbn zeta. apply stable_bind; [stable_tac|intros m].
  apply stable_bind; [stable_tac|intros _].
  apply stable_bind; [stable_tac|intros e].
  apply stable_bind; [stable_tac|intros _].
  apply stable_bind; [stable_tac|intros _].
  apply Ht.
Qed.

Lemma call_partial_fit_stable X y trainer :
  (∀ v, stable P (setattr "classes_" v)) →
  (∀ m, stable P (initialize_experiment m)) →
  (∀ m y d, stable P (train_tail m y d)) →
  stable P (call_partial_fit X y trainer).
Proof.
  intros Hc Hi Ht. unfold call_partial_fit.
  apply stable_bind; [stable_tac|intros ld].
  case_bool_decide; [stable_tac|]. by apply partial_fit_stable.
Qed.

Lemma replay_stable X y stages :
  (∀ v, stable P (setattr "classes_" v)) →
  (∀ m, stable P (initialize_experiment m)) →
  (∀ m y d, stable P (train_tail m y d)) →
  stable P (replay X y stages).
Proof.
  intros Hc Hi Ht. induction stages as [|t ts IH]; simpl; [stable_tac|].
  apply stable_bind; [by apply call_partial_fit_stable|by intros _].
Qed.

Lemma fit_stable X y sw :
  stable P (setattr "exp" VNone) →
  (∀ v, stable P (setattr "classes_" v)) →
  (∀ m, stable P (initialize_experiment m)) →
  (∀ m y d, stable P (train_tail m y d)) →
  stable P (fit X y sw).
Proof.
  intros He Hc Hi Ht. unfold fit.
  apply stable_bind; [apply He|intros _].
  apply stable_bind; [stable_tac|intros ts].
  apply stable_bind; [stable_tac|intros stages].
  apply stable_bind; [by apply replay_stable|intros _]. stable_tac.
Qed.

End Stability.

(** ** fit replays the trainer schedule *)

Section Schedule.
Context {ext : Externals} {col : Collaborators}.

Lemma schedule_setattr s n v : n ≠ "trainers" → stable (schedule_is s) (setattr n v).
Proof.
  intros Hn w Hw. unfold schedule_is, schedule in *. simpl.
  by rewrite lookup_insert_ne.
Qed.

Lemma schedule_print s v : stable (schedule_is s) (print v).
Proof. by intros w Hw. Qed.

Lemma schedule_initialize_experiment s m :
  stable (schedule_is s) (initialize_experiment m).
Proof.
  apply initialize_experiment_stable;
    first [intros v; by apply schedule_setattr | apply schedule_print].
Qed.

Lemma schedule_partial_fit X y sw d w :
  schedule (partial_fit X y sw false d w).1 = schedule w.
Proof.
  apply (partial_fit_stable (schedule_is (schedule w))); [..|done]; try done.
  - intros v. by apply schedule_setattr.
  - apply schedule_initialize_experiment.
  - intros m y'. apply train_tail_stable. intros v. by apply schedule_setattr.
Qed.

Lemma schedule_fit X y sw w : schedule (fit X y sw w).1 = schedule w.
Proof.
  apply (fit_stable (schedule_is (schedule w))); [..|done].
  - by apply schedule_setattr.
  - intros v. by apply schedule_setattr.
  - apply schedule_initialize_experiment.
  - intros m y' d. apply train_tail_stable. intros v. by apply schedule_setattr.
Qed.

Lemma call_partial_fit_plain X y l d w :
  heap w !! l = Some d → plain_stage d →
  call_partial_fit X y (VRef l) w = partial_fit X y VNone false d w.
Proof.
  intros Hl (Hself & HX & Hy & Hnt & Hsw). unfold call_partial_fit.
  erewrite bind_mapping by done. cbn [snd].
  rewrite bool_decide_eq_false_2.
  - rewrite Hsw. cbn [default]. by rewrite delete_id.
  - unfold bound_names. rewrite !Exists_cons, Exists_nil.
    rewrite Hself, HX, Hy, Hnt. intros [[? ?]|[[? ?]|[[? ?]|[[? ?]|[]]]]]; done.
Qed.

Lemma replay_as_specified X y refs ds w :
  Forall2 (λ l d, heap w !! l = Some d) refs ds →
  Forall plain_stage ds →
  bind (replay X y (VRef <$> refs)) (λ _, ret VSelf) w = replay_stages X y ds w.
Proof.
  intros Hrefs. revert w Hrefs. revert ds.
  induction refs as [|l refs IH]; intros ds w Hrefs Hplain.
  - by inversion Hrefs.
  - inversion Hrefs as [|? d ? ds' Hl Hrest]; subst.
    inversion Hplain as [|? ? Hd Hds]; subst.
    cbn [fmap list_fmap replay replay_stages]. rewrite bind_bind.
    unfold bind at 1 3. rewrite (call_partial_fit_plain _ _ _ _ _ Hl Hd).
    pose proof (schedule_partial_fit X y VNone d w) as Hs.
    destruct (partial_fit X y VNone false d w) as [w' [e|a]]; [done|].
    apply IH; [|done]. unfold schedule in Hs. simplify_eq/=.
    by match goal with Hh : heap _ = heap _ |- _ => rewrite Hh end.
Qed.

Lemma fit_unfolded X y sw w refs :
  attrs w !! "trainers" = Some (VList (VRef <$> refs)) →
  fit X y sw w = bind (replay X y (VRef <$> refs)) (λ _, ret VSelf)
                   (with_attrs (insert "exp" VNone) w).
Proof.
  intros Hts. unfold fit. rewrite bind_setattr. erewrite bind_getattr by lookup_solve.
  unfold sequence. by rewrite bind_ret.
Qed.

Lemma fit_as_replay X y sw w refs ds :
  attrs w !! "trainers" = Some (VList (VRef <$> refs)) →
  Forall2 (λ l d, heap w !! l = Some d) refs ds →
  Forall plain_stage ds →
  fit X y sw w = replay_stages X y ds (with_attrs (insert "exp" VNone) w).
Proof.
  intros Hts Hrefs Hplain. rewrite (fit_unfolded _ _ _ _ _ Hts).
  by apply replay_as_specified.
Qed.

(** C1. [fit] first sets the handle to [None], then runs [partial_fit] once
    per stage of the trainer schedule, in order, with [new_trainer=False];
    the schedule is the same before and after the call; the value returned
    is the adapter itself. *)
Theorem fit_replays_trainer_schedule X y sw w refs ds :
  attrs w !! "trainers" = Some (VList (VRef <$> refs)) →
  Forall2 (λ l d, heap w !! l = Some d) refs ds →
  Forall plain_stage ds →
  fit X y sw w = replay_stages X y ds (with_attrs (insert "exp" VNone) w)
  ∧ schedule (fit X y sw w).1 = schedule w
  ∧ (∀ v, (fit X y sw w).2 = inr v → v = VSelf).
Proof.
  intros Hts Hrefs Hplain. split; [|split].
  - by apply (fit_as_replay _ _ _ _ refs).
  - apply schedule_fit.
  - intros v. rewrite (fit_unfolded _ _ _ _ _ Hts). unfold bind.
    destruct (replay X y (VRef <$> refs) _) as [w' [e|[]]]; simpl; congruence.
Qed.

End Schedule.

(** ** Successful training calls *)

Section Success.
Context {ext : Externals} {col : Collaborators}.

Lemma partial_fit_later X y nt d w X1 y1 s1 f m e stages e1 :
  check_inputs X y VNone = inr (X1, y1, s1) →
  attrs w !! "features" = Some f →
  transform f X1 = inr m →
  attrs w !! "exp" = Some (VExp e) →
  (nt = true → attrs w !! "trainers" = Some (VList stages)) →
  exp_train e (astype_float32 m) (Py.astype_int32 <$> y1) d = inr e1 →
  partial_fit X y VNone nt d w =
    (retrained (Py.unique y1) e1 (staged nt stages d w), inr VSelf).
Proof.
  intros Hc Hf Ht He Hts Htr.
  unfold partial_fit. cbn [is_none negb].
  rewrite bind_lift, Hc. cbn [fst snd].
  erewrite bind_transform_data by lookup_solve. rewrite Ht.
  repeat step.
  erewrite bind_staged; last first.
  { intros Hnt. specialize (Hts Hnt). lookup_solve. }
  unfold the_exp.
  assert (attrs (staged nt stages d
    (with_attrs <["classes_":=VArray (Py.unique y1)]> w)) !! "exp" = Some (VExp e)) as Hexp.
  { destruct nt; unfold staged, appended; lookup_solve. }
  repeat step. rewrite Htr.
  repeat step. unfold ret. f_equal.
  destruct nt; unfold retrained, staged, appended; world_eq.
Qed.

Lemma retrained_id c e w :
  attrs w !! "classes_" = Some (VArray c) →
  attrs w !! "exp" = Some (VExp e) →
  retrained c e w = w.
Proof.
  intros Hc He. unfold retrained, with_attrs.
  rewrite (insert_id _ "classes_") by done. rewrite insert_id by done.
  apply world_eta.
Qed.

Lemma replay_stages_later X y ds w X1 y1 s1 f m e en :
  check_inputs X y VNone = inr (X1, y1, s1) →
  attrs w !! "features" = Some f →
  transform f X1 = inr m →
  attrs w !! "exp" = Some (VExp e) →
  attrs w !! "classes_" = Some (VArray (Py.unique y1)) →
  train_all e (astype_float32 m) (Py.astype_int32 <$> y1) ds = inr en →
  replay_stages X y ds w = (retrained (Py.unique y1) en w, inr VSelf).
Proof.
  intros Hc Hf Ht He Hcl Htr. revert w e Hf He Hcl Htr.
  induction ds as [|d ds IH]; intros w e Hf He Hcl Htr; simpl in *.
  - simplify_eq. by rewrite retrained_id.
  - destruct (exp_train e _ _ d) as [|e1] eqn:Hd; [done|].
    erewrite (bind_run (partial_fit X y VNone false d));
      [|by eapply (partial_fit_later _ _ false _ _ _ _ _ _ _ _ [])].
    cbn beta iota. unfold staged.
    erewrite IH; [| unfold retrained; lookup_solve ..| exact Htr].
    f_equal. unfold retrained. world_eq.
Qed.

(** A full [fit] on a schedule of at least one stage. *)
Lemma fit_run X y sw w refs d0 ds X1 y1 s1 f m i o hs l np e0 en :
  attrs w !! "trainers" = Some (VList (VRef <$> refs)) →
  Forall2 (λ l d, heap w !! l = Some d) refs (d0 :: ds) →
  Forall plain_stage (d0 :: ds) →
  check_inputs X y VNone = inr (X1, y1, s1) →
  attrs w !! "features" = Some f →
  transform f X1 = inr m →
  attrs w !! "input_layer" = Some i →
  attrs w !! "output_layer" = Some o →
  attrs w !! "layers" = Some (VList hs) →
  attrs w !! "network_params" = Some (VRef l) →
  heap w !! l = Some np →
  np !! "layers" = None →
  tnt_Experiment (VList (resolve i (shape1 m) :: hs ++ [resolve o (length (Py.unique y1))]))
    np = inr e0 →
  train_all e0 (astype_float32 m) (Py.astype_int32 <$> y1) (d0 :: ds) = inr en →
  fit X y sw w =
    (fitted (Py.unique y1) (resolve i (shape1 m)) hs (resolve o (length (Py.unique y1))) en w,
     inr VSelf).
Proof.
  intros Hts Hrefs Hplain Hc Hf Ht Hi Ho Hl Hnp Hh Hnl Hb Htr.
  rewrite (fit_as_replay X y sw w refs (d0 :: ds)) by done.
  cbn [replay_stages train_all] in *.
  destruct (exp_train e0 _ _ d0) as [|e1] eqn:Hd; [done|].
  pose proof (partial_fit_first X y false d0 (with_attrs (insert "exp" VNone) w) X1 y1 s1 f m i o hs l np [] e0 e1 Hc
                ltac:(lookup_solve) Ht ltac:(lookup_solve) ltac:(lookup_solve)
                ltac:(lookup_solve) ltac:(lookup_solve) ltac:(lookup_solve)
                ltac:(lookup_solve) Hnl ltac:(done) Hb Hd) as Hfirst.
  rewrite (bind_run _ _ _ _ _ Hfirst). cbn beta iota. unfold staged.
  rewrite (replay_stages_later X y ds _ X1 y1 s1 f m e1 en Hc);
    [| unfold fitted; lookup_solve | exact Ht | unfold fitted; lookup_solve
     | unfold fitted; lookup_solve | exact Htr].
  f_equal. unfold retrained, fitted. world_eq.
Qed.

End Success.

(** ** Layer sizes are resolved before the network is built *)

Section Resolution.
Context {ext : Externals} {col : Collaborators}.

Lemma resolve_sentinel n : resolve (VInt (-1)) n = VInt (Z.of_nat n).
Proof. reflexivity. Qed.

Lemma resolve_explicit z n : z ≠ -1 → resolve (VInt z) n = VInt z.
Proof. intros Hz. unfold resolve. simpl. destruct (Z.eqb_spec z (-1)); congruence. Qed.

Lemma built_from_fitted c i hs o e w : built_from (i :: hs ++ [o]) i o e w (fitted c i hs o e w).
Proof. unfold built_from, fitted. repeat split; lookup_solve. Qed.

(** C2. A training call made while there is no handle resolves the input
    and output sizes first (the sentinel -1 becomes the observed number of
    features, resp. of distinct labels; any other value is kept) and builds
    the network from [input] + hidden layers + [output]. *)
Theorem sizes_resolved_before_construction
    X y sw w X1 y1 s1 f m i o hs l np e0 :
  check_inputs X y VNone = inr (X1, y1, s1) →
  attrs w !! "features" = Some f →
  transform f X1 = inr m →
  attrs w !! "input_layer" = Some i →
  attrs w !! "output_layer" = Some o →
  attrs w !! "layers" = Some (VList hs) →
  attrs w !! "network_params" = Some (VRef l) →
  heap w !! l = Some np →
  np !! "layers" = None →
  let i' := resolve i (shape1 m) in
  let o' := resolve o (length (Py.unique y1)) in
  tnt_Experiment (VList (i' :: hs ++ [o'])) np = inr e0 →
  (∀ nt d stages e1,
     attrs w !! "exp" = Some VNone →
     (nt = true → attrs w !! "trainers" = Some (VList stages)) →
     exp_train e0 (astype_float32 m) (Py.astype_int32 <$> y1) d = inr e1 →
     ∃ w', partial_fit X y VNone nt d w = (w', inr VSelf)
           ∧ built_from (i' :: hs ++ [o']) i' o' e1 w w')
  ∧ (∀ refs d0 ds en,
     attrs w !! "trainers" = Some (VList (VRef <$> refs)) →
     Forall2 (λ l d, heap w !! l = Some d) refs (d0 :: ds) →
     Forall plain_stage (d0 :: ds) →
     train_all e0 (astype_float32 m) (Py.astype_int32 <$> y1) (d0 :: ds) = inr en →
     ∃ w', fit X y sw w = (w', inr VSelf)
           ∧ built_from (i' :: hs ++ [o']) i' o' en w w')
  ∧ (∀ n, resolve (VInt (-1)) n = VInt (Z.of_nat n))
  ∧ (∀ z n, z ≠ -1 → resolve (VInt z) n = VInt z).
Proof.
  intros Hc Hf Ht Hi Ho Hl Hnp Hh Hnl i' o' Hb. split; [|split; [|split]].
  - intros nt d stages e1 He Hts Htr. eexists. split.
    + by eapply partial_fit_first.
    + destruct nt; unfold staged, appended, built_from, fitted; repeat split; lookup_solve.
  - intros refs d0 ds en Hts Hrefs Hplain Htr. eexists. split.
    + by eapply fit_run.
    + apply built_from_fitted.
  - apply resolve_sentinel.
  - apply resolve_explicit.
Qed.

End Resolution.

(** ** Inferred sizes replace the sentinel for good *)

Section Sizes.
Context {ext : Externals} {col : Collaborators}.

Lemma bind_getattr_None {B} n (k : Value → M B) w :
  attrs w !! n = None →
  bind (getattr n) k w =
  (w, inl (AttributeError ("'TheanetsClassifier' object has no attribute '" +:+ n +:+ "'"))).
Proof. intros Hv. unfold bind, getattr. by rewrite Hv. Qed.

Lemma sizes_setattr i o n v :
  n ≠ "input_layer" → n ≠ "output_layer" → stable (sizes_are i o) (setattr n v).
Proof.
  intros H1 H2 w [Hi Ho]. unfold sizes_are. simpl. by rewrite !lookup_insert_ne.
Qed.

Lemma sizes_print i o v : stable (sizes_are i o) (print v).
Proof. by intros w Hw. Qed.

Lemma sizes_initialize_experiment a b m :
  a ≠ -1 → b ≠ -1 → stable (sizes_are (VInt a) (VInt b)) (initialize_experiment m).
Proof.
  intros Ha Hb. unfold initialize_experiment.
  apply (stable_bind_getattr _ _ (VInt a)); [by intros w [? ?]|].
  assert (eq_minus_one (VInt a) = false) as -> by by apply Z.eqb_neq.
  apply stable_bind; [stable_tac|intros _].
  apply (stable_bind_getattr _ _ (VInt b)); [by intros w [? ?]|].
  assert (eq_minus_one (VInt b) = false) as -> by by apply Z.eqb_neq.
  pose proof (λ v, sizes_setattr (VInt a) (VInt b) "exp" v ltac:(done) ltac:(done)).
  pose proof (sizes_print (VInt a) (VInt b)).
  stable_tac.
Qed.

Lemma sizes_trainers_append i o d : stable (sizes_are i o) (trainers_append d).
Proof.
  unfold trainers_append. apply stable_bind; [stable_tac|intros ts].
  destruct ts; try by stable_tac.
  intros w [Hi Ho]. rewrite bind_new_dict. unfold setattr, modify, sizes_are. cbn [fst].
  split; lookup_solve.
Qed.

Lemma sizes_run_call a b c :
  a ≠ -1 → b ≠ -1 → stable (sizes_are (VInt a) (VInt b)) (run_call c).
Proof.
  intros Ha Hb.
  assert (∀ m y d, stable (sizes_are (VInt a) (VInt b)) (train_tail m y d)) as Ht.
  { intros m y d. apply train_tail_stable. intros v. by apply sizes_setattr. }
  destruct c as [X y sw|X y sw nt d]; simpl.
  - apply fit_stable; [by apply sizes_setattr| |intros m; by apply sizes_initialize_experiment|done].
    intros v. by apply sizes_setattr.
  - apply partial_fit_stable; [|intros m; by apply sizes_initialize_experiment| |done].
    + intros v. by apply sizes_setattr.
    + intros _. apply sizes_trainers_append.
Qed.

Lemma sizes_after_calls a b cs w :
  a ≠ -1 → b ≠ -1 →
  sizes_are (VInt a) (VInt b) w → sizes_are (VInt a) (VInt b) (after_calls cs w).
Proof.
  intros Ha Hb. revert w. induction cs as [|c cs IH]; intros w Hw; [done|].
  simpl. apply IH. by apply sizes_run_call.
Qed.

Lemma get_params_reports w p n :
  n ∈ ["layers"; "input_layer"; "output_layer"; "trainers"; "features"] →
  (get_params w).2 = inr p → p !! n = attrs w !! n.
Proof.
  intros Hn. unfold get_params.
  destruct (attrs w !! "network_params") as [v|] eqn:E0;
    [erewrite bind_getattr by done|by rewrite bind_getattr_None].
  unfold bind at 1.
  pose proof (readonly_mapping "copy" v w) as Hro.
  destruct (mapping "copy" v w) as [w' [e|ld]]; simpl in Hro; subst w'; [done|].
  destruct (attrs w !! "layers") as [v1|] eqn:E1;
    [erewrite bind_getattr by done|by rewrite bind_getattr_None].
  destruct (attrs w !! "input_layer") as [v2|] eqn:E2;
    [erewrite bind_getattr by done|by rewrite bind_getattr_None].
  destruct (attrs w !! "output_layer") as [v3|] eqn:E3;
    [erewrite bind_getattr by done|by rewrite bind_getattr_None].
  destruct (attrs w !! "trainers") as [v4|] eqn:E4;
    [erewrite bind_getattr by done|by rewrite bind_getattr_None].
  destruct (attrs w !! "features") as [v5|] eqn:E5;
    [erewrite bind_getattr by done|by rewrite bind_getattr_None].
  intros [= <-].
  repeat (apply elem_of_cons in Hn as [->|Hn]);
    [repeat first [rewrite lookup_insert_eq | rewrite lookup_insert_ne by done];
     congruence ..|by apply elem_of_nil in Hn].
Qed.

Lemma resolve_int a n : ∃ a', resolve (VInt a) n = VInt a' ∧ a' ≠ -1.
Proof.
  unfold resolve. simpl. destruct (Z.eqb_spec a (-1)); [|by eexists].
  exists (Z.of_nat n). split; [done|lia].
Qed.

Lemma stored_for_good_intro a b w :
  a ≠ -1 → b ≠ -1 →
  sizes_are (VInt a) (VInt b) w → stored_for_good (VInt a) (VInt b) w.
Proof.
  intros Ha Hb Hw. split; [done|]. intros cs w2.
  assert (sizes_are (VInt a) (VInt b) w2) as [Hi Ho] by by apply sizes_after_calls.
  split; [done|split].
  - intros p Hp.
    rewrite !(get_params_reports w2 p) by first [done | repeat constructor]. done.
  - intros X y sw X1 y1 s1 f m hs l np refs d0 ds e0 en
      Hc Hf Ht Hl Hnp Hh Hnl Hts Hrefs Hplain Hb' Htr.
    eexists. split; [|apply built_from_fitted].
    pose proof (fit_run X y sw w2 refs d0 ds X1 y1 s1 f m (VInt a) (VInt b) hs l np e0 en
                  Hts Hrefs Hplain Hc Hf Ht Hi Ho Hl Hnp Hh Hnl) as Hfit.
    rewrite !resolve_explicit in Hfit by done. exact (Hfit Hb' Htr).
Qed.

End Sizes.

(** ** The class labels and the prediction *)

Section Classes.
Context {ext : Externals} {col : Collaborators}.

Lemma insert_sorted_elem x x' l :
  x' ∈ Py.insert_sorted x l ↔ x' = x ∨ x' ∈ l.
Proof.
  induction l as [|y l IH]; simpl.
  - rewrite list_elem_of_singleton, elem_of_nil. tauto.
  - destruct (Z.ltb_spec x y); [apply elem_of_cons|].
    destruct (Z.eqb_spec x y) as [->|]; [rewrite elem_of_cons; tauto|].
    rewrite !elem_of_cons, IH. tauto.
Qed.

Lemma insert_sorted_sorted x l :
  StronglySorted Z.lt l → StronglySorted Z.lt (Py.insert_sorted x l).
Proof.
  induction 1 as [|y l Hl IH Hy]; simpl.
  - repeat constructor.
  - destruct (Z.ltb_spec x y).
    + constructor; [by constructor|]. constructor; [done|].
      eapply Forall_impl; [exact Hy|]. simpl. lia.
    + destruct (Z.eqb_spec x y); [by constructor|].
      constructor; [done|]. apply Forall_forall. intros z Hz.
      apply insert_sorted_elem in Hz as [->|Hz]; [lia|].
      by eapply Forall_forall in Hy.
Qed.

Lemma unique_elem x l : x ∈ Py.unique l ↔ x ∈ l.
Proof.
  induction l as [|y l IH]; simpl; [done|].
  rewrite insert_sorted_elem, IH, elem_of_cons. tauto.
Qed.

Lemma unique_sorted l : StronglySorted Z.lt (Py.unique l).
Proof.
  induction l as [|y l IH]; simpl; [constructor|]. by apply insert_sorted_sorted.
Qed.

Lemma classes_setattr c n v : n ≠ "classes_" → stable (classes_are c) (setattr n v).
Proof. intros Hn w Hw. unfold classes_are. simpl. by rewrite lookup_insert_ne. Qed.

Lemma classes_print c v : stable (classes_are c) (print v).
Proof. by intros w Hw. Qed.

Lemma classes_initialize_experiment c m : stable (classes_are c) (initialize_experiment m).
Proof.
  apply initialize_experiment_stable;
    first [intros v; by apply classes_setattr | apply classes_print].
Qed.

Lemma classes_trainers_append c d : stable (classes_are c) (trainers_append d).
Proof.
  unfold trainers_append. apply stable_bind; [stable_tac|intros ts].
  destruct ts; try by stable_tac.
  intros w Hw. rewrite bind_new_dict. unfold setattr, modify, classes_are. cbn [fst].
  lookup_solve.
Qed.

Lemma partial_fit_sets_classes X y nt d w X1 y1 s1 f m :
  check_inputs X y VNone = inr (X1, y1, s1) →
  attrs w !! "features" = Some f →
  transform f X1 = inr m →
  classes_are (Py.unique y1) (partial_fit X y VNone nt d w).1.
Proof.
  intros Hc Hf Ht. unfold partial_fit. cbn [is_none negb].
  rewrite bind_lift, Hc. cbn [fst snd].
  erewrite bind_transform_data by lookup_solve. rewrite Ht.
  rewrite bind_setattr.
  lazymatch goal with
  | |- classes_are ?c (?m ?w).1 =>
      cut (stable (classes_are c) m); [intros Hs; apply Hs; unfold classes_are; lookup_solve|]
  end.
  pose proof (λ v, classes_setattr (Py.unique y1) "exp" v ltac:(done)).
  pose proof (classes_initialize_experiment (Py.unique y1)).
  pose proof (classes_trainers_append (Py.unique y1)).
  stable_tac.
Qed.

Lemma predict_proba_run X w : predict_proba X w = (w, predicted w X).
Proof.
  unfold predict_proba, predicted, _check_fitted, the_exp.
  destruct (attrs w !! "exp") as [h|] eqn:He;
    [|rewrite bind_bind; by rewrite bind_getattr_None].
  rewrite bind_bind. erewrite bind_getattr by done.
  destruct (is_none h) eqn:Hh; [by destruct h|].
  rewrite bind_ret.
  destruct (attrs w !! "features") as [f|] eqn:Hf.
  - erewrite bind_transform_data by done.
    destruct (transform f X) as [e|m]; [by destruct h|].
    rewrite bind_bind. erewrite bind_getattr by done.
    destruct h; try done.
  - unfold _transform_data. rewrite bind_bind. rewrite bind_getattr_None by done.
    by destruct h.
Qed.

Lemma predicted_frame n v w X :
  n ≠ "exp" → n ≠ "features" →
  predicted (with_attrs (insert n v) w) X = predicted w X.
Proof.
  intros H1 H2. unfold predicted. simpl. by rewrite !lookup_insert_ne.
Qed.

End Classes.

(** ** Keys of set_params *)

Section Keys.
Context {ext : Externals} {col : Collaborators}.

Lemma digits_cons c k acc seen r :
  Py.digit_of c = Some k → Py.digits acc seen (String c r) = Py.digits (10 * acc + k) true r.
Proof. intros Hk. cbn [Py.digits]. by rewrite Hk. Qed.

Lemma digits_uint d acc seen :
  seen = true ∨ d ≠ Decimal.Nil →
  Py.digits (Z.of_nat acc) seen (NilEmpty.string_of_uint d)
  = Some (Z.of_nat (Nat.of_uint_acc d acc)).
Proof.
  revert acc seen.
  induction d as [|d IH|d IH|d IH|d IH|d IH|d IH|d IH|d IH|d IH|d IH]; intros acc seen Hs;
    cbn [NilEmpty.string_of_uint Nat.of_uint_acc].
  1: { destruct Hs as [->|?]; by simpl. }
  all: erewrite digits_cons by reflexivity.
  all: rewrite <- (IH _ true) by (by left); f_equal; rewrite Nat.tail_mul_spec.
  all: match goal with
       | |- context [Z.of_nat (nat_of_ascii ?c - 48)] =>
           let k := eval vm_compute in (Z.of_nat (nat_of_ascii c - 48)) in
           change (Z.of_nat (nat_of_ascii c - 48)) with k
       end; lia.
Qed.

Lemma to_uint_nonnil n : Nat.to_uint n ≠ Decimal.Nil.
Proof.
  rewrite <- (Unsigned.of_to n) at 1. rewrite Unsigned.to_of.
  apply DecimalFacts.unorm_nonnil.
Qed.

Lemma parse_int_decimal n : Py.parse_int (decimal n) = Some (Z.of_nat n).
Proof.
  unfold decimal. pose proof (to_uint_nonnil n) as Hn.
  pose proof (digits_uint (Nat.to_uint n) 0 false (or_intror Hn)) as Hd.
  change (Nat.of_uint_acc (Nat.to_uint n) 0) with (Nat.of_uint (Nat.to_uint n)) in Hd.
  rewrite Unsigned.of_to in Hd. rewrite <- Hd. unfold Py.parse_int.
  by destruct (Nat.to_uint n).
Qed.

Lemma int_decimal n : Py.int (decimal n) = inr (Z.of_nat n).
Proof. unfold Py.int. by rewrite parse_int_decimal. Qed.

Lemma append_nil (s : string) : EmptyString +:+ s = s.
Proof. reflexivity. Qed.

Lemma append_cons c (s1 s2 : string) : String c s1 +:+ s2 = String c (s1 +:+ s2).
Proof. reflexivity. Qed.

Lemma append_assoc (s1 s2 s3 : string) : (s1 +:+ s2) +:+ s3 = s1 +:+ (s2 +:+ s3).
Proof.
  induction s1 as [|c s1 IH]; [by rewrite !append_nil|].
  rewrite !append_cons. by rewrite IH.
Qed.

Lemma partition_app c s1 s2 :
  has_char c s1 = false →
  Py.partition c (s1 +:+ String c s2) = (s1, String c EmptyString, s2).
Proof.
  induction s1 as [|c' s1 IH].
  - intros _. rewrite append_nil. simpl. by rewrite Ascii.eqb_refl.
  - intros [Hc Hs]%orb_false_elim. rewrite append_cons. simpl. rewrite Hc. by rewrite IH.
Qed.

Lemma has_char_uint d : has_char "_" (NilEmpty.string_of_uint d) = false.
Proof. induction d; simpl; done. Qed.

Lemma partition_trainer_key n param :
  Py.partition "_" (trainer_key n param) = ("trainer" +:+ decimal n, "_", param).
Proof.
  unfold trainer_key.
  replace ("trainer" +:+ decimal n +:+ "_" +:+ param)
    with (("trainer" +:+ decimal n) +:+ String "_" param) by by rewrite append_assoc.
  apply partition_app. rewrite !append_cons, append_nil. simpl. apply has_char_uint.
Qed.

Lemma trainer_key_not_class_attr n param : trainer_key n param ∉ class_attrs.
Proof.
  intros Hin. unfold class_attrs, trainer_key in Hin. rewrite append_cons in Hin.
  repeat (apply elem_of_cons in Hin as [Heq|Hin]; [discriminate Heq|]).
  by apply elem_of_nil in Hin.
Qed.

Lemma list_index_nat {A} (l : list A) n x :
  l !! n = Some x → Py.list_index l (Z.of_nat n) = inr (n, x).
Proof.
  intros Hx. pose proof (lookup_lt_Some _ _ _ Hx) as Hlt. unfold Py.list_index.
  destruct (Z.ltb_spec (Z.of_nat n) 0); [lia|].
  destruct (Z.ltb_spec (Z.of_nat n) 0); [lia|].
  destruct (Z.leb_spec (Z.of_nat (length l)) (Z.of_nat n)); [lia|].
  simpl. by rewrite Nat2Z.id, Hx.
Qed.

Lemma set_param_trainer_key w n param value stages ln np l d :
  attrs w !! trainer_key n param = None →
  trainer_key n param ∉ inherited_attrs →
  attrs w !! "network_params" = Some (VRef ln) →
  heap w !! ln = Some np →
  np !! trainer_key n param = None →
  attrs w !! "trainers" = Some (VList stages) →
  stages !! n = Some (VRef l) →
  heap w !! l = Some d →
  set_param (trainer_key n param) value w
  = (with_heap (insert l (<[param := value]> d)) w, inr tt).
Proof.
  intros Hk Hinh Hnp Hln Hnk Hts Hn Hl. unfold set_param, hasattr.
  rewrite bind_gets.
  rewrite (bool_decide_eq_false_2 (is_Some _)) by (rewrite Hk; by intros [? ?]).
  rewrite (bool_decide_eq_false_2 (_ ∈ class_attrs))
    by apply trainer_key_not_class_attr.
  rewrite (bool_decide_eq_false_2 _ Hinh). cbn [orb].
  erewrite bind_getattr by done. erewrite bind_mapping by done. cbn [snd].
  rewrite (bool_decide_eq_false_2 (is_Some _)) by (rewrite Hnk; by intros [? ?]).
  rewrite partition_trainer_key.
  change (Py.slice_from 7 ("trainer" +:+ decimal n)) with (decimal n).
  rewrite int_decimal, bind_lift. erewrite bind_getattr by done.
  unfold sequence. rewrite bind_ret, (list_index_nat _ _ _ Hn), bind_lift. cbn [snd].
  unfold setitem. by erewrite bind_mapping by done.
Qed.

End Keys.

(** ** set_params on a stage of the schedule *)

Section SetParams.
Context {ext : Externals} {col : Collaborators}.

(** C4, as amended. [set_params(trainer<N>_<param>=value)] writes [param]
    into the dict object of stage [N] and changes nothing else: no
    attribute of the adapter, no stage held in another dict object, and not
    the network options unless they are that same object. *)
Theorem set_params_updates_one_stage w n param value stages ln np l d :
  attrs w !! trainer_key n param = None →
  trainer_key n param ∉ inherited_attrs →
  attrs w !! "network_params" = Some (VRef ln) →
  heap w !! ln = Some np →
  np !! trainer_key n param = None →
  attrs w !! "trainers" = Some (VList stages) →
  stages !! n = Some (VRef l) →
  heap w !! l = Some d →
  ∃ w', set_params [(trainer_key n param, value)] w = (w', inr tt)
    ∧ stage w' n = Some (<[param := value]> d)
    ∧ attrs w' = attrs w
    ∧ (∀ j l', stages !! j = Some (VRef l') → l' ≠ l → stage w' j = stage w j)
    ∧ (ln ≠ l → network_options w' = network_options w)
    ∧ fs w' = fs w ∧ stdout w' = stdout w.
Proof.
  intros Hk Hinh Hnp Hln Hnk Hts Hn Hl.
  exists (with_heap (insert l (<[param := value]> d)) w).
  split; [|split; [|split; [|split; [|split]]]]; try done.
  - cbn [set_params].
    erewrite (bind_run (set_param _ _)); [|by eapply set_param_trainer_key]. done.
  - unfold stage. cbn [attrs heap with_heap]. rewrite Hts, Hn. apply lookup_insert_eq.
  - intros j l' Hj Hne. unfold stage. cbn [attrs heap with_heap]. rewrite Hts, Hj.
    by rewrite lookup_insert_ne.
  - intros Hne. unfold network_options. cbn [attrs heap with_heap]. rewrite Hnp.
    by rewrite lookup_insert_ne.
Qed.

End SetParams.

(** ** Pickling *)

Section Pickle.
Context {ext : Externals} {col : Collaborators}.

Lemma getstate_none w :
  attrs w !! "exp" = Some VNone →
  __getstate__ w = (w, inr (<["dumped_exp" := VNone]> (delete "exp" (attrs w)))).
Proof.
  intros He. unfold __getstate__. rewrite bind_gets.
  rewrite bool_decide_eq_true_2 by by rewrite He.
  rewrite bind_ret. by erewrite bind_getattr by done.
Qed.

Lemma getstate_handle w e b :
  attrs w !! "exp" = Some (VExp e) →
  exp_save e = inr b →
  __getstate__ w = (with_fs (delete (mktemp (fs w))) w,
                    inr (<["dumped_exp" := VBytes b]> (delete "exp" (attrs w)))).
Proof.
  intros He Hs. unfold __getstate__. rewrite bind_gets.
  rewrite bool_decide_eq_true_2 by by rewrite He.
  rewrite bind_ret. erewrite bind_getattr by done. cbn [is_none].
  unfold bind at 1. unfold with_NamedTemporaryFile, the_exp.
  repeat step. rewrite Hs. unfold write_file. rewrite bind_modify.
  unfold read_file. cbn [fs with_fs]. rewrite lookup_insert_eq. unfold ret.
  f_equal. world_eq.
Qed.

Lemma setstate_none dictionary w :
  dictionary !! "dumped_exp" = Some VNone →
  __setstate__ dictionary w
  = (with_attrs (λ _, delete "dumped_exp" (<["exp" := VNone]> dictionary)) w, inr tt).
Proof.
  intros Hd. unfold __setstate__. rewrite bind_modify, Hd. cbn beta iota.
  rewrite bind_ret. cbn [is_none]. by rewrite bind_setattr.
Qed.

Lemma setstate_handle dictionary w b i hs o l np e0 e' :
  dictionary !! "dumped_exp" = Some (VBytes b) →
  dictionary !! "input_layer" = Some i →
  dictionary !! "layers" = Some (VList hs) →
  dictionary !! "output_layer" = Some o →
  dictionary !! "network_params" = Some (VRef l) →
  heap w !! l = Some np →
  np !! "layers" = None →
  tnt_Experiment (VList (i :: hs ++ [o])) np = inr e0 →
  exp_load e0 b = inr e' →
  __setstate__ dictionary w
  = (mkWorld (delete "dumped_exp" (<["exp" := VExp e']> dictionary)) (heap w)
       (delete (mktemp (fs w)) (fs w)) (stdout w), inr tt).
Proof.
  intros Hd Hi Hl Ho Hnp Hh Hnl Hb Hld.
  unfold __setstate__. rewrite bind_modify, Hd. cbn beta iota.
  rewrite bind_ret. cbn [is_none].
  unfold bind at 1. unfold with_NamedTemporaryFile.
  unfold write_file. rewrite bind_modify, bind_gets.
  cbn [fs with_fs with_attrs]. rewrite bool_decide_eq_true_2 by by rewrite lookup_insert_eq.
  rewrite bind_ret. unfold full_layers. repeat step.
  unfold new_Experiment. repeat step. cbn [snd app].
  rewrite bool_decide_eq_false_2 by (rewrite Hnl; by intros [? ?]).
  rewrite Hb. unfold the_exp. repeat step.
  rewrite Hld. repeat step. unfold setattr, modify. f_equal. world_eq.
Qed.

End Pickle.

Section Roundtrip.
Context {ext : Externals} {col : Collaborators}.



End Roundtrip.

Section Handle.
Context {ext : Externals} {col : Collaborators}.

Lemma init_no_handle a h : handle_is VNone (__init__ a (new_object h)).1.
Proof.
  unfold __init__, Classifier__init__, handle_is. repeat step.
  destruct (is_none (trainers a)); repeat step; unfold setattr, modify; cbn [fst];
    lookup_solve.
Qed.

Lemma partial_fit_rejects_weights X y sw nt d w :
  is_none sw = false → partial_fit X y sw nt d w = (w, inl not_supported).
Proof. intros Hsw. unfold partial_fit. by rewrite Hsw. Qed.

Lemma check_fitted_passes w v :
  handle_is v w → is_none v = false → _check_fitted w = (w, inr tt).
Proof.
  intros Hv Hn. unfold _check_fitted. erewrite bind_getattr by exact Hv. by rewrite Hn.
Qed.

Lemma fresh_None (h : gmap loc (gmap string Value)) : h !! fresh (dom h) = None.
Proof. apply not_elem_of_dom. apply is_fresh. Qed.

Lemma built_setattr n v :
  n ≠ "exp" → n ≠ "input_layer" → n ≠ "output_layer" → n ≠ "layers" →
  n ≠ "network_params" →
  stable no_handle_unless_built (setattr n v).
Proof.
  intros H1 H2 H3 H4 H5 w [Hw|(i & hs & o & np & e0 & e & Hi & Hl & Ho & Hnp & Hb & Ht & He)].
  - left. unfold handle_is in *. simpl. by rewrite lookup_insert_ne.
  - right. exists i, hs, o, np, e0, e. unfold handle_is, network_options in *.
    cbn [fst setattr modify attrs heap with_attrs]. by rewrite !lookup_insert_ne.
Qed.

(** The network is built, the adapter having no handle. *)
Lemma built_initialize_experiment m w :
  handle_is VNone w → no_handle_unless_built (initialize_experiment m w).1.
Proof.
  intros Hw. unfold initialize_experiment.
  destruct (attrs w !! "input_layer") as [i|] eqn:Hi;
    [erewrite bind_getattr by done|rewrite bind_getattr_None by done; by left].
  assert (Hi' : ∀ B (k : unit → M B),
    bind (if eq_minus_one i then setattr "input_layer" (VInt (Z.of_nat (shape1 m)))
          else ret tt) k w
    = k tt (with_attrs (insert "input_layer" (resolve i (shape1 m))) w)).
  { intros B k. unfold resolve. destruct (eq_minus_one i); [done|].
    by rewrite with_attrs_insert_id. }
  rewrite Hi'. clear Hi'.
  set (w1 := with_attrs _ w).
  assert (handle_is VNone w1) as Hw1 by (subst w1; unfold handle_is in *; lookup_solve).
  destruct (attrs w !! "output_layer") as [o|] eqn:Ho;
    [erewrite bind_getattr by (subst w1; lookup_solve)
    |rewrite bind_getattr_None by (subst w1; lookup_solve); by left].
  assert (Ho' : ∀ B (k : unit → M B),
    (∃ err, bind (if eq_minus_one o
                  then let* c := getattr "classes_" in let* n := len c in
                       setattr "output_layer" (VInt n)
                  else ret tt) k w1 = (w1, inl err))
    ∨ (∃ o', bind (if eq_minus_one o
                   then let* c := getattr "classes_" in let* n := len c in
                        setattr "output_layer" (VInt n)
                   else ret tt) k w1
             = k tt (with_attrs (insert "output_layer" o') w1))).
  { intros B k. destruct (eq_minus_one o).
    - rewrite bind_bind.
      destruct (attrs w1 !! "classes_") as [c|] eqn:Hc;
        [erewrite bind_getattr by done|rewrite bind_getattr_None by done; left; by eexists].
      rewrite bind_bind. pose proof (readonly_len c w1) as Hro.
      destruct (len c w1) as [w' [err|n]] eqn:Hlen; simpl in Hro; subst w';
        rewrite (bind_run _ _ _ _ _ Hlen); [left; by eexists|right; by exists (VInt n)].
    - right. exists o. rewrite bind_ret, with_attrs_insert_id; [done|].
      subst w1. lookup_solve. }
  destruct (Ho' _ (λ _ : unit, (let* ls := full_layers in
              print ls ;;; let* e := new_Experiment ls in setattr "exp" (VExp e))))
    as [[err ->]|[o' ->]]; [by left|]. clear Ho'.
  set (w2 := with_attrs _ w1).
  assert (handle_is VNone w2) as Hw2 by (subst w2 w1; unfold handle_is in *; lookup_solve).
  unfold full_layers. rewrite !bind_bind.
  erewrite bind_getattr by (subst w2 w1; lookup_solve). rewrite bind_bind.
  destruct (attrs w !! "layers") as [ls|] eqn:Hl;
    [erewrite bind_getattr by (subst w2 w1; lookup_solve)
    |rewrite bind_getattr_None by (subst w2 w1; lookup_solve); by left].
  destruct ls as [| | | | | |hs| | | | |]; try (rewrite bind_bind, bind_raise; by left).
  rewrite bind_bind, bind_ret, bind_bind.
  erewrite bind_getattr by (subst w2 w1; lookup_solve).
  rewrite bind_ret, bind_print.
  set (w3 := with_stdout _ w2).
  assert (handle_is VNone w3) as Hw3 by done.
  unfold new_Experiment. rewrite bind_bind.
  destruct (attrs w !! "network_params") as [r|] eqn:Hnp;
    [erewrite bind_getattr by (subst w3 w2 w1; lookup_solve)
    |rewrite bind_getattr_None by (subst w3 w2 w1; lookup_solve); by left].
  rewrite bind_bind. unfold bind at 1.
  pose proof (readonly_mapping "argument after **" r w3) as Hro.
  destruct (mapping _ r w3) as [w' [err|[l np]]] eqn:Hmap; simpl in Hro; subst w'; [by left|].
  assert (r = VRef l ∧ heap w !! l = Some np) as [-> Hh].
  { destruct r; try done. unfold mapping in Hmap. cbn [heap] in Hmap.
    change (heap w3) with (heap w) in Hmap. destruct (heap w !! l0) eqn:E; by simplify_eq. }
  cbn [snd app]. case_bool_decide; [rewrite bind_raise; by left|]. rewrite bind_lift.
  destruct (tnt_Experiment (VList (resolve i (shape1 m) :: hs ++ [o'])) np) as [err|e0] eqn:Hb;
    [by left|].
  right. exists (resolve i (shape1 m)), hs, o', np, e0, e0.
  unfold handle_is, network_options. subst w3 w2 w1.
  cbn [fst setattr modify attrs heap with_attrs with_stdout].
  repeat split; try lookup_solve; [|constructor].
  rewrite !lookup_insert_ne, Hnp by done. exact Hh.
Qed.

Lemma built_trainers_append d : stable no_handle_unless_built (trainers_append d).
Proof.
  unfold trainers_append. intros w Hw.
  destruct (attrs w !! "trainers") as [ts|] eqn:Hts;
    [erewrite bind_getattr by done|by rewrite bind_getattr_None].
  destruct ts; try done. rewrite bind_new_dict. cbn [fst setattr modify].
  destruct Hw as [Hw|(i & hs & o & np & e0 & e & Hi & Hl & Ho & Hnp & Hb & Ht & He)].
  - left. unfold handle_is in *. lookup_solve.
  - right. exists i, hs, o, np, e0, e. unfold handle_is, network_options in *.
    cbn [attrs heap with_attrs with_heap]. rewrite !lookup_insert_ne by done.
    repeat split; try done.
    destruct (attrs w !! "network_params") as [[| | | | | | | | |l| |]|]; try done.
    rewrite lookup_insert_ne; [done|]. intros <-. by rewrite fresh_None in Hnp.
Qed.

Lemma built_train_tail m y d : stable no_handle_unless_built (train_tail m y d).
Proof.
  intros w [Hw|(i & hs & o & np & e0 & e & Hi & Hl & Ho & Hnp & Hb & Ht & He)].
  - left. unfold train_tail, the_exp.
    rewrite bind_bind. by erewrite bind_getattr by exact Hw.
  - unfold train_tail, the_exp. rewrite bind_bind. erewrite bind_getattr by exact He.
    cbn beta iota. rewrite bind_ret, bind_lift.
    destruct (exp_train e _ _ d) as [err|e'] eqn:Htr;
      [right; by exists i, hs, o, np, e0, e|].
    cbn beta iota. rewrite bind_setattr. cbn [fst ret].
    right. exists i, hs, o, np, e0, e'. unfold handle_is, network_options in *.
    cbn [attrs heap with_attrs]. rewrite !lookup_insert_ne by done.
    repeat split; try done; [by econstructor|apply lookup_insert_eq].
Qed.

Lemma built_partial_fit X y sw nt d :
  stable no_handle_unless_built (partial_fit X y sw nt d).
Proof.
  intros w Hw. unfold partial_fit. destruct (negb (is_none sw)); [done|].
  rewrite bind_lift. destruct (check_inputs X y sw) as [err|[[X1 y1] s1]]; [done|].
  cbn [fst snd]. unfold bind at 1. pose proof (readonly_transform_data X1 w) as Hro.
  destruct (_transform_data X1 w) as [w' [err|m]]; simpl in Hro; subst w'; [done|].
  rewrite bind_setattr.
  set (w1 := with_attrs _ w).
  assert (no_handle_unless_built w1) as Hw1.
  { change w1 with (setattr "classes_" (VArray (Py.unique y1)) w).1.
    by apply built_setattr. }
  clearbody w1. clear Hw.
  assert (stable no_handle_unless_built
            ((if nt then trainers_append d else ret tt) ;;; train_tail m y1 d)) as Hrest.
  { apply stable_bind; [|intros _; apply built_train_tail].
    destruct nt; [apply built_trainers_append|by intros ? ?]. }
  destruct (attrs w1 !! "exp") as [e|] eqn:He;
    [erewrite bind_getattr by done|by rewrite bind_getattr_None].
  unfold bind at 1.
  assert (no_handle_unless_built
            ((if is_none e then initialize_experiment m else ret tt) w1).1) as Hinit.
  { destruct (is_none e) eqn:Hn; [|done].
    apply built_initialize_experiment. unfold handle_is. by destruct e. }
  destruct ((if is_none e then initialize_experiment m else ret tt) w1) as [w2 [err|[]]];
    [done|]. by apply Hrest.
Qed.

Lemma built_run_call c : stable no_handle_unless_built (run_call c).
Proof.
  destruct c as [X y sw|X y sw nt d]; simpl; [|apply built_partial_fit].
  unfold fit.
  apply stable_bind; [intros w _; left; unfold handle_is; simpl; apply lookup_insert_eq|].
  intros _. apply stable_bind; [stable_tac|intros ts].
  apply stable_bind; [stable_tac|intros stages].
  apply stable_bind; [|intros _; stable_tac].
  induction stages as [|t stages IH]; simpl; [stable_tac|].
  apply stable_bind; [|by intros _]. unfold call_partial_fit.
  apply stable_bind; [stable_tac|intros ld].
  case_bool_decide; [stable_tac|]. apply built_partial_fit.
Qed.

Lemma built_after_calls cs w :
  handle_is VNone w → no_handle_unless_built (after_calls cs w).
Proof.
  intros Hw. induction cs as [|c cs IH] using rev_ind; [by left|].
  unfold after_calls. rewrite foldl_snoc. by apply built_run_call.
Qed.

(** C9, as amended. A new adapter has no handle, and training calls leave
    it without one until one of them has built the network: after any
    sequence of training calls on an adapter without a handle, either there
    is still none, or the adapter holds a network the library's constructor
    has returned for the layer sequence and the options it stores, and one
    of the calls, begun without a handle, is the one that left it so (a call
    rejected for its sample weights changes nothing at all); without a
    handle [predict_proba] fails with the not-fitted assertion, with a
    handle the check passes and the answer is that of the preprocessing and
    the network. *)
Theorem not_fitted_without_handle :
  (∀ a h, handle_is VNone (__init__ a (new_object h)).1)
  ∧ (∀ cs w, handle_is VNone w →
       handle_is VNone (after_calls cs w)
       ∨ (holds_built_network (after_calls cs w)
          ∧ ∃ before c after,
              cs = before ++ c :: after
              ∧ handle_is VNone (after_calls before w)
              ∧ holds_built_network (run_call c (after_calls before w)).1))
  ∧ (∀ X y sw nt d w,
       is_none sw = false → partial_fit X y sw nt d w = (w, inl not_supported))
  ∧ (∀ X w, handle_is VNone w → predict_proba X w = (w, inl not_fitted))
  ∧ (∀ X w v, handle_is v w → is_none v = false →
       _check_fitted w = (w, inr tt)
       ∧ predict_proba X w
         = (let* m := _transform_data X in
            let* e := the_exp "network" in
            lift (network_predict e (astype_float32 m))) w).
Proof.
  split; [apply init_no_handle|]. split; [|split; [|split]].
  - intros cs w Hw. induction cs as [|c cs IH] using rev_ind; [by left|].
    destruct (built_after_calls (cs ++ [c]) w Hw) as [Hnone|Hbuilt]; [by left|].
    right. split; [done|].
    destruct IH as [Hnone|(_ & before & c0 & after & -> & Hb & Hc0)].
    + exists cs, c, []. split; [done|]. split; [done|].
      unfold after_calls in Hbuilt. by rewrite foldl_snoc in Hbuilt.
    + exists before, c0, (after ++ [c]). by rewrite <- app_assoc.
  - apply partial_fit_rejects_weights.
  - intros X w Hw. rewrite predict_proba_run. unfold predicted. by rewrite Hw.
  - intros X w v Hv Hn. split; [by eapply check_fitted_passes|].
    unfold predict_proba.
    by rewrite (bind_run _ _ _ _ _ (check_fitted_passes w v Hv Hn)).
Qed.

End Handle.

Section Labels.
Context {ext : Externals} {col : Collaborators}.

(** C7, as amended. The class labels are the sorted distinct labels of the
    latest training call: every [partial_fit] that gets past validation and
    preprocessing stores those of its own batch, a full [fit] those of its
    data; [predict_proba] does not read them. *)
Theorem classes_follow_latest_training_call X y sw nt d w X1 y1 s1 f m :
  check_inputs X y VNone = inr (X1, y1, s1) →
  attrs w !! "features" = Some f →
  transform f X1 = inr m →
  classes_are (Py.unique y1) (partial_fit X y VNone nt d w).1
  ∧ (∀ refs d0 ds i o hs l np e0 en,
       attrs w !! "trainers" = Some (VList (VRef <$> refs)) →
       Forall2 (λ l d, heap w !! l = Some d) refs (d0 :: ds) →
       Forall plain_stage (d0 :: ds) →
       attrs w !! "input_layer" = Some i →
       attrs w !! "output_layer" = Some o →
       attrs w !! "layers" = Some (VList hs) →
       attrs w !! "network_params" = Some (VRef l) →
       heap w !! l = Some np →
       np !! "layers" = None →
       tnt_Experiment
         (VList (resolve i (shape1 m) :: hs ++ [resolve o (length (Py.unique y1))])) np
         = inr e0 →
       train_all e0 (astype_float32 m) (Py.astype_int32 <$> y1) (d0 :: ds) = inr en →
       (fit X y sw w).2 = inr VSelf ∧ classes_are (Py.unique y1) (fit X y sw w).1)
  ∧ StronglySorted Z.lt (Py.unique y1)
  ∧ (∀ x, x ∈ Py.unique y1 ↔ x ∈ y1)
  ∧ (∀ c X', (predict_proba X' (with_attrs (insert "classes_" c) w)).2
             = (predict_proba X' w).2).
Proof.
  intros Hc Hf Ht. split; [by eapply partial_fit_sets_classes|].
  split; [|split; [apply unique_sorted|split; [intros x; apply unique_elem|]]].
  - intros refs d0 ds i o hs l np e0 en Hts Hrefs Hplain Hi Ho Hl Hnp Hh Hnl Hb Htr.
    erewrite fit_run by done. split; [done|]. unfold classes_are, fitted. cbn [fst].
    lookup_solve.
  - intros c X'. rewrite !predict_proba_run. cbn [snd]. by apply predicted_frame.
Qed.

End Labels.

Section Stored.
Context {ext : Externals} {col : Collaborators}.

(** C10, as amended. On an adapter without a handle, a training call that
    runs at least one stage (a [partial_fit], or a [fit] on a schedule that
    is not empty) stores the resolved sizes in [input_layer] and
    [output_layer]; no later training call changes them, [get_params]
    reports them and a later [fit] builds its network from them. *)
Theorem inferred_sizes_are_stored X y sw w X1 y1 s1 f m a b hs l np e0 :
  check_inputs X y VNone = inr (X1, y1, s1) →
  attrs w !! "features" = Some f →
  transform f X1 = inr m →
  attrs w !! "input_layer" = Some (VInt a) →
  attrs w !! "output_layer" = Some (VInt b) →
  attrs w !! "layers" = Some (VList hs) →
  attrs w !! "network_params" = Some (VRef l) →
  heap w !! l = Some np →
  np !! "layers" = None →
  let i' := resolve (VInt a) (shape1 m) in
  let o' := resolve (VInt b) (length (Py.unique y1)) in
  tnt_Experiment (VList (i' :: hs ++ [o'])) np = inr e0 →
  (∀ nt d stages e1,
     attrs w !! "exp" = Some VNone →
     (nt = true → attrs w !! "trainers" = Some (VList stages)) →
     exp_train e0 (astype_float32 m) (Py.astype_int32 <$> y1) d = inr e1 →
     ∃ w1, partial_fit X y VNone nt d w = (w1, inr VSelf) ∧ stored_for_good i' o' w1)
  ∧ (∀ refs d0 ds en,
     attrs w !! "trainers" = Some (VList (VRef <$> refs)) →
     Forall2 (λ l d, heap w !! l = Some d) refs (d0 :: ds) →
     Forall plain_stage (d0 :: ds) →
     train_all e0 (astype_float32 m) (Py.astype_int32 <$> y1) (d0 :: ds) = inr en →
     ∃ w1, fit X y sw w = (w1, inr VSelf) ∧ stored_for_good i' o' w1)
  ∧ (a = -1 → i' = VInt (Z.of_nat (shape1 m)))
  ∧ (b = -1 → o' = VInt (Z.of_nat (length (Py.unique y1)))).
Proof.
  intros Hc Hf Ht Hi Ho Hl Hnp Hh Hnl i' o' Hb.
  destruct (resolve_int a (shape1 m)) as (a' & Ha' & Hane).
  destruct (resolve_int b (length (Py.unique y1))) as (b' & Hb' & Hbne).
  split; [|split; [|split]].
  - intros nt d stages e1 He Hts Htr. eexists. split; [by eapply partial_fit_first|].
    subst i' o'. rewrite Ha', Hb'. apply stored_for_good_intro; [done..|].
    destruct nt; unfold sizes_are, staged, appended, fitted; split; lookup_solve.
  - intros refs d0 ds en Hts Hrefs Hplain Htr. eexists. split; [by eapply fit_run|].
    subst i' o'. rewrite Ha', Hb'. apply stored_for_good_intro; [done..|].
    unfold sizes_are, fitted; split; lookup_solve.
  - by intros ->.
  - by intros ->.
Qed.

End Stored.

(** * The rest of the protocol *)

(** ** Outcomes of runs *)

Section Outcomes.
Context {ext : Externals}.

Lemma result_value {A} (r : result A) (d : A) :
  succeeded r = true → r = inr (value_of d r).
Proof. destruct r as [e|a]; [done|]. by intros _. Qed.

Lemma outcome_parts {A} (r : World * result A) (d : A) :
  succeeded r.2 = true → r = (r.1, inr (value_of d r.2)).
Proof. destruct r as [w [e|a]]; [done|]. by intros _. Qed.

Lemma outcome_unit (r : World * result unit) :
  succeeded r.2 = true → r = (r.1, inr tt).
Proof. destruct r as [w [e|[]]]; [done|]. by intros _. Qed.

End Outcomes.

(** ** Reading and writing parameters *)

Section Parameters.
Context {ext : Externals} {col : Collaborators}.

Lemma get_params_inv w p :
  (get_params w).2 = inr p →
  ∃ l np v1 v2 v3 v4 v5,
    attrs w !! "network_params" = Some (VRef l) ∧ heap w !! l = Some np ∧
    attrs w !! "layers" = Some v1 ∧ attrs w !! "input_layer" = Some v2 ∧
    attrs w !! "output_layer" = Some v3 ∧ attrs w !! "trainers" = Some v4 ∧
    attrs w !! "features" = Some v5 ∧
    p = <["features" := v5]> (<["trainers" := v4]> (<["output_layer" := v3]>
          (<["input_layer" := v2]> (<["layers" := v1]> np)))).
Proof.
  unfold get_params.
  destruct (attrs w !! "network_params") as [v|] eqn:E0;
    [erewrite bind_getattr by done|by rewrite bind_getattr_None].
  destruct v as [| | | | | | | | |l| |]; try done.
  destruct (heap w !! l) as [np|] eqn:Eh;
    [erewrite bind_mapping by done|by unfold bind, mapping; rewrite Eh].
  destruct (attrs w !! "layers") as [v1|] eqn:E1;
    [erewrite bind_getattr by done|by rewrite bind_getattr_None].
  destruct (attrs w !! "input_layer") as [v2|] eqn:E2;
    [erewrite bind_getattr by done|by rewrite bind_getattr_None].
  destruct (attrs w !! "output_layer") as [v3|] eqn:E3;
    [erewrite bind_getattr by done|by rewrite bind_getattr_None].
  destruct (attrs w !! "trainers") as [v4|] eqn:E4;
    [erewrite bind_getattr by done|by rewrite bind_getattr_None].
  destruct (attrs w !! "features") as [v5|] eqn:E5;
    [erewrite bind_getattr by done|by rewrite bind_getattr_None].
  intros [= <-]. by exists l, np, v1, v2, v3, v4, v5.
Qed.

Lemma get_params_run w l np v1 v2 v3 v4 v5 :
  attrs w !! "network_params" = Some (VRef l) → heap w !! l = Some np →
  attrs w !! "layers" = Some v1 → attrs w !! "input_layer" = Some v2 →
  attrs w !! "output_layer" = Some v3 → attrs w !! "trainers" = Some v4 →
  attrs w !! "features" = Some v5 →
  get_params w
  = (w, inr (<["features" := v5]> (<["trainers" := v4]> (<["output_layer" := v3]>
              (<["input_layer" := v2]> (<["layers" := v1]> np)))))).
Proof. intros. unfold get_params. by repeat step. Qed.

Lemma reported_own w l np k :
  attrs w !! "network_params" = Some (VRef l) → heap w !! l = Some np →
  Forall (λ n, is_Some (attrs w !! n)) own_fields →
  k ∈ own_fields → reported w k = attrs w !! k.
Proof.
  intros Hnp Hh Hown Hk. unfold own_fields in Hown.
  repeat match goal with
         | H : Forall _ (_ :: _) |- _ =>
             let Hx := fresh "Hx" in
             apply Forall_cons in H as [[? Hx] H]
         end.
  unfold reported. erewrite get_params_run by done. cbn [snd].
  unfold own_fields in Hk.
  repeat (apply elem_of_cons in Hk as [->|Hk]);
    [repeat first [rewrite lookup_insert_eq | rewrite lookup_insert_ne by done];
     congruence ..|by apply elem_of_nil in Hk].
Qed.

Lemma reported_option w l np k :
  attrs w !! "network_params" = Some (VRef l) → heap w !! l = Some np →
  Forall (λ n, is_Some (attrs w !! n)) own_fields →
  k ∉ own_fields → reported w k = np !! k.
Proof.
  intros Hnp Hh Hown Hk. unfold own_fields in Hown.
  repeat match goal with
         | H : Forall _ (_ :: _) |- _ =>
             let Hx := fresh "Hx" in
             apply Forall_cons in H as [[? Hx] H]
         end.
  unfold reported. erewrite get_params_run by done. cbn [snd].
  unfold own_fields in Hk.
  rewrite !lookup_insert_ne; [done|intros <-; apply Hk; repeat constructor ..].
Qed.

Lemma hasattr_own k v w : attrs w !! k = Some v → is_attribute k w.
Proof.
  intros Hk. unfold is_attribute, hasattr, gets. cbn [snd].
  by rewrite bool_decide_eq_true_2 by by rewrite Hk.
Qed.

Lemma set_param_attribute key value w :
  is_attribute key w →
  set_param key value w = (with_attrs (insert key value) w, inr tt).
Proof.
  unfold is_attribute, set_param, hasattr. rewrite bind_gets. unfold gets. cbn [snd].
  by intros [= ->].
Qed.

Lemma set_param_option key value w l np :
  no_attribute key w →
  attrs w !! "network_params" = Some (VRef l) → heap w !! l = Some np →
  is_Some (np !! key) →
  set_param key value w = (with_heap (insert l (<[key := value]> np)) w, inr tt).
Proof.
  unfold no_attribute, set_param, hasattr. rewrite bind_gets. unfold gets. cbn [snd].
  intros [= ->] Hnp Hh Hk. erewrite bind_getattr by done.
  erewrite bind_mapping by done. cbn [snd].
  rewrite bool_decide_eq_true_2 by done.
  unfold setitem. by erewrite bind_mapping by done.
Qed.

Lemma with_heap_insert_id l d w :
  heap w !! l = Some d → with_heap (insert l d) w = w.
Proof. intros Hl. unfold with_heap. rewrite insert_id by done. apply world_eta. Qed.

Lemma reported_inv w k v :
  reported w k = Some v →
  ∃ l np, attrs w !! "network_params" = Some (VRef l) ∧ heap w !! l = Some np
          ∧ Forall (λ n, is_Some (attrs w !! n)) own_fields.
Proof.
  unfold reported. destruct (get_params w).2 as [e|p] eqn:Hp; [done|]. intros _.
  destruct (get_params_inv _ _ Hp) as (l & np & v1 & v2 & v3 & v4 & v5 &
    Hnp & Hh & H1 & H2 & H3 & H4 & H5 & Heq).
  exists l, np. repeat split; [done..|]. unfold own_fields. repeat constructor; by eexists.
Qed.

(** X1. Handing [set_params] what [get_params] reports, entirely or in
    part and in any order, succeeds and changes nothing: each key is
    either a field of the adapter, assigned the value it has, or a network
    option, overwritten in place with the value it has. (A network option
    bearing the name of an attribute or method is the exception: such a
    key is not settable.) *)
Theorem set_params_of_get_params w params :
  Forall (λ kv, reported w kv.1 = Some kv.2 ∧ settable kv.1 w) params →
  set_params params w = (w, inr tt).
Proof.
  intros Hall. induction Hall as [|[k v] rest [Hk Hset] _ IH]; [done|].
  cbn [fst snd] in Hk, Hset. cbn [set_params].
  destruct (reported_inv _ _ _ Hk) as (l & np & Hnp & Hh & Hown).
  destruct (decide (k ∈ own_fields)) as [Hin|Hout].
  - rewrite (reported_own _ _ _ _ Hnp Hh Hown Hin) in Hk.
    erewrite (bind_run (set_param k v));
      [|apply set_param_attribute; by eapply hasattr_own].
    cbn beta iota. by rewrite with_attrs_insert_id.
  - destruct Hset as [?|Hno]; [done|].
    rewrite (reported_option _ _ _ _ Hnp Hh Hown Hout) in Hk.
    erewrite (bind_run (set_param k v));
      [|eapply set_param_option; [done..|by rewrite Hk]].
    cbn beta iota. rewrite (insert_id np) by done. by rewrite with_heap_insert_id.
Qed.

(** X2. Writing a parameter that [get_params] reports and reading it
    back: [set_params] succeeds, [get_params] then reports the new value
    under that name and what it reported before under every other name. *)
Theorem set_params_then_get_params w key old value :
  reported w key = Some old →
  settable key w →
  ∃ w', set_params [(key, value)] w = (w', inr tt)
        ∧ reported w' key = Some value
        ∧ ∀ k, k ≠ key → reported w' k = reported w k.
Proof.
  intros Hold Hkey.
  destruct (reported_inv _ _ _ Hold) as (l & np & Hnp & Hh & Hown).
  cbn [set_params].
  destruct (decide (key ∈ own_fields)) as [Hin|Hout].
  - assert (is_Some (attrs w !! key)) as [v0 Hv0].
    { rewrite <- (reported_own _ _ _ _ Hnp Hh Hown Hin). by eexists. }
    eexists. erewrite (bind_run (set_param key value));
      [|apply set_param_attribute; by eapply hasattr_own].
    cbn beta iota. split; [reflexivity|].
    set (w' := with_attrs (insert key value) w).
    assert (key ≠ "network_params") as Hne.
    { intros ->. unfold own_fields in Hin.
      repeat (apply elem_of_cons in Hin as [Hin|Hin]; [done|]). by apply elem_of_nil in Hin. }
    assert (attrs w' !! "network_params" = Some (VRef l)) as Hnp'
      by (subst w'; cbn [attrs with_attrs]; by rewrite lookup_insert_ne).
    assert (Forall (λ n, is_Some (attrs w' !! n)) own_fields) as Hown'.
    { eapply Forall_impl; [exact Hown|]. intros n [x Hx]. subst w'. cbn [attrs with_attrs].
      destruct (decide (key = n)) as [->|];
        [rewrite lookup_insert_eq|rewrite lookup_insert_ne by done]; by eexists. }
    split.
    + rewrite (reported_own w' l np) by done. subst w'. cbn [attrs with_attrs].
      apply lookup_insert_eq.
    + intros k Hk. destruct (decide (k ∈ own_fields)).
      * rewrite (reported_own w' l np), (reported_own w l np) by done.
        subst w'. cbn [attrs with_attrs]. by rewrite lookup_insert_ne.
      * by rewrite (reported_option w' l np), (reported_option w l np).
  - destruct Hkey as [?|Hno]; [done|].
    assert (np !! key = Some old) as Hk.
    { by rewrite <- (reported_option _ _ _ _ Hnp Hh Hown Hout). }
    eexists. erewrite (bind_run (set_param key value));
      [|by eapply set_param_option]. cbn beta iota. split; [reflexivity|].
    set (w' := with_heap (insert l (<[key:=value]> np)) w).
    assert (heap w' !! l = Some (<[key:=value]> np)) as Hh'
      by (subst w'; cbn [heap with_heap]; apply lookup_insert_eq).
    split.
    + rewrite (reported_option w' l _ key Hnp Hh' Hown Hout). apply lookup_insert_eq.
    + intros k Hk'. destruct (decide (k ∈ own_fields)).
      * by rewrite (reported_own w' l _ k Hnp Hh' Hown), (reported_own w l np).
      * rewrite (reported_option w' l _ k Hnp Hh' Hown), (reported_option w l np) by done.
        by rewrite lookup_insert_ne.
Qed.

End Parameters.

(** ** Keys that [set_params] cannot place, and keys it places oddly *)

Section StageKeys.
Context {ext : Externals} {col : Collaborators}.

Lemma set_params_app p1 p2 w :
  set_params (p1 ++ p2) w = (set_params p1 ;;; set_params p2) w.
Proof.
  revert w. induction p1 as [|[k v] p1 IH]; intros w; [done|].
  cbn [app set_params]. rewrite bind_bind. unfold bind at 1 2.
  destruct (set_param k v w) as [w1 [e|[]]]; [done|]. apply IH.
Qed.

Lemma partition_none c s :
  has_char c s = false → Py.partition c s = (s, EmptyString, EmptyString).
Proof.
  induction s as [|c' s IH]; [done|].
  intros [Hc Hs]%orb_false_elim. simpl. rewrite Hc. by rewrite IH.
Qed.

(** The last branch of [set_params]: the key is no attribute and no
    network option. *)
Lemma set_param_stage_branch key value w ln np :
  no_attribute key w →
  attrs w !! "network_params" = Some (VRef ln) → heap w !! ln = Some np →
  np !! key = None →
  set_param key value w
  = (let '(trainer_num, sep, param) := Py.partition "_"%char key in
     match sep with
     | EmptyString => raise (invalid_parameter key)
     | _ =>
         let* trainer_num := lift (Py.int (Py.slice_from 7 trainer_num)) in
         let* ts := getattr "trainers" in
         let* stages := sequence "subscripted object" ts in
         let* stage := lift (Py.list_index stages trainer_num) in
         setitem stage.2 param value
     end) w.
Proof.
  unfold no_attribute, set_param, hasattr. rewrite bind_gets. unfold gets. cbn [snd].
  intros [= ->] Hnp Hh Hk. erewrite bind_getattr by done.
  erewrite bind_mapping by done. cbn [snd].
  by rewrite bool_decide_eq_false_2 by (rewrite Hk; by intros [? ?]).
Qed.

(** X3. [set_params] works through its keys one at a time and stops at a
    key that has no underscore and names neither an attribute nor a network
    option: the call fails with the error that names this key, what the
    keys before it have changed stays changed, the keys after it are not
    looked at. *)
Theorem set_params_stops_at_invalid_key w w1 before key value after ln np :
  set_params before w = (w1, inr tt) →
  no_attribute key w1 →
  attrs w1 !! "network_params" = Some (VRef ln) → heap w1 !! ln = Some np →
  np !! key = None →
  has_char "_" key = false →
  set_params (before ++ (key, value) :: after) w = (w1, inl (invalid_parameter key)).
Proof.
  intros Hbefore Hno Hnp Hh Hk Hsep.
  rewrite set_params_app, (bind_run _ _ _ _ _ Hbefore). cbn [set_params].
  unfold bind. rewrite (set_param_stage_branch _ _ _ _ _ Hno Hnp Hh Hk).
  by rewrite (partition_none _ _ Hsep).
Qed.

Lemma list_index_beyond {A} (l : list A) n :
  (length l ≤ n)%nat → Py.list_index l (Z.of_nat n) = inl (IndexError "list index out of range").
Proof.
  intros Hn. unfold Py.list_index.
  destruct (Z.ltb_spec (Z.of_nat n) 0); [lia|].
  destruct (Z.ltb_spec (Z.of_nat n) 0); [lia|].
  destruct (Z.leb_spec (Z.of_nat (length l)) (Z.of_nat n)); [done|lia].
Qed.

(** X4. A key [trainer<N>_<param>] whose index is not that of a stage of
    the schedule ([N] at least its length, so any [N] on an empty schedule)
    makes [set_params] fail with [IndexError]; the schedule is not
    extended and nothing is changed. *)
Theorem set_params_stage_out_of_range w n param value stages ln np :
  no_attribute (trainer_key n param) w →
  attrs w !! "network_params" = Some (VRef ln) → heap w !! ln = Some np →
  np !! trainer_key n param = None →
  attrs w !! "trainers" = Some (VList stages) →
  (length stages ≤ n)%nat →
  set_params [(trainer_key n param, value)] w = (w, inl index_out_of_range).
Proof.
  intros Hno Hnp Hh Hk Hts Hn. cbn [set_params]. unfold bind at 1.
  rewrite (set_param_stage_branch _ _ _ _ _ Hno Hnp Hh Hk), partition_trainer_key.
  change (Py.slice_from 7 ("trainer" +:+ decimal n)) with (decimal n).
  rewrite int_decimal, bind_lift. erewrite bind_getattr by done.
  unfold sequence. by rewrite bind_ret, (list_index_beyond _ _ Hn), bind_lift.
Qed.

Lemma parse_int_minus_decimal n :
  Py.parse_int ("-" +:+ decimal n) = Some (- Z.of_nat n).
Proof.
  unfold decimal. pose proof (to_uint_nonnil n) as Hn.
  pose proof (digits_uint (Nat.to_uint n) 0 false (or_intror Hn)) as Hd.
  change (Nat.of_uint_acc (Nat.to_uint n) 0) with (Nat.of_uint (Nat.to_uint n)) in Hd.
  rewrite Unsigned.of_to in Hd. rewrite append_cons, append_nil.
  unfold Py.parse_int. change (Py.skip_spaces (String "-" ?s)) with (String "-"%char s).
  cbn beta iota. change (Z.of_nat 0) with 0 in Hd. by rewrite Hd.
Qed.

Lemma list_index_from_end {A} (l : list A) m x :
  (0 < m ≤ length l)%nat → l !! (length l - m)%nat = Some x →
  Py.list_index l (- Z.of_nat m) = inr ((length l - m)%nat, x).
Proof.
  intros Hm Hx. unfold Py.list_index.
  destruct (Z.ltb_spec (- Z.of_nat m) 0); [|lia].
  destruct (Z.ltb_spec (- Z.of_nat m + Z.of_nat (length l)) 0); [lia|].
  destruct (Z.leb_spec (Z.of_nat (length l)) (- Z.of_nat m + Z.of_nat (length l))); [lia|].
  cbn [orb].
  replace (Z.to_nat (- Z.of_nat m + Z.of_nat (length l))) with (length l - m)%nat by lia.
  by rewrite Hx.
Qed.

Lemma partition_trainer_key_from_end m param :
  Py.partition "_" (trainer_key_from_end m param)
  = ("trainer" +:+ "-" +:+ decimal m, "_", param).
Proof.
  unfold trainer_key_from_end.
  replace ("trainer" +:+ "-" +:+ decimal m +:+ "_" +:+ param)
    with (("trainer" +:+ "-" +:+ decimal m) +:+ String "_" param)
    by by rewrite !append_assoc.
  apply partition_app. rewrite !append_cons, !append_nil. simpl. apply has_char_uint.
Qed.

(** X5. The index of a stage key may be negative: [trainer-<M>_<param>],
    with [M] between 1 and the number of stages, writes [param] into the
    [M]-th stage from the end of the schedule and changes no attribute of
    the adapter. *)
Theorem set_params_counts_from_end w m param value stages ln np l d :
  no_attribute (trainer_key_from_end m param) w →
  attrs w !! "network_params" = Some (VRef ln) → heap w !! ln = Some np →
  np !! trainer_key_from_end m param = None →
  attrs w !! "trainers" = Some (VList stages) →
  (0 < m ≤ length stages)%nat →
  stages !! (length stages - m)%nat = Some (VRef l) →
  heap w !! l = Some d →
  ∃ w', set_params [(trainer_key_from_end m param, value)] w = (w', inr tt)
        ∧ stage w' (length stages - m) = Some (<[param := value]> d)
        ∧ attrs w' = attrs w.
Proof.
  intros Hno Hnp Hh Hk Hts Hm Hst Hd.
  exists (with_heap (insert l (<[param := value]> d)) w).
  split; [|split; [|done]].
  - cbn [set_params]. unfold bind at 1.
    rewrite (set_param_stage_branch _ _ _ _ _ Hno Hnp Hh Hk), partition_trainer_key_from_end.
    change (Py.slice_from 7 ("trainer" +:+ "-" +:+ decimal m)) with ("-" +:+ decimal m).
    unfold Py.int. rewrite parse_int_minus_decimal, bind_lift.
    erewrite bind_getattr by done.
    unfold sequence. rewrite bind_ret, (list_index_from_end _ _ _ Hm Hst), bind_lift.
    cbn [snd]. unfold setitem. by erewrite bind_mapping by done.
  - unfold stage. cbn [attrs heap with_heap]. rewrite Hts, Hst. apply lookup_insert_eq.
Qed.

End StageKeys.

(** ** What [set_params] leaves alone *)

Section ParametersFrame.
Context {ext : Externals} {col : Collaborators}.

Lemma setitem_attrs d key value w : attrs (setitem d key value w).1 = attrs w.
Proof.
  unfold setitem, bind. pose proof (readonly_mapping "subscript assignment" d w) as Hro.
  destruct (mapping _ d w) as [w' [e|ld]]; simpl in Hro; by subst w'.
Qed.

(** [set_params] writes no attribute but the one its key names. *)
Lemma set_param_attrs key value w k :
  k ≠ key → attrs (set_param key value w).1 !! k = attrs w !! k.
Proof.
  intros Hk. unfold set_param, hasattr. rewrite bind_gets.
  match goal with |- context [if ?b then _ else _] => destruct b end.
  { cbn [fst setattr modify attrs with_attrs]. by rewrite lookup_insert_ne. }
  f_equal.
  destruct (attrs w !! "network_params") as [v|] eqn:Hnp;
    [erewrite bind_getattr by done|by rewrite bind_getattr_None].
  unfold bind at 1. pose proof (readonly_mapping "right operand of in" v w) as Hro.
  destruct (mapping _ v w) as [w' [e|ld]]; simpl in Hro; subst w'; [done|].
  case_bool_decide; [apply setitem_attrs|].
  destruct (Py.partition "_" key) as [[t sep] param].
  destruct sep; [done|].
  rewrite bind_lift. destruct (Py.int _) as [e|z]; [done|].
  destruct (attrs w !! "trainers") as [ts|] eqn:Hts;
    [erewrite bind_getattr by done|by rewrite bind_getattr_None].
  unfold bind at 1. pose proof (readonly_sequence "subscripted object" ts w) as Hro.
  destruct (sequence _ ts w) as [w' [e|stages]]; simpl in Hro; subst w'; [done|].
  rewrite bind_lift. destruct (Py.list_index stages z) as [e|st]; [done|].
  apply setitem_attrs.
Qed.

Lemma set_params_attrs params w k :
  Forall (λ kv, kv.1 ≠ k) params →
  attrs (set_params params w).1 !! k = attrs w !! k.
Proof.
  intros Hall. revert w. induction Hall as [|[key v] rest Hk _ IH]; intros w; [done|].
  cbn [set_params]. unfold bind.
  pose proof (set_param_attrs key v w k ltac:(by intros ->)) as Hstep.
  destruct (set_param key v w) as [w1 [e|[]]]; cbn [fst] in *; [done|].
  by rewrite IH.
Qed.

(** X6. [set_params] does not rebuild or retrain the network: given
    keys that are no special names, name nothing the class or its bases
    define, and are not [exp] or [features] themselves, [predict_proba]
    answers afterwards exactly as it did before, whether the call has
    succeeded or failed. *)
Theorem set_params_keeps_predictions params w X :
  Forall (λ kv, data_name kv.1 ∧ kv.1 ≠ "exp" ∧ kv.1 ≠ "features") params →
  (predict_proba X (set_params params w).1).2 = (predict_proba X w).2.
Proof.
  intros Hall. rewrite !predict_proba_run. cbn [snd]. unfold predicted.
  rewrite !set_params_attrs; [done|..];
    (eapply Forall_impl; [exact Hall|]; by intros ? (? & ? & ?)).
Qed.

(** One key keeps the dict object at [ln] on its keys, the schedule not
    reaching that object. *)
Lemma set_param_keys key value w ln np :
  attrs w !! "network_params" = Some (VRef ln) → heap w !! ln = Some np →
  no_stage_at ln w →
  ∃ np', heap (set_param key value w).1 !! ln = Some np' ∧ dom np' = dom np.
Proof.
  intros Hnp Hh Hst. unfold set_param, hasattr. rewrite bind_gets.
  match goal with |- context [if ?b then _ else _] => destruct b end.
  { by exists np. }
  erewrite bind_getattr by done. erewrite bind_mapping by done. cbn [snd].
  case_bool_decide as Hin.
  { unfold setitem. erewrite bind_mapping by done. cbn [fst snd modify heap with_heap].
    rewrite lookup_insert_eq. eexists. split; [done|].
    by apply dom_insert_lookup_L. }
  destruct (Py.partition "_" key) as [[t sep] param].
  destruct sep; [by exists np|].
  rewrite bind_lift. destruct (Py.int _) as [e|z]; [by exists np|].
  destruct (attrs w !! "trainers") as [ts|] eqn:Hts;
    [erewrite bind_getattr by done|rewrite bind_getattr_None by done; by exists np].
  assert (∀ stages, ts = VList stages ∨ ts = VTuple stages →
    ∃ np', heap ((let* stage := lift (Py.list_index stages z) in
                  setitem stage.2 param value) w).1 !! ln = Some np' ∧ dom np' = dom np)
    as Hseq.
  { intros stages Hty. rewrite bind_lift.
    destruct (Py.list_index stages z) as [e|[j x]] eqn:Hidx; [by exists np|].
    assert (x ∈ stages) as Hx.
    { unfold Py.list_index in Hidx.
      destruct (_ || _); [done|].
      destruct (stages !! _) eqn:Hl; [|done]. simplify_eq. by eapply list_elem_of_lookup_2. }
    cbn [snd]. unfold setitem, bind.
    pose proof (readonly_mapping "subscript assignment" x w) as Hro.
    destruct (mapping _ x w) as [w' [e|[l' d]]] eqn:Hmap; simpl in Hro; subst w';
      [by exists np|].
    cbn [fst snd modify heap with_heap].
    assert (x = VRef l') as ->.
    { destruct x; try done. unfold mapping in Hmap. destruct (heap w !! l); by simplify_eq. }
    assert (l' ≠ ln) as Hne.
    { intros ->. unfold no_stage_at, schedule_entries in Hst. rewrite Hts in Hst.
      assert (Forall (λ v, v ≠ VRef ln) stages) as Hall by by destruct Hty as [->| ->].
      by eapply Forall_forall in Hall. }
    rewrite lookup_insert_ne by done. by exists np. }
  destruct ts; try (by exists np); unfold sequence; rewrite bind_ret; apply Hseq; eauto.
Qed.

(** X7. [set_params] never adds a network option and never removes one:
    as long as no stage of the schedule is the options dict itself, and
    the keys given are no special names, name nothing the class or its
    bases define, and are not [trainers] or [network_params], the options
    have the same names after the call as before, whether it succeeds or
    fails. *)
Theorem set_params_adds_no_option params w ln np :
  attrs w !! "network_params" = Some (VRef ln) → heap w !! ln = Some np →
  no_stage_at ln w →
  Forall (λ kv, data_name kv.1 ∧ kv.1 ≠ "trainers" ∧ kv.1 ≠ "network_params") params →
  dom <$> network_options (set_params params w).1 = Some (dom np).
Proof.
  intros Hnp Hh Hst Hall. revert w np Hnp Hh Hst.
  induction Hall as [|[key v] rest (_ & Hk1 & Hk2) _ IH]; intros w np Hnp Hh Hst.
  { unfold network_options. cbn [set_params ret fst]. by rewrite Hnp, Hh. }
  cbn [set_params]. unfold bind. cbn [fst] in Hk1, Hk2.
  destruct (set_param_keys key v w ln np Hnp Hh Hst) as (np' & Hh' & Hdom).
  pose proof (set_param_attrs key v w "network_params" ltac:(done)) as Hnp'.
  pose proof (set_param_attrs key v w "trainers" ltac:(done)) as Hts'.
  destruct (set_param key v w) as [w1 [e|[]]]; cbn [fst] in *.
  - unfold network_options. rewrite Hnp', Hnp, Hh'. cbn [fmap option_fmap option_map].
    by rewrite Hdom.
  - rewrite <- Hdom. apply IH; [by rewrite Hnp'|done|].
    unfold no_stage_at, schedule_entries in *. by rewrite Hts'.
Qed.

End ParametersFrame.

(** ** Pickling: what the two hooks read, write and leave behind *)

Section PickleHooks.
Context {ext : Externals} {col : Collaborators}.

Lemma getstate_state w :
  ∃ files, (__getstate__ w).1 = with_fs (λ _, files) w
           ∧ ∀ n, n ≠ mktemp (fs w) → files !! n = fs w !! n.
Proof.
  assert (∃ files, w = with_fs (λ _, files) w
                   ∧ ∀ n, n ≠ mktemp (fs w) → files !! n = fs w !! n) as Hsame.
  { exists (fs w). split; [by destruct w|done]. }
  assert (∀ b, ∃ files,
    with_fs (delete (mktemp (fs w))) (with_fs (insert (mktemp (fs w)) b) w)
    = with_fs (λ _, files) w
    ∧ ∀ n, n ≠ mktemp (fs w) → files !! n = fs w !! n) as Htemp.
  { intros b. exists (delete (mktemp (fs w)) (<[mktemp (fs w) := b]> (fs w))).
    split; [reflexivity|]. intros n Hn. by rewrite lookup_delete_ne, lookup_insert_ne. }
  unfold __getstate__. rewrite bind_gets. case_bool_decide as Hexp; [|done].
  rewrite bind_ret. destruct Hexp as [v Hv]. erewrite bind_getattr by done.
  destruct (is_none v) eqn:Hnone; [done|].
  unfold bind at 1, with_NamedTemporaryFile, the_exp.
  rewrite bind_bind. erewrite bind_getattr by lookup_solve.
  destruct v; cbn beta iota; try (rewrite bind_raise; cbn [fst]; by apply Htemp).
  rewrite bind_ret, bind_lift.
  destruct (exp_save e) as [err|b]; [cbn [fst]; by apply Htemp|].
  unfold write_file. rewrite bind_modify. unfold read_file. cbn [fs with_fs].
  rewrite lookup_insert_eq. cbn [fst ret].
  exists (delete (mktemp (fs w)) (<[mktemp (fs w) := b]> (<[mktemp (fs w) := []]> (fs w)))).
  split; [reflexivity|]. intros n Hn. by rewrite lookup_delete_ne, !lookup_insert_ne.
Qed.

Lemma getstate_frame w :
  only_files_differ w (__getstate__ w).1
  ∧ other_files_kept (mktemp (fs w)) w (__getstate__ w).1.
Proof.
  destruct (getstate_state w) as (files & -> & Hfiles). split; [done|].
  intros n Hn. by apply Hfiles.
Qed.

Lemma getstate_inv w w' s :
  __getstate__ w = (w', inr s) →
  (handle_is VNone w ∧ w' = w ∧ s = <["dumped_exp" := VNone]> (delete "exp" (attrs w)))
  ∨ (∃ e b, handle_is (VExp e) w ∧ exp_save e = inr b
            ∧ w' = with_fs (delete (mktemp (fs w))) w
            ∧ s = <["dumped_exp" := VBytes b]> (delete "exp" (attrs w))).
Proof.
  destruct (attrs w !! "exp") as [v|] eqn:Hv.
  - destruct v; try (unfold __getstate__; rewrite bind_gets;
      rewrite bool_decide_eq_true_2 by (by rewrite Hv);
      rewrite bind_ret; erewrite bind_getattr by done; cbn [is_none];
      unfold bind at 1, with_NamedTemporaryFile, the_exp;
      rewrite bind_bind; erewrite bind_getattr by lookup_solve;
      cbn beta iota; by rewrite bind_raise).
    + rewrite getstate_none by done. intros [= <- <-]. by left.
    + destruct (exp_save e) as [err|b] eqn:Hs.
      * unfold __getstate__. rewrite bind_gets.
        rewrite bool_decide_eq_true_2 by (by rewrite Hv).
        rewrite bind_ret. erewrite bind_getattr by done. cbn [is_none].
        unfold bind at 1, with_NamedTemporaryFile, the_exp.
        rewrite bind_bind. erewrite bind_getattr by lookup_solve. cbn beta iota.
        by rewrite bind_ret, bind_lift, Hs.
      * rewrite (getstate_handle _ _ _ Hv Hs). intros [= <- <-]. right. by exists e, b.
  - unfold __getstate__. rewrite bind_gets.
    by rewrite bool_decide_eq_false_2 by (rewrite Hv; by intros [? ?]).
Qed.

(** X8. [__getstate__] hands out a copy and leaves the adapter as it
    was: whatever the outcome, no attribute, no dict of the store and no
    output changes, and no file other than its temporary one; the
    temporary file is gone afterwards. When it returns, the result holds
    every attribute but [exp], and under [dumped_exp] either [None] (there
    was no handle) or the bytes the library has saved for the handle. *)
Theorem getstate_is_a_picklable_copy w :
  only_files_differ w (__getstate__ w).1
  ∧ other_files_kept (mktemp (fs w)) w (__getstate__ w).1
  ∧ (handle_is VNone w → (__getstate__ w).1 = w)
  ∧ (∀ v, handle_is v w → v ≠ VNone → fs (__getstate__ w).1 !! mktemp (fs w) = None)
  ∧ (∀ s, (__getstate__ w).2 = inr s →
       s !! "exp" = None
       ∧ (∀ k, k ≠ "exp" → k ≠ "dumped_exp" → s !! k = attrs w !! k)
       ∧ (handle_is VNone w ∧ s !! "dumped_exp" = Some VNone
          ∨ ∃ e b, handle_is (VExp e) w ∧ exp_save e = inr b
                   ∧ s !! "dumped_exp" = Some (VBytes b))).
Proof.
  destruct (getstate_frame w) as [Hframe Hfiles].
  split; [done|]. split; [done|]. split; [|split].
  - intros Hv. by rewrite getstate_none.
  - intros v Hv Hne. unfold __getstate__. rewrite bind_gets.
    rewrite bool_decide_eq_true_2 by (by rewrite Hv).
    rewrite bind_ret. erewrite bind_getattr by exact Hv.
    assert (is_none v = false) as -> by by destruct v.
    unfold bind at 1, with_NamedTemporaryFile.
    match goal with
    | |- context [bind ?m ?k (with_fs ?g w)] =>
        destruct (bind m k (with_fs g w)) as [w2 [err|blob]]
    end; cbn [fst fs with_fs ret]; by apply lookup_delete_eq.
  - intros s Hs. destruct (__getstate__ w) as [w' r] eqn:Hrun. cbn [snd] in Hs. subst r.
    destruct (getstate_inv _ _ _ Hrun) as [(Hn & _ & ->)|(e & b & He & Hsave & _ & ->)].
    + split; [by rewrite lookup_insert_ne, lookup_delete_eq|]. split.
      * intros k H1 H2. by rewrite lookup_insert_ne, lookup_delete_ne.
      * left. split; [done|apply lookup_insert_eq].
    + split; [by rewrite lookup_insert_ne, lookup_delete_eq|]. split.
      * intros k H1 H2. by rewrite lookup_insert_ne, lookup_delete_ne.
      * right. exists e, b. split; [done|]. split; [done|apply lookup_insert_eq].
Qed.

End PickleHooks.

Section Unpickle.
Context {ext : Externals} {col : Collaborators}.

(** What [__setstate__] runs inside its temporary file once the dump is
    written. *)
Lemma setstate_open d w b :
  d !! "dumped_exp" = Some (VBytes b) →
  __setstate__ d w
  = (let '(w', r) :=
       (let* ls := full_layers in
        let* e := new_Experiment ls in
        setattr "exp" (VExp e) ;;;
        let* e := the_exp "load" in
        let* b := read_file (mktemp (fs w)) in
        let* e' := lift (exp_load e b) in
        setattr "exp" (VExp e'))
         (mkWorld d (heap w) (<[mktemp (fs w) := b]> (<[mktemp (fs w) := []]> (fs w)))
            (stdout w)) in
     match r with
     | inr _ => (with_attrs (delete "dumped_exp") (with_fs (delete (mktemp (fs w))) w'), inr tt)
     | inl e => (with_fs (delete (mktemp (fs w))) w', inl e)
     end).
Proof.
  intros Hd. unfold __setstate__. rewrite bind_modify, Hd. cbn beta iota.
  rewrite bind_ret. cbn [is_none].
  unfold bind at 1. unfold with_NamedTemporaryFile.
  unfold write_file. rewrite bind_modify, bind_gets.
  cbn [fs with_fs with_attrs]. rewrite bool_decide_eq_true_2 by by rewrite lookup_insert_eq.
  rewrite bind_ret. cbn [attrs heap fs stdout].
  change (with_fs <[mktemp (fs w):=b]>
            (with_fs <[mktemp (fs w):=[]]> (with_attrs (λ _, d) w)))
    with (mkWorld d (heap w) (<[mktemp (fs w) := b]> (<[mktemp (fs w) := []]> (fs w)))
            (stdout w)).
  lazymatch goal with
  | |- context [bind full_layers ?k ?w0] =>
      destruct (bind full_layers k w0) as [w1 [err|[]]]
  end; reflexivity.
Qed.

Lemma setstate_inv d w w' :
  __setstate__ d w = (w', inr tt) →
  (d !! "dumped_exp" = Some VNone
   ∧ w' = with_attrs (λ _, delete "dumped_exp" (<["exp" := VNone]> d)) w)
  ∨ (∃ b i hs o l np e0 e',
       d !! "dumped_exp" = Some (VBytes b) ∧ d !! "input_layer" = Some i ∧
       d !! "layers" = Some (VList hs) ∧ d !! "output_layer" = Some o ∧
       d !! "network_params" = Some (VRef l) ∧ heap w !! l = Some np ∧
       np !! "layers" = None ∧
       tnt_Experiment (VList (i :: hs ++ [o])) np = inr e0 ∧ exp_load e0 b = inr e' ∧
       w' = mkWorld (delete "dumped_exp" (<["exp" := VExp e']> d)) (heap w)
              (delete (mktemp (fs w)) (fs w)) (stdout w)).
Proof.
  destruct (d !! "dumped_exp") as [v|] eqn:Hd; last first.
  { unfold __setstate__. rewrite bind_modify, Hd. done. }
  destruct v as [| | | |s|b| | | | | |];
    try (unfold __setstate__; rewrite bind_modify, Hd; cbn beta iota;
         rewrite bind_ret; cbn [is_none];
         unfold bind at 1, with_NamedTemporaryFile; by rewrite bind_raise).
  { rewrite setstate_none by done. intros [= <-]. by left. }
  intros Hrun. right.
  assert (∀ P : Prop,
    (((let* ls := full_layers in
      let* e := new_Experiment ls in
      setattr "exp" (VExp e) ;;;
      let* e := the_exp "load" in
      let* b := read_file (mktemp (fs w)) in
      let* e' := lift (exp_load e b) in
      setattr "exp" (VExp e'))
       (mkWorld d (heap w) (<[mktemp (fs w) := b]> (<[mktemp (fs w) := []]> (fs w)))
          (stdout w))).2 = inr tt → P) → P) as Hbody.
  { intros P HP. apply HP. rewrite (setstate_open _ _ _ Hd) in Hrun.
    destruct (bind full_layers _ _) as [w1 [err|[]]]; [done|done]. }
  unfold full_layers, new_Experiment, the_exp in Hbody.
  destruct (d !! "input_layer") as [i|] eqn:Hi; last first.
  { apply Hbody. rewrite !bind_bind. by rewrite bind_getattr_None. }
  destruct (d !! "layers") as [ls|] eqn:Hl; last first.
  { apply Hbody. repeat step. by rewrite bind_getattr_None. }
  assert (∃ hs, ls = VList hs) as [hs ->].
  { destruct ls; try (apply Hbody; by repeat step). by eexists. }
  destruct (d !! "output_layer") as [o|] eqn:Ho; last first.
  { apply Hbody. repeat step. by rewrite bind_getattr_None. }
  destruct (d !! "network_params") as [r|] eqn:Hnp; last first.
  { apply Hbody. repeat step. by rewrite bind_getattr_None. }
  assert (∃ l np, r = VRef l ∧ heap w !! l = Some np) as (l & np & -> & Hh).
  { destruct r; try (apply Hbody; by repeat step).
    destruct (heap w !! l) as [np|] eqn:Hh; [by eexists _, _|].
    apply Hbody. repeat step. unfold bind at 1, mapping. cbn [heap]. by rewrite Hh. }
  assert (np !! "layers" = None ∧ ∃ e0 e', tnt_Experiment (VList (i :: hs ++ [o])) np = inr e0
          ∧ exp_load e0 b = inr e') as (Hnl & e0 & e' & Hb & Hld).
  { apply Hbody. repeat step. cbn [snd app].
    case_bool_decide as Hin; [by rewrite bind_raise|].
    rewrite bind_lift.
    destruct (tnt_Experiment (VList (i :: hs ++ [o])) np) as [err|e0] eqn:Hb; [done|].
    repeat step.
    destruct (exp_load e0 b) as [err|e'] eqn:Hld; [done|]. intros _.
    split; [|by eexists _, _].
    destruct (np !! "layers") eqn:E; [|done]. exfalso. apply Hin. by eexists. }
  exists b, i, hs, o, l, np, e0, e'. repeat (split; [done|]).
  rewrite (setstate_handle _ _ b i hs o l np e0 e') in Hrun by done. by simplify_eq.
Qed.

Lemma setstate_frame d w :
  heap (__setstate__ d w).1 = heap w ∧ stdout (__setstate__ d w).1 = stdout w
  ∧ other_files_kept (mktemp (fs w)) w (__setstate__ d w).1.
Proof.
  set (Q := λ w' : World, heap w' = heap w ∧ stdout w' = stdout w
                          ∧ other_files_kept (mktemp (fs w)) w w').
  assert (∀ n v, stable Q (setattr n v)) as Hset by (by intros n v w1 (? & ? & ?)).
  assert (∀ b, stable Q (write_file (mktemp (fs w)) b)) as Hwrite.
  { intros b w1 (? & ? & Hf). repeat split; [done..|]. intros n Hn.
    cbn [fst write_file modify fs with_fs]. rewrite lookup_insert_ne by done. by apply Hf. }
  change (Q (__setstate__ d w).1).
  unfold __setstate__. rewrite bind_modify.
  destruct (d !! "dumped_exp") as [v|]; [|done]. rewrite bind_ret.
  destruct (is_none v); [done|].
  unfold bind at 1, with_NamedTemporaryFile. cbn [fs with_attrs].
  lazymatch goal with
  | |- context [bind ?m ?k (with_fs ?g ?w0)] =>
      assert (stable Q (bind m k)) as Hbody;
      [|assert (Q (with_fs g w0)) as Hstart;
        [|specialize (Hbody _ Hstart);
          destruct (bind m k (with_fs g w0)) as [w1 [err|[]]]]]
  end.
  - pose proof (Hset "exp") as Hexp. stable_tac.
  - repeat split. intros n Hn. cbn [fs with_fs]. by rewrite lookup_insert_ne.
  - destruct Hbody as (? & ? & Hf). repeat split; [done..|]. intros n Hn.
    cbn [fst fs with_fs]. rewrite lookup_delete_ne by done. by apply Hf.
  - destruct Hbody as (? & ? & Hf). repeat split; [done..|]. intros n Hn.
    cbn [fst modify fs with_fs with_attrs]. rewrite lookup_delete_ne by done. by apply Hf.
Qed.

(** X9. [__setstate__] installs the dictionary it is given in place of
    the instance dictionary, without reading what the object held before.
    Whatever the outcome, it changes no dict of the store, prints nothing
    and touches no file but its temporary one. When it returns, the
    attributes are those of the dictionary, [dumped_exp] removed and [exp]
    added: [None] for a dump of [None], otherwise the handle the library
    has loaded from the dump into a network built from the stored sizes,
    hidden layers and options. *)
Theorem setstate_installs_the_dictionary d w :
  (∀ f, __setstate__ d (with_attrs f w) = __setstate__ d w)
  ∧ heap (__setstate__ d w).1 = heap w
  ∧ stdout (__setstate__ d w).1 = stdout w
  ∧ other_files_kept (mktemp (fs w)) w (__setstate__ d w).1
  ∧ ((__setstate__ d w).2 = inr tt →
       let w' := (__setstate__ d w).1 in
       attrs w' !! "dumped_exp" = None
       ∧ (∀ k, k ≠ "exp" → k ≠ "dumped_exp" → attrs w' !! k = d !! k)
       ∧ (d !! "dumped_exp" = Some VNone ∧ handle_is VNone w'
          ∨ ∃ b i hs o l np e0 e',
              d !! "dumped_exp" = Some (VBytes b)
              ∧ d !! "input_layer" = Some i ∧ d !! "layers" = Some (VList hs)
              ∧ d !! "output_layer" = Some o
              ∧ d !! "network_params" = Some (VRef l) ∧ heap w !! l = Some np
              ∧ tnt_Experiment (VList (i :: hs ++ [o])) np = inr e0
              ∧ exp_load e0 b = inr e'
              ∧ handle_is (VExp e') w')).
Proof.
  destruct (setstate_frame d w) as (Hheap & Hout & Hfiles).
  split; [done|]. repeat (split; [done|]).
  destruct (__setstate__ d w) as [w' [err|[]]] eqn:Hrun; [done|]. intros _. cbn [fst].
  destruct (setstate_inv _ _ _ Hrun) as [(Hd & ->)|
    (b & i & hs & o & l & np & e0 & e' & Hd & Hi & Hl & Ho & Hnp & Hh & Hnl & Hb & Hld & ->)];
    cbn [attrs with_attrs].
  - split; [apply lookup_delete_eq|]. split.
    + intros k H1 H2. by rewrite lookup_delete_ne, lookup_insert_ne.
    + left. split; [done|]. unfold handle_is. cbn [attrs with_attrs].
      rewrite lookup_delete_ne by done. apply lookup_insert_eq.
  - split; [apply lookup_delete_eq|]. split.
    + intros k H1 H2. by rewrite lookup_delete_ne, lookup_insert_ne.
    + right. exists b, i, hs, o, l, np, e0, e'. repeat (split; [done|]).
      unfold handle_is. cbn [attrs]. rewrite lookup_delete_ne by done.
      apply lookup_insert_eq.
Qed.

(** X10. Pickling then unpickling restores every attribute of the
    adapter but the handle, the class labels and whatever else it holds
    included, together with every dict of the store; the restored adapter
    has no handle exactly when the original had none. *)
Theorem pickle_restores_every_attribute w w1 s files out w' :
  serialize w = (w1, inr s) →
  deserialize s files out = (w', inr tt) →
  attrs w !! "dumped_exp" = None →
  (∀ k, k ≠ "exp" → attrs w' !! k = attrs w !! k)
  ∧ heap w' = heap w
  ∧ (handle_is VNone w' ↔ handle_is VNone w).
Proof.
  intros Hser Hde Hnd. unfold serialize in Hser.
  destruct (__getstate__ w) as [w0 [err|st]] eqn:Hget;
    [by rewrite (bind_run _ _ _ _ _ Hget) in Hser|].
  rewrite (bind_run _ _ _ _ _ Hget), bind_gets in Hser. cbn [ret] in Hser.
  injection Hser as <- <-. unfold deserialize in Hde. cbn [snap_state snap_heap] in Hde.
  pose proof (proj1 (setstate_frame st (mkWorld ∅ (heap w0) files out))) as Hheap.
  rewrite Hde in Hheap. cbn [fst heap] in Hheap.
  assert (heap w0 = heap w) as Hh0.
  { destruct (getstate_frame w) as [(_ & Hh & _) _]. by rewrite Hget in Hh. }
  assert (∀ k, k ≠ "exp" → k ≠ "dumped_exp" → st !! k = attrs w !! k) as Hst.
  { intros k H1 H2.
    destruct (getstate_inv _ _ _ Hget) as [(_ & _ & ->)|(e & b & _ & _ & _ & ->)];
      by rewrite lookup_insert_ne, lookup_delete_ne. }
  assert (st !! "dumped_exp" = Some VNone ↔ handle_is VNone w) as Hdump.
  { destruct (getstate_inv _ _ _ Hget) as [(Hn & _ & ->)|(e & b & He & _ & _ & ->)];
      rewrite lookup_insert_eq; [done|]. unfold handle_is in *. rewrite He.
      split; intros [=]. }
  split; [|split; [congruence|]].
  - intros k Hk.
    destruct (setstate_inv _ _ _ Hde) as [(Hd & ->)|
      (b & i & hs & o & l & np & e0 & e' & Hd & _ & _ & _ & _ & _ & _ & _ & _ & ->)];
      cbn [attrs with_attrs];
      (destruct (decide (k = "dumped_exp")) as [->|Hk'];
       [by rewrite lookup_delete_eq|
        rewrite lookup_delete_ne, lookup_insert_ne by done; by apply Hst]).
  - rewrite <- Hdump.
    destruct (setstate_inv _ _ _ Hde) as [(Hd & ->)|
      (b & i & hs & o & l & np & e0 & e' & Hd & _ & _ & _ & _ & _ & _ & _ & _ & ->)];
      unfold handle_is; cbn [attrs with_attrs];
      rewrite lookup_delete_ne, lookup_insert_eq by done; rewrite Hd; [done|].
    split; intros [=].
Qed.

End Unpickle.

(** ** The constructor *)

Section Constructor.
Context {ext : Externals} {col : Collaborators}.

Lemma fresh_not_in (h : gmap loc (gmap string Value)) : h !! fresh (dom h) = None.
Proof. apply not_elem_of_dom. apply is_fresh. Qed.

(** The state the constructor leaves, the schedule being given. *)
Lemma init_given a h :
  is_none (trainers a) = false →
  __init__ a (new_object h)
  = (mkWorld
       (<["features" := features a]> (<["exp" := VNone]> (<["trainers" := trainers a]>
          (<["network_params" := VRef (fresh (dom h))]>
             (<["output_layer" := output_layer a]> (<["input_layer" := input_layer a]>
                (<["layers" := layers a]> ∅)))))))
       (<[fresh (dom h) := list_to_map (option_args a)]> h) ∅ [], inr tt).
Proof.
  intros Hts. unfold __init__, Classifier__init__, new_object. repeat step.
  rewrite Hts. by repeat step.
Qed.

(** The state the constructor leaves, no schedule being given. *)
Lemma init_default a h :
  is_none (trainers a) = true →
  let ln := fresh (dom h) in
  let h1 := <[ln := list_to_map (option_args a)]> h in
  __init__ a (new_object h)
  = (mkWorld
       (<["features" := features a]> (<["exp" := VNone]>
          (<["trainers" := VList [VRef (fresh (dom h1))]]> (<["trainers" := trainers a]>
          (<["network_params" := VRef ln]>
             (<["output_layer" := output_layer a]> (<["input_layer" := input_layer a]>
                (<["layers" := layers a]> ∅))))))))
       (<[fresh (dom h1) := ∅]> h1) ∅ [], inr tt).
Proof.
  intros Hts. unfold __init__, Classifier__init__, new_object. repeat step.
  rewrite Hts. by repeat step.
Qed.

Lemma option_args_lookup a k v :
  (k, v) ∈ option_args a →
  (list_to_map (option_args a) : gmap string Value) !! k = Some v ∧ k ∉ own_fields.
Proof.
  unfold option_args, own_fields. intros Hin.
  repeat (apply elem_of_cons in Hin as [[= -> ->]|Hin];
          [split; [cbn [list_to_map foldr uncurry]; lookup_solve|];
           intros Hk; repeat (apply elem_of_cons in Hk as [Hk|Hk]; [done|]);
           by apply elem_of_nil in Hk|]).
  by apply elem_of_nil in Hin.
Qed.

(** X11. What the constructor is given is what [get_params] reports
    right after it: the hidden layers, the two sizes, the feature list and
    the eight network options come back under their own names, the
    schedule too when one was given; when none was, a schedule of one empty
    stage is reported. *)
Theorem constructor_arguments_are_reported a h :
  let w := constructed h a in
  (__init__ a (new_object h)).2 = inr tt
  ∧ reported w "layers" = Some (layers a)
  ∧ reported w "input_layer" = Some (input_layer a)
  ∧ reported w "output_layer" = Some (output_layer a)
  ∧ reported w "features" = Some (features a)
  ∧ (∀ k v, (k, v) ∈ option_args a → reported w k = Some v)
  ∧ (is_none (trainers a) = false → reported w "trainers" = Some (trainers a))
  ∧ (is_none (trainers a) = true →
       ∃ l, reported w "trainers" = Some (VList [VRef l])
            ∧ heap w !! l = Some ∅ ∧ h !! l = None).
Proof.
  intros w. subst w. unfold constructed.
  destruct (is_none (trainers a)) eqn:Hts.
  - pose proof (init_default a h Hts) as Hrun. cbn zeta in Hrun. rewrite Hrun. cbn [fst snd].
    set (h1 := <[fresh (dom h) := list_to_map (option_args a)]> h) in *.
    match goal with |- context [mkWorld ?a0 ?h0 ?f0 ?o0] => set (w := mkWorld a0 h0 f0 o0) end.
    assert (attrs w !! "network_params" = Some (VRef (fresh (dom h)))) as Hnp
      by (subst w; lookup_solve).
    assert (heap w !! fresh (dom h) = Some (list_to_map (option_args a))) as Hh.
    { subst w. cbn [heap]. rewrite lookup_insert_ne.
      - apply lookup_insert_eq.
      - intros Heq. pose proof (fresh_not_in h1) as Hf. rewrite Heq in Hf.
        subst h1. by rewrite lookup_insert_eq in Hf. }
    assert (Forall (λ n, is_Some (attrs w !! n)) own_fields) as Hown.
    { unfold own_fields. repeat constructor; eexists; subst w; lookup_solve. }
    split; [done|].
    rewrite !(reported_own w _ _ _ Hnp Hh Hown) by (unfold own_fields; repeat constructor).
    split; [subst w; lookup_solve|]. split; [subst w; lookup_solve|].
    split; [subst w; lookup_solve|]. split; [subst w; lookup_solve|].
    split; [|split; [done|]].
    + intros k v Hkv. destruct (option_args_lookup _ _ _ Hkv) as [Hl Hk].
      by rewrite (reported_option w _ _ _ Hnp Hh Hown Hk).
    + intros _. exists (fresh (dom h1)). split; [subst w; lookup_solve|].
      split; [subst w; cbn [heap]; apply lookup_insert_eq|].
      pose proof (fresh_not_in h1) as Hf. subst h1.
      destruct (decide (fresh (dom (<[fresh (dom h):=list_to_map (option_args a)]> h))
                        = fresh (dom h))) as [Heq|Hne].
      * rewrite Heq in Hf at 1. by rewrite lookup_insert_eq in Hf.
      * by rewrite lookup_insert_ne in Hf.
  - rewrite (init_given a h Hts). cbn [fst snd].
    match goal with |- context [mkWorld ?a0 ?h0 ?f0 ?o0] => set (w := mkWorld a0 h0 f0 o0) end.
    assert (attrs w !! "network_params" = Some (VRef (fresh (dom h)))) as Hnp
      by (subst w; lookup_solve).
    assert (heap w !! fresh (dom h) = Some (list_to_map (option_args a))) as Hh
      by (subst w; cbn [heap]; apply lookup_insert_eq).
    assert (Forall (λ n, is_Some (attrs w !! n)) own_fields) as Hown.
    { unfold own_fields. repeat constructor; eexists; subst w; lookup_solve. }
    split; [done|].
    rewrite !(reported_own w _ _ _ Hnp Hh Hown) by (unfold own_fields; repeat constructor).
    split; [subst w; lookup_solve|]. split; [subst w; lookup_solve|].
    split; [subst w; lookup_solve|]. split; [subst w; lookup_solve|].
    split; [|split; [intros _; subst w; lookup_solve|done]].
    intros k v Hkv. destruct (option_args_lookup _ _ _ Hkv) as [Hl Hk].
    by rewrite (reported_option w _ _ _ Hnp Hh Hown Hk).
Qed.

(** X12. The constructor allocates its dicts itself: the network options
    live in a dict object that did not exist before and holds exactly the
    eight options; the default schedule is one empty stage in a second new
    dict object, different from the first; and no dict that existed before
    the call is changed. Adapters built one after the other thus share
    neither their options nor their default stage. *)
Theorem constructor_allocates_its_own_dicts a h :
  let w := constructed h a in
  (∀ l d, h !! l = Some d → heap w !! l = Some d)
  ∧ (∃ ln, attrs w !! "network_params" = Some (VRef ln)
           ∧ h !! ln = None
           ∧ network_options w = Some (list_to_map (option_args a))
           ∧ (is_none (trainers a) = true →
                ∃ lt, attrs w !! "trainers" = Some (VList [VRef lt])
                      ∧ h !! lt = None ∧ lt ≠ ln ∧ stage w 0 = Some ∅))
  ∧ (is_none (trainers a) = false → attrs w !! "trainers" = Some (trainers a)).
Proof.
  intros w. subst w. unfold constructed.
  pose proof (fresh_not_in h) as Hln.
  destruct (is_none (trainers a)) eqn:Hts.
  - pose proof (init_default a h Hts) as Hrun. cbn zeta in Hrun. rewrite Hrun. cbn [fst].
    set (h1 := <[fresh (dom h) := list_to_map (option_args a)]> h) in *.
    pose proof (fresh_not_in h1) as Hlt.
    assert (fresh (dom h1) ≠ fresh (dom h)) as Hne.
    { intros Heq. rewrite Heq in Hlt at 1. subst h1. by rewrite lookup_insert_eq in Hlt. }
    assert (h !! fresh (dom h1) = None) as Hlt'.
    { subst h1. by rewrite lookup_insert_ne in Hlt. }
    split; [|split; [|done]].
    + intros l d Hl. cbn [heap]. subst h1.
      rewrite !lookup_insert_ne; [done|intros <-; congruence..].
    + exists (fresh (dom h)). split; [lookup_solve|]. split; [done|]. split.
      * unfold network_options. cbn [attrs heap].
        rewrite !lookup_insert_ne, lookup_insert_eq by done.
        rewrite lookup_insert_ne by done. subst h1. apply lookup_insert_eq.
      * intros _. exists (fresh (dom h1)). split; [lookup_solve|]. split; [done|].
        split; [done|]. unfold stage. cbn [attrs heap].
        rewrite !lookup_insert_ne, lookup_insert_eq by done. cbn [lookup list_lookup].
        apply lookup_insert_eq.
  - rewrite (init_given a h Hts). cbn [fst].
    split; [|split; [|intros _; lookup_solve]].
    + intros l d Hl. cbn [heap]. rewrite lookup_insert_ne; [done|intros <-; congruence].
    + exists (fresh (dom h)). split; [lookup_solve|]. split; [done|]. split; [|done].
      unfold network_options. cbn [attrs heap].
      rewrite !lookup_insert_ne, lookup_insert_eq by done. apply lookup_insert_eq.
Qed.

End Constructor.

(** ** Training calls that fail, and what they leave behind *)

Section Failures.
Context {ext : Externals} {col : Collaborators}.

Lemma partial_fit_turned_down X y nt d w e :
  turned_down X y w e → partial_fit X y VNone nt d w = (w, inl e).
Proof.
  intros [Hc|(X1 & y1 & s1 & f & Hc & Hf & Ht)]; unfold partial_fit; cbn [is_none negb];
    rewrite bind_lift, Hc; [done|]. cbn [fst snd].
  erewrite bind_transform_data by done. by rewrite Ht.
Qed.

Lemma turned_down_frame X y w e n v :
  n ≠ "features" → turned_down X y w e → turned_down X y (with_attrs (insert n v) w) e.
Proof.
  intros Hn [Hc|(X1 & y1 & s1 & f & Hc & Hf & Ht)]; [by left|]. right.
  exists X1, y1, s1, f. repeat split; [done| |done]. cbn [attrs with_attrs].
  by rewrite lookup_insert_ne.
Qed.

(** X13. When the inputs of a training call are turned down, by
    [check_inputs] or by the preprocessing, [partial_fit] raises that error
    and leaves the adapter exactly as it was, whereas [fit] has already
    dropped the handle: it raises the same error and the adapter is no
    longer fitted, a network trained before being lost. *)
Theorem turned_down_inputs X y sw w e :
  turned_down X y w e →
  (∀ nt d, partial_fit X y VNone nt d w = (w, inl e))
  ∧ (∀ l rest d,
       attrs w !! "trainers" = Some (VList (VRef l :: rest)) →
       heap w !! l = Some d → plain_stage d →
       fit X y sw w = (with_attrs (insert "exp" VNone) w, inl e)
       ∧ ∀ X', predict_proba X' (fit X y sw w).1 = ((fit X y sw w).1, inl not_fitted)).
Proof.
  intros Hdown. split; [intros nt d; by apply partial_fit_turned_down|].
  intros l rest d Hts Hl Hplain.
  assert (fit X y sw w = (with_attrs (insert "exp" VNone) w, inl e)) as Hfit.
  { unfold fit. rewrite bind_setattr. erewrite bind_getattr by lookup_solve.
    unfold sequence. rewrite bind_ret. cbn [replay]. rewrite !bind_bind. unfold bind at 1.
    rewrite (call_partial_fit_plain X y l d (with_attrs (insert "exp" VNone) w) Hl Hplain).
    by rewrite (partial_fit_turned_down _ _ _ _ _ e) by by apply turned_down_frame. }
  split; [done|]. intros X'. rewrite Hfit. cbn [fst].
  rewrite predict_proba_run. unfold predicted. cbn [attrs with_attrs].
  by rewrite lookup_insert_eq.
Qed.

Lemma partial_fit_later_fails X y nt d w X1 y1 s1 f m e stages err :
  check_inputs X y VNone = inr (X1, y1, s1) →
  attrs w !! "features" = Some f →
  transform f X1 = inr m →
  attrs w !! "exp" = Some (VExp e) →
  (nt = true → attrs w !! "trainers" = Some (VList stages)) →
  exp_train e (astype_float32 m) (Py.astype_int32 <$> y1) d = inl err →
  partial_fit X y VNone nt d w = (interrupted (Py.unique y1) nt stages d w, inl err).
Proof.
  intros Hc Hf Ht He Hts Htr.
  unfold partial_fit. cbn [is_none negb].
  rewrite bind_lift, Hc. cbn [fst snd].
  erewrite bind_transform_data by lookup_solve. rewrite Ht.
  repeat step.
  erewrite bind_staged; last first.
  { intros Hnt. specialize (Hts Hnt). lookup_solve. }
  unfold the_exp.
  assert (attrs (staged nt stages d
    (with_attrs <["classes_":=VArray (Py.unique y1)]> w)) !! "exp" = Some (VExp e)) as Hexp.
  { destruct nt; unfold staged, appended; lookup_solve. }
  repeat step. by rewrite Htr.
Qed.

Lemma partial_fit_first_fails X y nt d w X1 y1 s1 f m i o hs l np stages e0 err :
  check_inputs X y VNone = inr (X1, y1, s1) →
  attrs w !! "features" = Some f →
  transform f X1 = inr m →
  attrs w !! "exp" = Some VNone →
  attrs w !! "input_layer" = Some i →
  attrs w !! "output_layer" = Some o →
  attrs w !! "layers" = Some (VList hs) →
  attrs w !! "network_params" = Some (VRef l) →
  heap w !! l = Some np →
  np !! "layers" = None →
  (nt = true → attrs w !! "trainers" = Some (VList stages)) →
  tnt_Experiment (VList (resolve i (shape1 m) :: hs ++ [resolve o (length (Py.unique y1))]))
    np = inr e0 →
  exp_train e0 (astype_float32 m) (Py.astype_int32 <$> y1) d = inl err →
  partial_fit X y VNone nt d w =
    (fitted (Py.unique y1) (resolve i (shape1 m)) hs (resolve o (length (Py.unique y1))) e0
       (staged nt stages d w), inl err).
Proof.
  intros Hc Hf Ht He Hi Ho Hl Hnp Hh Hnl Hts Hb Htr.
  unfold partial_fit. cbn [is_none negb].
  rewrite bind_lift, Hc. cbn [fst snd].
  erewrite bind_transform_data by lookup_solve. rewrite Ht.
  repeat step.
  erewrite (bind_run (initialize_experiment m));
    [| eapply initialize_experiment_run; [lookup_solve ..| exact Hnl | exact Hb]].
  cbn beta iota.
  erewrite bind_staged; last first.
  { intros Hnt. specialize (Hts Hnt). unfold fitted. lookup_solve. }
  unfold the_exp. repeat step.
  assert (attrs (staged nt stages d
    (fitted (Py.unique y1) (resolve i (shape1 m)) hs
       (resolve o (length (Py.unique y1))) e0
       (with_attrs <["classes_":=VArray (Py.unique y1)]> w))) !! "exp" = Some (VExp e0)) as Hexp.
  { destruct nt; unfold staged, appended, fitted; lookup_solve. }
  erewrite bind_getattr by exact Hexp. repeat step. rewrite Htr.
  f_equal. destruct nt; unfold staged, appended, fitted; world_eq.
Qed.

(** X14. [partial_fit] records its stage before it trains: when the
    library's [train] fails on a fitted adapter, the call raises that
    error, yet the stage has been appended to the schedule (in a new dict
    object holding the keyword arguments) and the class labels are those of
    the failed batch; the handle is the one from before. *)
Theorem failed_stage_is_recorded X y d w X1 y1 s1 f m e stages err :
  check_inputs X y VNone = inr (X1, y1, s1) →
  attrs w !! "features" = Some f →
  transform f X1 = inr m →
  attrs w !! "exp" = Some (VExp e) →
  attrs w !! "trainers" = Some (VList stages) →
  exp_train e (astype_float32 m) (Py.astype_int32 <$> y1) d = inl err →
  ∃ w' l, partial_fit X y VNone true d w = (w', inl err)
          ∧ heap w !! l = None
          ∧ attrs w' !! "trainers" = Some (VList (stages ++ [VRef l]))
          ∧ stage w' (length stages) = Some d
          ∧ classes_are (Py.unique y1) w'
          ∧ handle_is (VExp e) w'.
Proof.
  intros Hc Hf Ht He Hts Htr.
  exists (interrupted (Py.unique y1) true stages d w), (fresh (dom (heap w))).
  split; [by eapply partial_fit_later_fails|]. split; [apply fresh_not_in|].
  unfold interrupted, staged, appended, stage, classes_are, handle_is.
  cbn [attrs heap with_attrs with_heap]. split; [apply lookup_insert_eq|]. split.
  - rewrite lookup_insert_eq. rewrite lookup_app_r by done.
    rewrite Nat.sub_diag. cbn [lookup list_lookup]. apply lookup_insert_eq.
  - split; lookup_solve.
Qed.

End Failures.

(** ** Training on, and training again *)

Section Incremental.
Context {ext : Externals} {col : Collaborators}.

(** X15. On a fitted adapter [partial_fit] trains the network it finds:
    the constructor of the library is not called and nothing is printed,
    whatever the width of the table and the number of distinct labels of
    the batch; the new handle is what [train] returns for the old one, and
    no attribute but the handle, the class labels and the schedule, and no
    existing dict, is changed. *)
Theorem partial_fit_keeps_the_network X y nt d w X1 y1 s1 f m e stages e1 :
  check_inputs X y VNone = inr (X1, y1, s1) →
  attrs w !! "features" = Some f →
  transform f X1 = inr m →
  attrs w !! "exp" = Some (VExp e) →
  (nt = true → attrs w !! "trainers" = Some (VList stages)) →
  exp_train e (astype_float32 m) (Py.astype_int32 <$> y1) d = inr e1 →
  ∃ w', partial_fit X y VNone nt d w = (w', inr VSelf)
        ∧ handle_is (VExp e1) w'
        ∧ stdout w' = stdout w
        ∧ fs w' = fs w
        ∧ (∀ k, k ≠ "exp" → k ≠ "classes_" → k ≠ "trainers" →
                attrs w' !! k = attrs w !! k)
        ∧ (∀ l d0, heap w !! l = Some d0 → heap w' !! l = Some d0)
        ∧ (nt = false → schedule w' = schedule w).
Proof.
  intros Hc Hf Ht He Hts Htr. eexists. split; [by eapply partial_fit_later|].
  unfold handle_is, retrained.
  split; [cbn [attrs with_attrs]; apply lookup_insert_eq|].
  split; [by destruct nt|]. split; [by destruct nt|]. split; [|split].
  - intros k H1 H2 H3. destruct nt; unfold staged, appended; cbn [attrs with_attrs with_heap];
      by rewrite !lookup_insert_ne.
  - intros l d0 Hl. destruct nt; unfold staged, appended; cbn [heap with_attrs with_heap];
      [|done]. rewrite lookup_insert_ne; [done|].
    intros <-. by rewrite fresh_not_in in Hl.
  - intros ->. unfold staged, schedule. cbn [attrs heap with_attrs].
    by rewrite !lookup_insert_ne.
Qed.

(** X16. A stage that [partial_fit] has recorded is part of every later
    [fit]: after a successful [partial_fit(..., **d)] the schedule is the
    old one followed by [d], and [fit] replays exactly these stages, in
    this order, on a handle reset to [None]. *)
Theorem recorded_stage_is_replayed X y d w X1 y1 s1 f m e refs ds e1 :
  check_inputs X y VNone = inr (X1, y1, s1) →
  attrs w !! "features" = Some f →
  transform f X1 = inr m →
  attrs w !! "exp" = Some (VExp e) →
  attrs w !! "trainers" = Some (VList (VRef <$> refs)) →
  Forall2 (λ l d, heap w !! l = Some d) refs ds →
  Forall plain_stage ds → plain_stage d →
  exp_train e (astype_float32 m) (Py.astype_int32 <$> y1) d = inr e1 →
  ∃ w1, partial_fit X y VNone true d w = (w1, inr VSelf)
        ∧ stage w1 (length refs) = Some d
        ∧ ∀ X' y' sw,
            fit X' y' sw w1
            = replay_stages X' y' (ds ++ [d]) (with_attrs (insert "exp" VNone) w1).
Proof.
  intros Hc Hf Ht He Hts Hrefs Hplain Hd Htr. eexists.
  split; [by eapply (partial_fit_later _ _ true)|].
  set (l := fresh (dom (heap w))).
  assert (attrs (retrained (Py.unique y1) e1 (staged true (VRef <$> refs) d w)) !! "trainers"
          = Some (VList (VRef <$> (refs ++ [l])))) as Hts'.
  { unfold retrained, staged, appended. cbn [attrs with_attrs with_heap].
    rewrite !lookup_insert_ne, lookup_insert_eq by done. by rewrite fmap_app. }
  assert (heap (retrained (Py.unique y1) e1 (staged true (VRef <$> refs) d w))
          = <[l := d]> (heap w)) as Hheap by done.
  split.
  - unfold stage. rewrite Hts', Hheap. rewrite list_lookup_fmap.
    rewrite lookup_app_r by done. rewrite Nat.sub_diag. cbn [lookup list_lookup fmap option_fmap option_map].
    apply lookup_insert_eq.
  - intros X' y' sw. apply (fit_as_replay X' y' sw _ (refs ++ [l])); [done| |].
    + rewrite Hheap. apply Forall2_app.
      * eapply Forall2_impl; [exact Hrefs|]. intros l0 d0 Hl0. cbn beta.
        rewrite lookup_insert_ne; [done|]. intros <-. subst l.
        by rewrite fresh_not_in in Hl0.
      * constructor; [apply lookup_insert_eq|constructor].
    + apply Forall_app. split; [done|by constructor].
Qed.

(** X17. On an empty schedule [fit] looks at nothing: whatever the
    table and the labels, valid or not, it returns the adapter, having
    dropped the handle and done nothing else; [predict_proba] then fails
    with the not-fitted assertion, even if the adapter was fitted before. *)
Theorem empty_schedule_leaves_unfitted X y sw w :
  attrs w !! "trainers" = Some (VList []) ∨ attrs w !! "trainers" = Some (VTuple []) →
  fit X y sw w = (with_attrs (insert "exp" VNone) w, inr VSelf)
  ∧ ∀ X', predict_proba X' (fit X y sw w).1 = ((fit X y sw w).1, inl not_fitted).
Proof.
  intros Hts.
  assert (fit X y sw w = (with_attrs (insert "exp" VNone) w, inr VSelf)) as Hfit.
  { unfold fit. rewrite bind_setattr.
    destruct Hts as [Hts|Hts]; by erewrite bind_getattr by lookup_solve. }
  split; [done|]. intros X'. rewrite Hfit. cbn [fst].
  rewrite predict_proba_run. unfold predicted. cbn [attrs with_attrs].
  by rewrite lookup_insert_eq.
Qed.

(** X18. An entry [sample_weight] of a stage is taken for the parameter
    of [partial_fit], not for an option of the training algorithm: [fit]
    on a schedule whose first stage holds weights other than [None] raises
    the not-supported error, the handle dropped and nothing trained; an
    entry [None] is swallowed, the stage being trained without it. *)
Theorem stage_sample_weight_is_a_parameter X y sw w l rest d v :
  attrs w !! "trainers" = Some (VList (VRef l :: rest)) →
  heap w !! l = Some d →
  d !! "self" = None → d !! "X" = None → d !! "y" = None → d !! "new_trainer" = None →
  d !! "sample_weight" = Some v →
  (is_none v = false →
     fit X y sw w = (with_attrs (insert "exp" VNone) w, inl not_supported))
  ∧ (is_none v = true →
     call_partial_fit X y (VRef l) w
     = partial_fit X y VNone false (delete "sample_weight" d) w).
Proof.
  intros Hts Hl Hself HX Hy Hnt Hsw.
  assert (∀ w0, heap w0 = heap w →
    call_partial_fit X y (VRef l) w0
    = partial_fit X y v false (delete "sample_weight" d) w0) as Hcall.
  { intros w0 Hw0. unfold call_partial_fit.
    erewrite bind_mapping by (rewrite Hw0; exact Hl). cbn [snd].
    rewrite bool_decide_eq_false_2; [by rewrite Hsw|].
    unfold bound_names. rewrite !Exists_cons, Exists_nil.
    rewrite Hself, HX, Hy, Hnt. intros [[? ?]|[[? ?]|[[? ?]|[[? ?]|[]]]]]; done. }
  split.
  - intros Hv. unfold fit. rewrite bind_setattr. erewrite bind_getattr by lookup_solve.
    unfold sequence. rewrite bind_ret. cbn [replay]. rewrite !bind_bind. unfold bind at 1.
    rewrite Hcall by done. by rewrite partial_fit_rejects_weights.
  - intros Hv. rewrite Hcall by done. by destruct v.
Qed.

(** X19. The queries change nothing: [get_params], [predict_proba] and
    the fitted check leave every attribute, dict, file and the output as
    they were, whether they return or raise; [staged_predict_proba] always
    raises its not-supported error, fitted or not. *)
Theorem queries_change_nothing X w :
  (get_params w).1 = w
  ∧ (predict_proba X w).1 = w
  ∧ (_check_fitted w).1 = w
  ∧ (_transform_data X w).1 = w
  ∧ staged_predict_proba X w = (w, inl staged_not_supported).
Proof.
  split; [apply readonly_get_params|]. split; [apply readonly_predict_proba|].
  split; [apply readonly_check_fitted|]. split; [apply readonly_transform_data|done].
Qed.

End Incremental.

(** ** A stage that fails in the middle of [fit] *)

Section Interrupted.
Context {ext : Externals} {col : Collaborators}.

Lemma replay_stages_fails X y ds1 d ds2 w X1 y1 s1 f m e e1 err :
  check_inputs X y VNone = inr (X1, y1, s1) →
  attrs w !! "features" = Some f →
  transform f X1 = inr m →
  attrs w !! "exp" = Some (VExp e) →
  attrs w !! "classes_" = Some (VArray (Py.unique y1)) →
  train_all e (astype_float32 m) (Py.astype_int32 <$> y1) ds1 = inr e1 →
  exp_train e1 (astype_float32 m) (Py.astype_int32 <$> y1) d = inl err →
  replay_stages X y (ds1 ++ d :: ds2) w = (retrained (Py.unique y1) e1 w, inl err).
Proof.
  intros Hc Hf Ht He Hcl Htr Hfail. revert w e Hf He Hcl Htr.
  induction ds1 as [|d1 ds1 IH]; intros w e Hf He Hcl Htr; simpl in *.
  - simplify_eq.
    erewrite (bind_run (partial_fit X y VNone false d));
      [|by eapply (partial_fit_later_fails _ _ false _ _ _ _ _ _ _ _ [])].
    cbn beta iota. f_equal. unfold interrupted, staged.
    rewrite retrained_id by done. by rewrite with_attrs_insert_id.
  - destruct (exp_train e _ _ d1) as [|e2] eqn:Hd1; [done|].
    erewrite (bind_run (partial_fit X y VNone false d1));
      [|by eapply (partial_fit_later _ _ false _ _ _ _ _ _ _ _ [])].
    cbn beta iota. unfold staged.
    erewrite IH; [| unfold retrained; lookup_solve ..| exact Htr].
    f_equal. unfold retrained. world_eq.
Qed.

(** X20. [fit] stops at the first stage whose training fails: it raises
    the error of that stage, the stages after it are not run, and the
    adapter is left with the network that was built for this call and
    trained by the stages before the failing one (untrained when the first
    stage fails), the resolved sizes stored and the class labels set. *)
Theorem fit_stops_at_failing_stage X y sw w refs ds1 d ds2 X1 y1 s1 f m i o hs l np e0 e1 err :
  attrs w !! "trainers" = Some (VList (VRef <$> refs)) →
  Forall2 (λ l d, heap w !! l = Some d) refs (ds1 ++ d :: ds2) →
  Forall plain_stage (ds1 ++ d :: ds2) →
  check_inputs X y VNone = inr (X1, y1, s1) →
  attrs w !! "features" = Some f →
  transform f X1 = inr m →
  attrs w !! "input_layer" = Some i →
  attrs w !! "output_layer" = Some o →
  attrs w !! "layers" = Some (VList hs) →
  attrs w !! "network_params" = Some (VRef l) →
  heap w !! l = Some np →
  np !! "layers" = None →
  tnt_Experiment (VList (resolve i (shape1 m) :: hs ++ [resolve o (length (Py.unique y1))]))
    np = inr e0 →
  train_all e0 (astype_float32 m) (Py.astype_int32 <$> y1) ds1 = inr e1 →
  exp_train e1 (astype_float32 m) (Py.astype_int32 <$> y1) d = inl err →
  fit X y sw w =
    (fitted (Py.unique y1) (resolve i (shape1 m)) hs (resolve o (length (Py.unique y1))) e1 w,
     inl err).
Proof.
  intros Hts Hrefs Hplain Hc Hf Ht Hi Ho Hl Hnp Hh Hnl Hb Htr Hfail.
  rewrite (fit_as_replay X y sw w refs (ds1 ++ d :: ds2)) by done.
  destruct ds1 as [|d1 ds1]; cbn [app replay_stages train_all] in *.
  - simplify_eq.
    pose proof (partial_fit_first_fails X y false d (with_attrs (insert "exp" VNone) w)
                  X1 y1 s1 f m i o hs l np [] e1 err Hc
                  ltac:(lookup_solve) Ht ltac:(lookup_solve) ltac:(lookup_solve)
                  ltac:(lookup_solve) ltac:(lookup_solve) ltac:(lookup_solve)
                  ltac:(lookup_solve) Hnl ltac:(done) Hb Hfail) as Hfirst.
    rewrite (bind_run _ _ _ _ _ Hfirst). cbn beta iota. unfold staged.
    f_equal. unfold fitted. world_eq.
  - destruct (exp_train e0 _ _ d1) as [|e2] eqn:Hd1; [done|].
    pose proof (partial_fit_first X y false d1 (with_attrs (insert "exp" VNone) w)
                  X1 y1 s1 f m i o hs l np [] e0 e2 Hc
                  ltac:(lookup_solve) Ht ltac:(lookup_solve) ltac:(lookup_solve)
                  ltac:(lookup_solve) ltac:(lookup_solve) ltac:(lookup_solve)
                  ltac:(lookup_solve) Hnl ltac:(done) Hb Hd1) as Hfirst.
    rewrite (bind_run _ _ _ _ _ Hfirst). cbn beta iota. unfold staged.
    rewrite (replay_stages_fails X y ds1 d ds2 _ X1 y1 s1 f m e2 e1 err Hc);
      [| unfold fitted; lookup_solve | exact Ht | unfold fitted; lookup_solve
       | unfold fitted; lookup_solve | exact Htr | exact Hfail].
    f_equal. unfold retrained, fitted. world_eq.
Qed.

End Interrupted.

(** ** What training calls never do *)

Section Kept.
Context {ext : Externals} {col : Collaborators}.
Variable w0 : World.

Lemma kept_refl : kept w0 w0.
Proof.
  repeat split; try done.
  - intros stages Hs. exists []. by rewrite app_nil_r.
  - exists []. by rewrite app_nil_r.
Qed.

Lemma kept_setattr n v : n ∈ training_fields → n ≠ "trainers" → stable (kept w0) (setattr n v).
Proof.
  intros Hn Hne w (Ha & Hh & Hf & Hs & Ho). repeat split; try done.
  - intros k Hk. cbn [fst setattr modify attrs with_attrs].
    rewrite lookup_insert_ne by (by intros ->). by apply Ha.
  - intros stages Hst. destruct (Hs _ Hst) as [more Hm]. exists more.
    cbn [fst setattr modify attrs with_attrs]. by rewrite lookup_insert_ne.
Qed.

Lemma kept_print v : stable (kept w0) (print v).
Proof.
  intros w (Ha & Hh & Hf & Hs & [more Ho]). repeat split; try done.
  exists (more ++ [v]). cbn [fst print modify stdout with_stdout]. by rewrite Ho, app_assoc.
Qed.

Lemma kept_initialize_experiment m : stable (kept w0) (initialize_experiment m).
Proof.
  apply initialize_experiment_stable;
    first [intros v; apply kept_setattr; [repeat constructor|done] | apply kept_print].
Qed.

Lemma kept_trainers_append d : stable (kept w0) (trainers_append d).
Proof.
  unfold trainers_append. intros w Hw. pose proof Hw as (Ha & Hh & Hf & Hs & Ho).
  destruct (attrs w !! "trainers") as [ts|] eqn:Hts;
    [erewrite bind_getattr by done|by rewrite bind_getattr_None].
  destruct ts; try done. rewrite bind_new_dict. cbn [fst setattr modify].
  repeat split; try done.
  - intros k Hk. cbn [attrs with_attrs with_heap].
    rewrite lookup_insert_ne; [by apply Ha|]. intros <-. apply Hk. repeat constructor.
  - intros l d0 Hl. cbn [heap with_attrs with_heap]. rewrite lookup_insert_ne; [by apply Hh|].
    intros <-. apply Hh in Hl. by rewrite fresh_not_in in Hl.
  - intros stages Hst. destruct (Hs _ Hst) as [more Hm]. try rewrite Hts in Hm. simplify_eq.
    eexists. cbn [attrs with_attrs with_heap]. rewrite lookup_insert_eq.
    by rewrite <- app_assoc.
Qed.

Lemma kept_run_call c : stable (kept w0) (run_call c).
Proof.
  assert (∀ v, stable (kept w0) (setattr "exp" v)) as Hexp
    by (intros v; apply kept_setattr; [repeat constructor|done]).
  assert (∀ v, stable (kept w0) (setattr "classes_" v)) as Hcl
    by (intros v; apply kept_setattr; [repeat constructor|done]).
  destruct c as [X y sw|X y sw nt d]; simpl.
  - apply fit_stable; [apply Hexp|apply Hcl|apply kept_initialize_experiment|].
    intros m y' d. by apply train_tail_stable.
  - apply partial_fit_stable; [apply Hcl|apply kept_initialize_experiment| |].
    + intros _. apply kept_trainers_append.
    + intros m y'. by apply train_tail_stable.
Qed.

End Kept.

Section KeptTheorem.
Context {ext : Externals} {col : Collaborators}.

(** X21. Whatever training calls are made, [fit] or [partial_fit], with
    whatever arguments and whether they succeed or fail, they assign no
    attribute but the handle, the class labels, the two sizes and the
    schedule (so the hidden layers, the network options and the feature
    list stay), they change no dict that exists (they only add the stages
    they record), they touch no file, and they only ever append: to the
    schedule and to the output. *)
Theorem training_calls_only_add cs w :
  let w' := after_calls cs w in
  (∀ k, k ∉ training_fields → attrs w' !! k = attrs w !! k)
  ∧ (∀ l d, heap w !! l = Some d → heap w' !! l = Some d)
  ∧ fs w' = fs w
  ∧ (∀ stages, attrs w !! "trainers" = Some (VList stages) →
               ∃ more, attrs w' !! "trainers" = Some (VList (stages ++ more)))
  ∧ (∃ more, stdout w' = stdout w ++ more).
Proof.
  cbn zeta. change (kept w (after_calls cs w)).
  induction cs as [|c cs IH] using rev_ind; [apply kept_refl|].
  unfold after_calls. rewrite foldl_snoc. by apply kept_run_call.
Qed.

End KeptTheorem.

(** ** A network that cannot be built *)

Section Unbuilt.
Context {ext : Externals} {col : Collaborators}.

Lemma initialize_experiment_fails m w i o hs l np c err :
  attrs w !! "input_layer" = Some i →
  attrs w !! "output_layer" = Some o →
  attrs w !! "layers" = Some (VList hs) →
  attrs w !! "classes_" = Some (VArray c) →
  attrs w !! "network_params" = Some (VRef l) →
  heap w !! l = Some np →
  np !! "layers" = None →
  tnt_Experiment (VList (resolve i (shape1 m) :: hs ++ [resolve o (length c)])) np = inl err →
  initialize_experiment m w =
    (unbuilt c (resolve i (shape1 m)) hs (resolve o (length c)) w, inl err).
Proof.
  intros Hi Ho Hl Hc Hnp Hh Hnl Hb.
  unfold initialize_experiment.
  step.
  assert (Hi' : ∀ B (k : unit → M B),
    bind (if eq_minus_one i then setattr "input_layer" (VInt (Z.of_nat (shape1 m)))
          else ret tt) k w
    = k tt (with_attrs (insert "input_layer" (resolve i (shape1 m))) w)).
  { intros B k. unfold resolve. destruct (eq_minus_one i); [done|].
    by rewrite with_attrs_insert_id. }
  rewrite Hi'. clear Hi'.
  step.
  set (w1 := with_attrs _ w).
  assert (Ho' : ∀ B (k : unit → M B),
    bind (if eq_minus_one o
          then let* c := getattr "classes_" in let* n := len c in
               setattr "output_layer" (VInt n)
          else ret tt) k w1
    = k tt (with_attrs (insert "output_layer" (resolve o (length c))) w1)).
  { intros B k. unfold resolve. destruct (eq_minus_one o).
    - subst w1. repeat step. unfold len. by repeat step.
    - rewrite with_attrs_insert_id; [done|]. subst w1. lookup_solve. }
  rewrite Ho'. clear Ho'. subst w1.
  unfold full_layers. repeat step.
  unfold new_Experiment. repeat step.
  rewrite bool_decide_eq_false_2 by (rewrite Hnl; by intros [? ?]).
  cbn [app snd]. rewrite Hb, bind_lift. unfold unbuilt.
  f_equal. world_eq.
Qed.

(** X22. When the library refuses to build the network, the training
    call that asked for it raises that error with the adapter already
    changed: the class labels are those of the call, the sentinel sizes
    have given way to the sizes observed on its data and the layer sequence
    has been printed; there is still no handle and the stage has not been
    recorded. *)
Theorem refused_network_leaves_resolved_sizes
    X y nt d w X1 y1 s1 f m i o hs l np err :
  check_inputs X y VNone = inr (X1, y1, s1) →
  attrs w !! "features" = Some f →
  transform f X1 = inr m →
  attrs w !! "exp" = Some VNone →
  attrs w !! "input_layer" = Some i →
  attrs w !! "output_layer" = Some o →
  attrs w !! "layers" = Some (VList hs) →
  attrs w !! "network_params" = Some (VRef l) →
  heap w !! l = Some np →
  np !! "layers" = None →
  let i' := resolve i (shape1 m) in
  let o' := resolve o (length (Py.unique y1)) in
  tnt_Experiment (VList (i' :: hs ++ [o'])) np = inl err →
  partial_fit X y VNone nt d w = (unbuilt (Py.unique y1) i' hs o' w, inl err)
  ∧ sizes_are i' o' (partial_fit X y VNone nt d w).1
  ∧ handle_is VNone (partial_fit X y VNone nt d w).1
  ∧ schedule (partial_fit X y VNone nt d w).1 = schedule w.
Proof.
  intros Hc Hf Ht He Hi Ho Hl Hnp Hh Hnl i' o' Hb.
  assert (partial_fit X y VNone nt d w = (unbuilt (Py.unique y1) i' hs o' w, inl err)) as Hrun.
  { unfold partial_fit. cbn [is_none negb].
    rewrite bind_lift, Hc. cbn [fst snd].
    erewrite bind_transform_data by lookup_solve. rewrite Ht.
    repeat step.
    erewrite (bind_run (initialize_experiment m));
      [| eapply initialize_experiment_fails; [lookup_solve ..| exact Hnl | exact Hb]].
    cbn beta iota. f_equal. unfold unbuilt. world_eq. }
  rewrite Hrun. split; [done|]. cbn [fst]. unfold sizes_are, handle_is, schedule, unbuilt.
  cbn [attrs heap]. split; [split; lookup_solve|]. split; [lookup_solve|].
  by rewrite !lookup_insert_ne.
Qed.

End Unbuilt.

(** * The adapter on concrete inputs *)

Import Reference.

(** C3: [set_params(bogus_key=1)] does not fail with the error of
    [set_params] that names the key: the key is split at its underscore and
    [int] is applied to what follows the first seven characters, so the call
    dies with [ValueError] on the empty string. A key whose first seven
    characters are anything at all, followed by a stage index, is accepted and
    written into that stage. A key without an underscore does get the error
    that names it. *)
Theorem set_params_bogus_key :
  let accepted := set_params [("abcdefg0_rate", VInt 1)] clf in
  (set_params [("bogus_key", VInt 1)] clf).2
  = inl (ValueError "invalid literal for int() with base 10: ''")
  ∧ accepted.2 = inr tt
  ∧ stage clf 0 = Some ∅
  ∧ stage accepted.1 0 ≫= lookup "rate" = Some (VInt 1)
  ∧ (set_params [("bogus", VInt 1)] clf).2
    = inl (AttributeError "bogus is an invalid parameter for a NN with multiple training").
Proof. repeat split; vm_compute; reflexivity. Qed.

(** C6: a second [fit], on data with two distinct labels, after a first one
    on data with three: the new network is built with the output width 3 that
    the first call stored in [output_layer], not with 2. *)
Theorem refit_keeps_stale_width :
  let first := fit (table 6) (labels 3 6) VNone clf in
  let second := fit (table 6) (labels 2 6) VNone first.1 in
  first.2 = inr VSelf
  ∧ second.2 = inr VSelf
  ∧ Py.unique (labels 2 6) = [0; 1]
  ∧ attrs second.1 !! "output_layer" = Some (VInt 3)
  ∧ attrs second.1 !! "exp" = Some (VExp (net [4; 10; 3] 1))
  ∧ stdout second.1 = [VList [VInt 4; VInt 10; VInt 3]; VList [VInt 4; VInt 10; VInt 3]].
Proof. repeat split; vm_compute; reflexivity. Qed.

(** C8: [fit] does not look at [sample_weight]; with weights it trains as
    without, where [partial_fit] refuses them. *)
Theorem fit_ignores_sample_weight :
  let weights := VList [VInt 1; VInt 2; VInt 1; VInt 2; VInt 1; VInt 2] in
  (∀ (E : Externals) (C : @Collaborators E) (X : @Table E) (y : list Z) (sw : Value)
     (w : World), @fit E C X y sw w = @fit E C X y VNone w)
  ∧ (fit (table 6) (labels 3 6) weights clf).2 = inr VSelf
  ∧ attrs (fit (table 6) (labels 3 6) weights clf).1 !! "exp"
    = Some (VExp (net [4; 10; 3] 1))
  ∧ (partial_fit (table 6) (labels 3 6) weights true ∅ clf).2 = inl not_supported.
Proof.
  split; [intros E C X y sw w; reflexivity|].
  repeat split; vm_compute; reflexivity.
Qed.

(** C4, as stated, fails when two stages are one dict object: the key of
    stage 0 changes stage 1 as well. *)
Lemma set_params_shared_stage :
  let call := set_params [(trainer_key 0 "rate", one_tenth)] shared_stage in
  trainer_key 0 "rate" = "trainer0_rate"
  ∧ call.2 = inr tt
  ∧ stage shared_stage 1 = Some ∅
  ∧ stage call.1 1 ≫= lookup "rate" = Some one_tenth
  ∧ stage call.1 1 ≠ stage shared_stage 1.
Proof.
  assert (stage (set_params [(trainer_key 0 "rate", one_tenth)] shared_stage).1 1
            ≫= lookup "rate" = Some one_tenth) as Hafter by (vm_compute; reflexivity).
  assert (stage shared_stage 1 ≫= lookup "rate" = None) as Hbefore
    by (vm_compute; reflexivity).
  repeat split; try (vm_compute; reflexivity).
  intros Heq. cbv zeta in Heq. rewrite Heq in Hafter. congruence.
Qed.

(** C7, as stated, fails: a [partial_fit] after a [fit] replaces the class
    labels, while the network keeps its three output columns. *)
Lemma partial_fit_replaces_classes :
  let first := fit (table 6) (labels 3 6) VNone clf in
  let second := partial_fit (table 4) (labels 2 4) VNone true ∅ first.1 in
  first.2 = inr VSelf
  ∧ second.2 = inr VSelf
  ∧ attrs first.1 !! "classes_" = Some (VArray [0; 1; 2])
  ∧ attrs second.1 !! "classes_" = Some (VArray [0; 1])
  ∧ (predict_proba (table 1) second.1).2 = inr [[2; 2; 2]].
Proof. repeat split; vm_compute; reflexivity. Qed.

(** C9, as stated, fails: the only training call made has failed, in the
    library, after the network was built; the handle is set and
    [predict_proba] answers. *)
Lemma handle_after_failed_training :
  let call := partial_fit (table 6) (labels 3 6) VNone true
                {[ "optimize" := VStr "bogus" ]} clf in
  call.2 = inl (LibraryError "unknown optimizer: bogus")
  ∧ attrs call.1 !! "exp" = Some (VExp (net [4; 10; 3] 0))
  ∧ (predict_proba (table 2) call.1).2 = inr [[0; 0; 0]; [0; 0; 0]].
Proof. repeat split; vm_compute; reflexivity. Qed.

(** C10, as stated, fails on an empty schedule: [fit] succeeds without
    running a stage and the sentinels stay. *)
Lemma fit_on_empty_schedule :
  let call := fit (table 6) (labels 3 6) VNone no_stage in
  call.2 = inr VSelf
  ∧ attrs call.1 !! "input_layer" = Some (VInt (-1))
  ∧ attrs call.1 !! "output_layer" = Some (VInt (-1))
  ∧ reported call.1 "input_layer" = Some (VInt (-1))
  ∧ reported call.1 "output_layer" = Some (VInt (-1)).
Proof. repeat split; vm_compute; reflexivity. Qed.

(** ** Instances of the theorems *)

Lemma fit_replays_trainer_schedule_witness :
  fit (table 6) (labels 3 6) VNone two_stages
  = replay_stages (table 6) (labels 3 6) [sgd; nag]
      (with_attrs (insert "exp" VNone) two_stages)
  ∧ schedule (fit (table 6) (labels 3 6) VNone two_stages).1 = schedule two_stages
  ∧ (∀ v, (fit (table 6) (labels 3 6) VNone two_stages).2 = inr v → v = VSelf).
Proof.
  apply (@fit_replays_trainer_schedule externals collaborators
           (table 6) (labels 3 6) VNone two_stages [10%positive; 11%positive] [sgd; nag]).
  - vm_compute. reflexivity.
  - constructor; [vm_compute; reflexivity|].
    constructor; [vm_compute; reflexivity|]. constructor.
  - constructor; [repeat split; vm_compute; reflexivity|].
    constructor; [repeat split; vm_compute; reflexivity|]. constructor.
Defined.

(** The example of the specification: [layers=[5]] and both sentinels, a
    100x4 table with 3 distinct labels; the network is built from
    [[4, 5, 3]]. *)
Lemma sizes_resolved_before_construction_witness :
  ∃ w', fit (table 100) (labels 3 100) VNone five = (w', inr VSelf)
        ∧ built_from [VInt 4; VInt 5; VInt 3] (VInt 4) (VInt 3) (net [4; 5; 3] 1) five w'.
Proof.
  pose proof (@sizes_resolved_before_construction externals collaborators
                (table 100) (labels 3 100) VNone five
                (table 100) (labels 3 100) VNone VNone (rows (table 100))
                (VInt (-1)) (VInt (-1)) [VInt 5] 1%positive
                (default ∅ (heap five !! 1%positive)) (net [4; 5; 3] 0)
                ltac:(vm_compute; reflexivity) ltac:(vm_compute; reflexivity)
                ltac:(vm_compute; reflexivity) ltac:(vm_compute; reflexivity)
                ltac:(vm_compute; reflexivity) ltac:(vm_compute; reflexivity)
                ltac:(vm_compute; reflexivity)
                ltac:(apply lookup_by_default; vm_compute; reflexivity)
                ltac:(vm_compute; reflexivity) ltac:(vm_compute; reflexivity))
    as (_ & Hfit & _).
  apply (Hfit [2%positive] ∅ [] (net [4; 5; 3] 1)).
  - vm_compute. reflexivity.
  - constructor; [vm_compute; reflexivity|]. constructor.
  - constructor; [repeat split; vm_compute; reflexivity|]. constructor.
  - vm_compute. reflexivity.
Defined.

Lemma set_params_updates_one_stage_witness :
  ∃ w', set_params [(trainer_key 1 "rate", one_tenth)] two_stages = (w', inr tt)
    ∧ stage w' 1 = Some (<["rate" := one_tenth]> nag)
    ∧ attrs w' = attrs two_stages
    ∧ (∀ j l', [VRef 10%positive; VRef 11%positive] !! j = Some (VRef l') →
               l' ≠ 11%positive → stage w' j = stage two_stages j)
    ∧ (12%positive ≠ 11%positive → network_options w' = network_options two_stages)
    ∧ fs w' = fs two_stages ∧ stdout w' = stdout two_stages.
Proof.
  apply (@set_params_updates_one_stage externals collaborators
           two_stages 1 "rate" one_tenth
           [VRef 10%positive; VRef 11%positive] 12%positive
           (default ∅ (heap two_stages !! 12%positive)) 11%positive nag).
  - vm_compute. reflexivity.
  - apply (bool_decide_unpack _). vm_compute. exact I.
  - vm_compute. reflexivity.
  - apply lookup_by_default. vm_compute. reflexivity.
  - vm_compute. reflexivity.
  - vm_compute. reflexivity.
  - vm_compute. reflexivity.
  - vm_compute. reflexivity.
Defined.


Lemma classes_follow_latest_training_call_witness :
  classes_are [0; 1] (partial_fit (table 4) (labels 2 4) VNone true ∅ trained).1.
Proof.
  apply (@classes_follow_latest_training_call externals collaborators
           (table 4) (labels 2 4) VNone true ∅ trained
           (table 4) (labels 2 4) VNone VNone (rows (table 4))).
  - vm_compute. reflexivity.
  - vm_compute. reflexivity.
  - vm_compute. reflexivity.
Defined.

Lemma not_fitted_without_handle_witness :
  (handle_is VNone
     (after_calls [Fit (table 6) (labels 3 5) VNone;
                   PartialFit (table 6) (labels 3 6) VNone true
                     {[ "optimize" := VStr "bogus" ]}] clf)
   ∨ (holds_built_network
        (after_calls [Fit (table 6) (labels 3 5) VNone;
                      PartialFit (table 6) (labels 3 6) VNone true
                        {[ "optimize" := VStr "bogus" ]}] clf)
      ∧ ∃ before c after,
          [Fit (table 6) (labels 3 5) VNone;
           PartialFit (table 6) (labels 3 6) VNone true {[ "optimize" := VStr "bogus" ]}]
          = before ++ c :: after
          ∧ handle_is VNone (after_calls before clf)
          ∧ holds_built_network (run_call c (after_calls before clf)).1))
  ∧ partial_fit (table 6) (labels 3 6) (VList [VInt 1]) true ∅ clf = (clf, inl not_supported)
  ∧ predict_proba (table 2) clf = (clf, inl not_fitted)
  ∧ _check_fitted trained = (trained, inr tt).
Proof.
  destruct (@not_fitted_without_handle externals collaborators)
    as (_ & Hcalls & Hweights & Hnone & Hsome).
  split; [|split; [|split]].
  - apply Hcalls. vm_compute. reflexivity.
  - apply Hweights. reflexivity.
  - apply Hnone. vm_compute. reflexivity.
  - apply (proj1 (Hsome (table 2) trained (@VExp externals (net [4; 10; 3] 1))
                    ltac:(vm_compute; reflexivity) ltac:(reflexivity))).
Defined.

Lemma inferred_sizes_are_stored_witness :
  ∃ w1, fit (table 6) (labels 3 6) VNone clf = (w1, inr VSelf)
        ∧ stored_for_good (VInt 4) (VInt 3) w1.
Proof.
  pose proof (@inferred_sizes_are_stored externals collaborators
                (table 6) (labels 3 6) VNone clf
                (table 6) (labels 3 6) VNone VNone (rows (table 6))
                (-1) (-1) [VInt 10] 1%positive
                (default ∅ (heap clf !! 1%positive)) (net [4; 10; 3] 0)
                ltac:(vm_compute; reflexivity) ltac:(vm_compute; reflexivity)
                ltac:(vm_compute; reflexivity) ltac:(vm_compute; reflexivity)
                ltac:(vm_compute; reflexivity) ltac:(vm_compute; reflexivity)
                ltac:(vm_compute; reflexivity)
                ltac:(apply lookup_by_default; vm_compute; reflexivity)
                ltac:(vm_compute; reflexivity) ltac:(vm_compute; reflexivity))
    as (_ & Hfit & _).
  apply (Hfit [2%positive] ∅ [] (net [4; 10; 3] 1)).
  - vm_compute. reflexivity.
  - constructor; [vm_compute; reflexivity|]. constructor.
  - constructor; [repeat split; vm_compute; reflexivity|]. constructor.
  - vm_compute. reflexivity.
Defined.

(** ** Instances of the properties of the rest of the protocol *)

Import ReferenceRuns.

Lemma set_params_of_get_params_witness :
  set_params [("layers", VList [VInt 10]); ("hidden_activation", VStr "logistic");
              ("input_layer", VInt (-1))] clf = (clf, inr tt).
Proof.
  apply (@set_params_of_get_params externals collaborators clf).
  constructor; [split; [vm_compute; reflexivity|left; apply (bool_decide_unpack _); vm_compute; exact I]|].
  constructor; [split; [vm_compute; reflexivity|right; vm_compute; reflexivity]|].
  constructor; [split; [vm_compute; reflexivity|left; apply (bool_decide_unpack _); vm_compute; exact I]|].
  constructor.
Defined.

Lemma set_params_then_get_params_witness :
  ∃ w', set_params [("hidden_activation", VStr "tanh")] trained = (w', inr tt)
        ∧ reported w' "hidden_activation" = Some (VStr "tanh")
        ∧ ∀ k, k ≠ "hidden_activation" → reported w' k = reported trained k.
Proof.
  apply (@set_params_then_get_params externals collaborators trained
           "hidden_activation" (VStr "logistic") (VStr "tanh")).
  - vm_compute. reflexivity.
  - right. vm_compute. reflexivity.
Defined.

Lemma set_params_stops_at_invalid_key_witness :
  set_params ([("layers", VList [VInt 3])] ++ ("bogus", VInt 1) :: [("input_layer", VInt 7)]) clf
  = ((set_params [("layers", VList [VInt 3])] clf).1, inl (invalid_parameter "bogus")).
Proof.
  apply (@set_params_stops_at_invalid_key externals collaborators clf
           (set_params [("layers", VList [VInt 3])] clf).1
           [("layers", VList [VInt 3])] "bogus" (VInt 1) [("input_layer", VInt 7)]
           1%positive
           (default ∅ (heap (set_params [("layers", VList [VInt 3])] clf).1 !! 1%positive))).
  - apply outcome_unit. vm_compute. reflexivity.
  - vm_compute. reflexivity.
  - vm_compute. reflexivity.
  - apply lookup_by_default. vm_compute. reflexivity.
  - vm_compute. reflexivity.
  - vm_compute. reflexivity.
Defined.

Lemma set_params_stage_out_of_range_witness :
  set_params [(trainer_key 3 "rate", one_tenth)] clf = (clf, inl index_out_of_range).
Proof.
  apply (@set_params_stage_out_of_range externals collaborators clf 3 "rate" one_tenth
           [VRef 2%positive] 1%positive (default ∅ (heap clf !! 1%positive))).
  - vm_compute. reflexivity.
  - vm_compute. reflexivity.
  - apply lookup_by_default. vm_compute. reflexivity.
  - vm_compute. reflexivity.
  - vm_compute. reflexivity.
  - simpl. lia.
Defined.

Lemma set_params_counts_from_end_witness :
  ∃ w', set_params [(trainer_key_from_end 1 "rate", one_tenth)] two_stages = (w', inr tt)
        ∧ stage w' (length [VRef 10%positive; VRef 11%positive] - 1)
          = Some (<["rate" := one_tenth]> nag)
        ∧ attrs w' = attrs two_stages.
Proof.
  apply (@set_params_counts_from_end externals collaborators two_stages 1 "rate" one_tenth
           [VRef 10%positive; VRef 11%positive] 12%positive
           (default ∅ (heap two_stages !! 12%positive)) 11%positive nag).
  - vm_compute. reflexivity.
  - vm_compute. reflexivity.
  - apply lookup_by_default. vm_compute. reflexivity.
  - vm_compute. reflexivity.
  - vm_compute. reflexivity.
  - simpl. lia.
  - vm_compute. reflexivity.
  - vm_compute. reflexivity.
Defined.

Lemma set_params_keeps_predictions_witness :
  (predict_proba (table 2)
     (set_params [("layers", VList [VInt 3]); ("output_layer", VInt 7); ("bogus", VInt 1)]
        trained).1).2
  = (predict_proba (table 2) trained).2.
Proof.
  apply (@set_params_keeps_predictions externals collaborators).
  repeat (constructor;
          [split; [split; [apply (bool_decide_unpack _); vm_compute; exact I
                          |split; [apply (bool_decide_unpack _); vm_compute; exact I
                                  |reflexivity]]
                  |split; simpl; discriminate]|]).
  constructor.
Defined.

Lemma set_params_adds_no_option_witness :
  dom <$> network_options
            (set_params [("hidden_activation", VStr "tanh"); ("weight_l2", VInt 1)] clf).1
  = Some (dom (default ∅ (heap clf !! 1%positive))).
Proof.
  apply (@set_params_adds_no_option externals collaborators
           [("hidden_activation", VStr "tanh"); ("weight_l2", VInt 1)] clf 1%positive).
  - vm_compute. reflexivity.
  - apply lookup_by_default. vm_compute. reflexivity.
  - unfold no_stage_at.
    assert (schedule_entries clf = [VRef 2%positive]) as -> by (vm_compute; reflexivity).
    constructor; [discriminate|constructor].
  - repeat (constructor;
            [split; [split; [apply (bool_decide_unpack _); vm_compute; exact I
                            |split; [apply (bool_decide_unpack _); vm_compute; exact I
                                    |reflexivity]]
                    |split; simpl; discriminate]|]).
    constructor.
Defined.

Lemma getstate_is_a_picklable_copy_witness :
  fs (__getstate__ trained).1 !! mktemp (fs trained) = None
  ∧ dumped !! "exp" = None
  ∧ (∀ k, k ≠ "exp" → k ≠ "dumped_exp" → dumped !! k = attrs trained !! k)
  ∧ (handle_is VNone trained ∧ dumped !! "dumped_exp" = Some VNone
     ∨ ∃ e b, handle_is (VExp e) trained ∧ exp_save e = inr b
              ∧ dumped !! "dumped_exp" = Some (VBytes b)).
Proof.
  destruct (@getstate_is_a_picklable_copy externals collaborators trained)
    as (_ & _ & _ & Hfile & Hshape).
  split.
  - apply (Hfile (@VExp externals (net [4; 10; 3] 1))); [vm_compute; reflexivity|discriminate].
  - apply Hshape. apply result_value. vm_compute. reflexivity.
Defined.

Lemma setstate_installs_the_dictionary_witness :
  attrs unpickled !! "dumped_exp" = None
  ∧ (∀ k, k ≠ "exp" → k ≠ "dumped_exp" → attrs unpickled !! k = snap_state pickled !! k)
  ∧ (snap_state pickled !! "dumped_exp" = Some VNone ∧ handle_is VNone unpickled
     ∨ ∃ b i hs o l np e0 e',
         snap_state pickled !! "dumped_exp" = Some (VBytes b)
         ∧ snap_state pickled !! "input_layer" = Some i
         ∧ snap_state pickled !! "layers" = Some (VList hs)
         ∧ snap_state pickled !! "output_layer" = Some o
         ∧ snap_state pickled !! "network_params" = Some (VRef l)
         ∧ heap (mkWorld ∅ (snap_heap pickled) ∅ []) !! l = Some np
         ∧ tnt_Experiment (VList (i :: hs ++ [o])) np = inr e0
         ∧ exp_load e0 b = inr e'
         ∧ handle_is (VExp e') unpickled).
Proof.
  destruct (@setstate_installs_the_dictionary externals collaborators
              (snap_state pickled) (mkWorld ∅ (snap_heap pickled) ∅ []))
    as (_ & _ & _ & _ & Hshape).
  apply Hshape. vm_compute. reflexivity.
Defined.

Lemma pickle_restores_every_attribute_witness :
  (∀ k, k ≠ "exp" → attrs unpickled !! k = attrs trained !! k)
  ∧ heap unpickled = heap trained
  ∧ (handle_is VNone unpickled ↔ handle_is VNone trained).
Proof.
  apply (@pickle_restores_every_attribute externals collaborators
           trained (serialize trained).1 pickled ∅ [] unpickled).
  - apply outcome_parts. vm_compute. reflexivity.
  - apply outcome_unit. vm_compute. reflexivity.
  - vm_compute. reflexivity.
Defined.

Lemma constructor_arguments_are_reported_witness :
  reported clf "layers" = Some (VList [VInt 10])
  ∧ ∃ l, reported clf "trainers" = Some (VList [VRef l])
         ∧ heap clf !! l = Some ∅ ∧ (∅ : gmap loc (gmap string Value)) !! l = None.
Proof.
  destruct (@constructor_arguments_are_reported externals default_args ∅)
    as (_ & Hlayers & _ & _ & _ & _ & _ & Hdefault).
  split; [exact Hlayers|]. apply Hdefault. reflexivity.
Defined.

Lemma constructor_allocates_its_own_dicts_witness :
  (∀ l d, heap clf !! l = Some d → heap (constructed (heap clf) default_args) !! l = Some d)
  ∧ ∃ ln, attrs (constructed (heap clf) default_args) !! "network_params" = Some (VRef ln)
          ∧ heap clf !! ln = None.
Proof.
  destruct (@constructor_allocates_its_own_dicts externals default_args (heap clf))
    as (Hold & (ln & Hnp & Hnew & _) & _).
  split; [exact Hold|]. by exists ln.
Defined.

Lemma turned_down_inputs_witness :
  partial_fit (table 6) (labels 3 5) VNone true sgd trained
  = (trained, inl (LibraryError "Different size of X and y"))
  ∧ fit (table 6) (labels 3 5) VNone trained
    = (with_attrs (insert "exp" VNone) trained, inl (LibraryError "Different size of X and y"))
  ∧ ∀ X', predict_proba X' (fit (table 6) (labels 3 5) VNone trained).1
          = ((fit (table 6) (labels 3 5) VNone trained).1, inl not_fitted).
Proof.
  destruct (@turned_down_inputs externals collaborators (table 6) (labels 3 5) VNone trained
              (LibraryError "Different size of X and y")) as [Hpartial Hfit].
  { left. vm_compute. reflexivity. }
  split; [apply Hpartial|].
  apply (Hfit 2%positive [] ∅).
  - vm_compute. reflexivity.
  - vm_compute. reflexivity.
  - repeat split; vm_compute; reflexivity.
Defined.

Lemma failed_stage_is_recorded_witness :
  ∃ w' l, partial_fit (table 6) (labels 3 6) VNone true bogus trained
          = (w', inl (LibraryError "unknown optimizer: bogus"))
          ∧ heap trained !! l = None
          ∧ attrs w' !! "trainers" = Some (VList ([VRef 2%positive] ++ [VRef l]))
          ∧ stage w' (length [VRef 2%positive]) = Some bogus
          ∧ classes_are (Py.unique (labels 3 6)) w'
          ∧ handle_is (VExp (net [4; 10; 3] 1)) w'.
Proof.
  apply (@failed_stage_is_recorded externals collaborators
           (table 6) (labels 3 6) bogus trained (table 6) (labels 3 6) VNone VNone
           (rows (table 6)) (net [4; 10; 3] 1) [VRef 2%positive]
           (LibraryError "unknown optimizer: bogus")).
  - vm_compute. reflexivity.
  - vm_compute. reflexivity.
  - vm_compute. reflexivity.
  - vm_compute. reflexivity.
  - vm_compute. reflexivity.
  - vm_compute. reflexivity.
Defined.

Lemma partial_fit_keeps_the_network_witness :
  ∃ w', partial_fit (table 4) (labels 2 4) VNone true sgd trained = (w', inr VSelf)
        ∧ handle_is (VExp (net [4; 10; 3] 2)) w'
        ∧ stdout w' = stdout trained
        ∧ fs w' = fs trained
        ∧ (∀ k, k ≠ "exp" → k ≠ "classes_" → k ≠ "trainers" →
                attrs w' !! k = attrs trained !! k)
        ∧ (∀ l d0, heap trained !! l = Some d0 → heap w' !! l = Some d0)
        ∧ (true = false → schedule w' = schedule trained).
Proof.
  apply (@partial_fit_keeps_the_network externals collaborators
           (table 4) (labels 2 4) true sgd trained (table 4) (labels 2 4) VNone VNone
           (rows (table 4)) (net [4; 10; 3] 1) [VRef 2%positive] (net [4; 10; 3] 2)).
  - vm_compute. reflexivity.
  - vm_compute. reflexivity.
  - vm_compute. reflexivity.
  - vm_compute. reflexivity.
  - intros _. vm_compute. reflexivity.
  - vm_compute. reflexivity.
Defined.

Lemma recorded_stage_is_replayed_witness :
  ∃ w1, partial_fit (table 4) (labels 2 4) VNone true sgd trained = (w1, inr VSelf)
        ∧ stage w1 (length [2%positive]) = Some sgd
        ∧ ∀ X' y' sw,
            fit X' y' sw w1
            = replay_stages X' y' ([∅] ++ [sgd]) (with_attrs (insert "exp" VNone) w1).
Proof.
  apply (@recorded_stage_is_replayed externals collaborators
           (table 4) (labels 2 4) sgd trained (table 4) (labels 2 4) VNone VNone
           (rows (table 4)) (net [4; 10; 3] 1) [2%positive] [∅] (net [4; 10; 3] 2)).
  - vm_compute. reflexivity.
  - vm_compute. reflexivity.
  - vm_compute. reflexivity.
  - vm_compute. reflexivity.
  - vm_compute. reflexivity.
  - constructor; [vm_compute; reflexivity|constructor].
  - constructor; [repeat split; vm_compute; reflexivity|constructor].
  - repeat split; vm_compute; reflexivity.
  - vm_compute. reflexivity.
Defined.

Lemma empty_schedule_leaves_unfitted_witness :
  fit (table 6) (labels 3 5) VNone emptied
  = (with_attrs (insert "exp" VNone) emptied, inr VSelf)
  ∧ ∀ X', predict_proba X' (fit (table 6) (labels 3 5) VNone emptied).1
          = ((fit (table 6) (labels 3 5) VNone emptied).1, inl not_fitted).
Proof.
  apply (@empty_schedule_leaves_unfitted externals collaborators).
  left. vm_compute. reflexivity.
Defined.

Lemma stage_sample_weight_is_a_parameter_witness :
  fit (table 6) (labels 3 6) VNone weighted_stage
  = (with_attrs (insert "exp" VNone) weighted_stage, inl not_supported).
Proof.
  apply (proj1 (@stage_sample_weight_is_a_parameter externals collaborators
                  (table 6) (labels 3 6) VNone weighted_stage 10%positive []
                  {[ "sample_weight" := weights ]} weights
                  ltac:(vm_compute; reflexivity) ltac:(vm_compute; reflexivity)
                  ltac:(vm_compute; reflexivity) ltac:(vm_compute; reflexivity)
                  ltac:(vm_compute; reflexivity) ltac:(vm_compute; reflexivity)
                  ltac:(vm_compute; reflexivity))).
  reflexivity.
Defined.

Lemma fit_stops_at_failing_stage_witness :
  fit (table 6) (labels 3 6) VNone failing_schedule
  = (fitted (Py.unique (labels 3 6))
       (resolve (VInt (-1)) (shape1 (rows (table 6)))) [VInt 10]
       (resolve (VInt (-1)) (length (Py.unique (labels 3 6)))) (net [4; 10; 3] 1)
       failing_schedule,
     inl (LibraryError "unknown optimizer: bogus")).
Proof.
  apply (@fit_stops_at_failing_stage externals collaborators
           (table 6) (labels 3 6) VNone failing_schedule
           [10%positive; 11%positive; 12%positive] [sgd] bogus [nag]
           (table 6) (labels 3 6) VNone VNone (rows (table 6))
           (VInt (-1)) (VInt (-1)) [VInt 10] 13%positive
           (default ∅ (heap failing_schedule !! 13%positive))
           (net [4; 10; 3] 0) (net [4; 10; 3] 1)
           (LibraryError "unknown optimizer: bogus")).
  - vm_compute. reflexivity.
  - repeat (constructor; [vm_compute; reflexivity|]). constructor.
  - repeat (constructor; [repeat split; vm_compute; reflexivity|]). constructor.
  - vm_compute. reflexivity.
  - vm_compute. reflexivity.
  - vm_compute. reflexivity.
  - vm_compute. reflexivity.
  - vm_compute. reflexivity.
  - vm_compute. reflexivity.
  - vm_compute. reflexivity.
  - apply lookup_by_default. vm_compute. reflexivity.
  - vm_compute. reflexivity.
  - vm_compute. reflexivity.
  - vm_compute. reflexivity.
  - vm_compute. reflexivity.
Defined.

Lemma training_calls_only_add_witness :
  attrs (after_calls two_calls clf) !! "layers" = attrs clf !! "layers"
  ∧ fs (after_calls two_calls clf) = fs clf
  ∧ ∃ more, attrs (after_calls two_calls clf) !! "trainers"
            = Some (VList ([VRef 2%positive] ++ more)).
Proof.
  destruct (@training_calls_only_add externals collaborators two_calls clf)
    as (Hattrs & _ & Hfs & Hschedule & _).
  split; [|split; [exact Hfs|]].
  - apply Hattrs. unfold training_fields.
    intros Hin. repeat (apply elem_of_cons in Hin as [Hin|Hin]; [discriminate|]).
    by apply elem_of_nil in Hin.
  - apply Hschedule. vm_compute. reflexivity.
Defined.

Lemma refused_network_leaves_resolved_sizes_witness :
  partial_fit (table 6) (labels 3 6) VNone true sgd no_unit
  = (unbuilt (Py.unique (labels 3 6))
       (resolve (VInt (-1)) (shape1 (rows (table 6)))) [VInt 0]
       (resolve (VInt (-1)) (length (Py.unique (labels 3 6)))) no_unit,
     inl (LibraryError "malformed layer configuration"))
  ∧ sizes_are (resolve (VInt (-1)) (shape1 (rows (table 6))))
      (resolve (VInt (-1)) (length (Py.unique (labels 3 6))))
      (partial_fit (table 6) (labels 3 6) VNone true sgd no_unit).1
  ∧ handle_is VNone (partial_fit (table 6) (labels 3 6) VNone true sgd no_unit).1
  ∧ schedule (partial_fit (table 6) (labels 3 6) VNone true sgd no_unit).1 = schedule no_unit.
Proof.
  apply (@refused_network_leaves_resolved_sizes externals collaborators
           (table 6) (labels 3 6) true sgd no_unit (table 6) (labels 3 6) VNone VNone
           (rows (table 6)) (VInt (-1)) (VInt (-1)) [VInt 0] 1%positive
           (default ∅ (heap no_unit !! 1%positive))
           (LibraryError "malformed layer configuration")).
  - vm_compute. reflexivity.
  - vm_compute. reflexivity.
  - vm_compute. reflexivity.
  - vm_compute. reflexivity.
  - vm_compute. reflexivity.
  - vm_compute. reflexivity.
  - vm_compute. reflexivity.
  - vm_compute. reflexivity.
  - apply lookup_by_default. vm_compute. reflexivity.
  - vm_compute. reflexivity.
  - vm_compute. reflexivity.
Defined.
